(** * ColossalAI: meta-tensor proxy and pipeline-staged T5 forwards

    A shallow embedding of

    - [colossalai/fx/profiler/tensor.py]   (class [MetaTensor]), and
    - [colossalai/shardformer/modeling/t5.py] (class [T5PipelineForwards]),

    followed by the properties of the two components.  Python exceptions
    are values of [exn]; a call that may raise returns [result A].  The
    numeric engine, the transformer blocks and the other collaborators the two
    files call into are parameters of the embedding. *)

From Stdlib Require Import ZArith List String Bool Lia DecimalString.
Import ListNotations.
Local Open Scope string_scope.
Local Open Scope Z_scope.

(** ** Host-language exceptions and the error monad *)

Inductive exn : Type :=
| TypeError (msg : string)
| ValueError (msg : string)
| AttributeError (msg : string)
| UnboundLocalError (name : string)
| IndexError (msg : string)
| KeyError (msg : string)
| CollaboratorError (msg : string).

Definition result (A : Type) : Type := (exn + A)%type.

Definition ok {A} (a : A) : result A := inr a.
Definition raise {A} (e : exn) : result A := inl e.

Definition rbind {A B} (m : result A) (f : A -> result B) : result B :=
  match m with
  | inl e => inl e
  | inr a => f a
  end.

Declare Scope result_scope.
Delimit Scope result_scope with result.
Notation "'let?' x ':=' m 'in' k" := (rbind m (fun x => k))
  (at level 10, x name, m at level 100, k at level 200) : result_scope.
Notation "'let?' ' p ':=' m 'in' k" :=
  (rbind m (fun x => match x with p => k end))
  (at level 10, p pattern, m at level 100, k at level 200) : result_scope.
Local Open Scope result_scope.

(** What a collaborator (the numeric engine, a sub-module of the host model)
    answers: a value, or the error it raised, which the caller passes on as
    it is. *)
Definition delegated (A : Type) : Type := (string + A)%type.

Definition of_delegated {A} (d : delegated A) : result A :=
  match d with
  | inl msg => inl (CollaboratorError msg)
  | inr a => inr a
  end.

(** [ConfigurationError] of the specification is Python's [ValueError]. *)
Definition is_ValueError {A} (r : result A) : bool :=
  match r with
  | inl (ValueError _) => true
  | _ => false
  end.

(** * Part I: [MetaTensor] *)

Module Torch.

(** [torch.device]: an opaque identifier, printed as its string. *)
Record device : Type := torch_device { device_str : string }.

Definition meta : device := torch_device "meta".

Definition device_eqb (a b : device) : bool :=
  String.eqb (device_str a) (device_str b).

Inductive dtype : Type := float32 | float16 | bfloat16 | int64 | uint8 | bool_.

Inductive layout : Type := strided | sparse_coo.

(** The metadata of a [torch.Tensor].  Element data is never inspected by
    the code under study. *)
Record Tensor : Type := mkTensor {
  size : list Z;
  stride : list Z;
  storage_offset : Z;
  tensor_dtype : dtype;
  tensor_layout : layout;
  tensor_device : device;
  requires_grad : bool
}.

Definition is_meta (t : Tensor) : bool := device_eqb (tensor_device t) meta.

(** What the frontend decides when it allocates a copy of a tensor on
    another device: the strides of the copy (those of the tensor when it is
    dense, others when it is a view with gaps).  The code under study never
    looks at the choice. *)
Class Frontend : Type := {
  fresh_stride : Tensor -> list Z
}.

(** [t.to(d)]: the tensor itself when it is on [d] already; otherwise a
    fresh tensor on [d] with the size, dtype, layout and gradient flag of
    [t], laid out by the frontend from offset 0. *)
Definition Tensor_to_device {F : Frontend} (t : Tensor) (d : device) : Tensor :=
  if device_eqb (tensor_device t) d then t
  else
    {| size := size t;
       stride := fresh_stride t;
       storage_offset := 0;
       tensor_dtype := tensor_dtype t;
       tensor_layout := tensor_layout t;
       tensor_device := d;
       requires_grad := requires_grad t |}.

End Torch.

Module MetaTensorModel.
Import Torch.

(** What may be given where a device is expected: a [str] or a
    [torch.device]. *)
Inductive location : Type :=
| LocStr (s : string)
| LocDevice (d : device).

(** The frontend turns a [str] into the device it names. *)
Definition as_device (l : location) : device :=
  match l with
  | LocStr s => torch_device s
  | LocDevice d => d
  end.

(** An instance of the subclass: the wrapper built by
    [_make_wrapper_subclass], whose attributes are what [x.size()],
    [x.device], ... answer, and the slot [_tensor]. *)
Record MetaTensor : Type := mkMetaTensor {
  wrapper : Tensor;
  _tensor : Tensor
}.

(** [x.device] of a [MetaTensor] is the advertised device. *)
Definition device (m : MetaTensor) : Torch.device := tensor_device (wrapper m).

(** An object for which [isinstance(x, torch.Tensor)] holds. *)
Inductive tensor_like : Type :=
| Plain (t : Tensor)
| Proxy (m : MetaTensor).

(** [MetaTensor.__new__(cls, elem, fake_device=None)] *)
Definition MetaTensor_new {F : Frontend} (elem : tensor_like)
  (fake_device : option location) : MetaTensor :=
  (* Avoid multiple wrapping *)
  let '(fake_device, elem) :=
    match elem with
    | Proxy m =>
        (match fake_device with
         | None => Some (LocDevice (device m))
         | Some l => Some l
         end, _tensor m)
    | Plain t => (fake_device, t)
    end in
  let r :=
    {| size := size elem;
       stride := stride elem;
       storage_offset := storage_offset elem;
       tensor_dtype := tensor_dtype elem;
       tensor_layout := tensor_layout elem;
       tensor_device := match fake_device with
                        | Some l => as_device l
                        | None => tensor_device elem
                        end;
       requires_grad := requires_grad elem |} in
  let r_tensor := elem in
  let r_tensor :=
    if negb (is_meta r_tensor) then Tensor_to_device r_tensor meta
    else r_tensor in
  {| wrapper := r; _tensor := r_tensor |}.

(** The first positional argument of [to], by the type single dispatch
    looks at. *)
Inductive to_target : Type :=
| TargetStr (s : string)
| TargetDevice (d : Torch.device)
| TargetOther (dt : dtype).

(** *** Python values and pytrees *)

(** The objects that occur in the argument and result trees of an
    operation.  Lists, tuples and dicts are the containers [tree_map]
    descends into; everything else is a leaf. *)
#[local] Set Warnings "-register-all".
Inductive value : Type :=
| VNone
| VBool (b : bool)
| VInt (z : Z)
| VStr (s : string)
| VDevice (d : Torch.device)
| VDtype (dt : dtype)
| VTensor (t : Tensor)
| VMeta (m : MetaTensor)
| VList (l : list value)
| VTuple (l : list value)
| VDict (d : list (string * value)).

(** A [dict] with [str] keys, in insertion order. *)
Definition dict : Type := list (string * value).

(** [d[k]]; it is [Some _] exactly when [k in d]. *)
Fixpoint dict_get (k : string) (d : dict) : option value :=
  match d with
  | [] => None
  | (k', v) :: d' => if String.eqb k k' then Some v else dict_get k d'
  end.

(** [d[k] = v] for a key that is present: the entry keeps its position. *)
Fixpoint dict_set (k : string) (v : value) (d : dict) : dict :=
  match d with
  | [] => [(k, v)]
  | (k', v') :: d' =>
      if String.eqb k k' then (k', v) :: d' else (k', v') :: dict_set k v d'
  end.

Section TreeMap.
Context {St : Type}.

(** The function mapped over the leaves: it may update the variables it
    closes over ([nonlocal]) and it may raise. *)
Variable f : St -> value -> result (St * value).

(** [torch.utils._pytree.tree_map]: flatten, apply [f] to the leaves from
    left to right, rebuild. *)
Fixpoint tree_map (s : St) (v : value) {struct v} : result (St * value) :=
  match v with
  | VList l =>
      let? '(s', l') :=
        (fix go (s : St) (l : list value) {struct l} : result (St * list value) :=
           match l with
           | [] => ok (s, [])
           | x :: xs =>
               let? '(s1, x') := tree_map s x in
               let? '(s2, xs') := go s1 xs in
               ok (s2, x' :: xs')
           end) s l in
      ok (s', VList l')
  | VTuple l =>
      let? '(s', l') :=
        (fix go (s : St) (l : list value) {struct l} : result (St * list value) :=
           match l with
           | [] => ok (s, [])
           | x :: xs =>
               let? '(s1, x') := tree_map s x in
               let? '(s2, xs') := go s1 xs in
               ok (s2, x' :: xs')
           end) s l in
      ok (s', VTuple l')
  | VDict d =>
      let? '(s', d') :=
        (fix go (s : St) (d : dict) {struct d} : result (St * dict) :=
           match d with
           | [] => ok (s, [])
           | (k, x) :: xs =>
               let? '(s1, x') := tree_map s x in
               let? '(s2, xs') := go s1 xs in
               ok (s2, (k, x') :: xs')
           end) s d in
      ok (s', VDict d')
  | leaf => f s leaf
  end.

(** [tree_map] on the positional arguments, a tuple. *)
Fixpoint tree_map_args (s : St) (l : list value) : result (St * list value) :=
  match l with
  | [] => ok (s, [])
  | x :: xs =>
      let? '(s1, x') := tree_map s x in
      let? '(s2, xs') := tree_map_args s1 xs in
      ok (s2, x' :: xs')
  end.

(** [tree_map] on the keyword arguments, a dict. *)
Fixpoint tree_map_kwargs (s : St) (d : dict) : result (St * dict) :=
  match d with
  | [] => ok (s, [])
  | (k, x) :: xs =>
      let? '(s1, x') := tree_map s x in
      let? '(s2, xs') := tree_map_kwargs s1 xs in
      ok (s2, (k, x') :: xs')
  end.

End TreeMap.

(** The leaves of a tree, in the order [tree_flatten] lists them. *)
Fixpoint leaves (v : value) : list value :=
  match v with
  | VList l => flat_map leaves l
  | VTuple l => flat_map leaves l
  | VDict d => flat_map (fun kv => leaves (snd kv)) d
  | leaf => [leaf]
  end.

Definition leaves_args (l : list value) : list value := flat_map leaves l.
Definition leaves_kwargs (d : dict) : list value :=
  flat_map (fun kv => leaves (snd kv)) d.

(** The decimal numeral of a natural number. *)
Definition decimal (n : Z) : string :=
  NilZero.string_of_uint (N.to_uint (Z.to_N n)).

(** [fake_device] as the frontend reads it when the wrapper is built:
    [None], a [str], a [torch.device], or an [int], which it takes for the
    ordinal of an accelerator and refuses when negative; anything else is
    refused. *)
Definition location_of_value (v : value) : result (option location) :=
  match v with
  | VNone => ok None
  | VStr s => ok (Some (LocStr s))
  | VDevice d => ok (Some (LocDevice d))
  | VInt n =>
      if n <? 0 then raise (CollaboratorError "Device index must not be negative")
      else ok (Some (LocDevice (torch_device ("cuda:" ++ decimal n))))
  | _ => raise (TypeError "_make_wrapper_subclass(): argument 'device' must be torch.device")
  end.

Section Dispatch.
Context {F : Frontend}.

(** [torch.Tensor.to] of the base class, reached through [super()]: the
    normal conversion path, given the dtype, [non_blocking] and [copy]. *)
Variable Tensor_to : MetaTensor -> dtype -> bool -> bool -> result tensor_like.

(** [copy.deepcopy] of a tensor or a proxy, which goes through
    [Tensor.__deepcopy__]: it answers a copy, or raises (for a tensor that
    is not a leaf of the autograd graph, for one, or for a proxy whose
    storage it cannot clone). *)
Variable deepcopy : tensor_like -> result tensor_like.

(** The body shared by the two registered overloads of [to]. *)
Definition to_location (self : MetaTensor) (device : location)
  (dtype : option Torch.dtype) (non_blocking copy : bool) : result MetaTensor :=
  let? r :=
    match dtype with
    | Some dt => Tensor_to self dt non_blocking copy
    | None => ok (Proxy self)
    end in
  let? c := deepcopy r in
  ok (MetaTensor_new c (Some device)).

(** [MetaTensor.to], with its registered overloads for [str] and
    [torch.device]; anything else goes to the base class. *)
Definition to (self : MetaTensor) (target : to_target)
  (dtype : option Torch.dtype) (non_blocking copy : bool) : result tensor_like :=
  match target with
  | TargetStr s =>
      let? m := to_location self (LocStr s) dtype non_blocking copy in
      ok (Proxy m)
  | TargetDevice d =>
      let? m := to_location self (LocDevice d) dtype non_blocking copy in
      ok (Proxy m)
  | TargetOther dt => Tensor_to self dt non_blocking copy
  end.

(** The closure [unwrap] of [__torch_dispatch__]; the state is the
    [nonlocal fake_device]. *)
Definition unwrap (fake_device : value) (x : value) : result (value * value) :=
  match x with
  | VMeta m => ok (VDevice (device m), VTensor (_tensor m))
  | VTensor t => ok (VDevice (tensor_device t), VTensor (Tensor_to_device t meta))
  | _ => ok (fake_device, x)
  end.

(** The closure [wrap] of [__torch_dispatch__]; it reads [fake_device]
    and leaves it as it is. *)
Definition wrap (fake_device : value) (x : value) : result (value * value) :=
  match x with
  | VTensor t =>
      let x := if negb (is_meta t) then Tensor_to_device t meta else t in
      let? fd := location_of_value fake_device in
      ok (fake_device, VMeta (MetaTensor_new (Plain x) fd))
  | VMeta m =>
      let? x :=
        if negb (is_meta (wrapper m))
        then to m (TargetDevice meta) None false false
        else ok (Proxy m) in
      let? fd := location_of_value fake_device in
      ok (fake_device, VMeta (MetaTensor_new x fd))
  | _ => ok (fake_device, x)
  end.

(** The operation being intercepted, called with the positional and the
    keyword arguments unpacked. *)
Variable func : list value -> dict -> result value.

(** [MetaTensor.__torch_dispatch__(cls, func, types, args=(), kwargs=None)].
    [types] is not used by the body. *)
Definition torch_dispatch (args : list value) (kwargs : option dict)
  : result value :=
  let fake_device := VNone in
  match kwargs with
  | None => raise (TypeError "argument of type 'NoneType' is not iterable")
  | Some kwargs =>
      let '(fake_device, kwargs) :=
        match dict_get "device" kwargs with
        | Some d => (d, dict_set "device" (VDevice meta) kwargs)
        | None => (fake_device, kwargs)
        end in
      let? '(fake_device, args) := tree_map_args unwrap fake_device args in
      let? '(fake_device, kwargs) := tree_map_kwargs unwrap fake_device kwargs in
      (* run aten for backend=CPU but actually on backend=Meta *)
      let? out := func args kwargs in
      let? '(_, out) := tree_map wrap fake_device out in
      ok out
  end.

End Dispatch.

(** *** Vocabulary of the statements *)

(** The payload a wrapper is built over. *)
Definition payload (x : tensor_like) : Tensor :=
  match x with
  | Plain t => t
  | Proxy m => _tensor m
  end.

(** Migration to virtual storage, when the tensor is not there yet. *)
Definition migrated {F : Frontend} (t : Tensor) : Tensor :=
  if is_meta t then t else Tensor_to_device t meta.

Definition is_leaf (v : value) : bool :=
  match v with
  | VList _ | VTuple _ | VDict _ => false
  | _ => true
  end.

(** [isinstance(v, torch.Tensor)] *)
Definition is_tensor (v : value) : bool :=
  match v with
  | VTensor _ | VMeta _ => true
  | _ => false
  end.

(** The tensors among the leaves of the arguments, positional first. *)
Definition tensor_inputs (args : list value) (kwargs : dict) : list value :=
  filter is_tensor (leaves_args args ++ leaves_kwargs kwargs).

(** What [unwrap] leaves in [fake_device] after it has seen [x]. *)
Definition seen (fake_device : value) (x : value) : value :=
  match x with
  | VMeta m => VDevice (device m)
  | VTensor t => VDevice (tensor_device t)
  | _ => fake_device
  end.

(** A leaf of a result is a proxy over virtual storage, or no tensor. *)
Definition virtual_proxy (v : value) : Prop :=
  match v with
  | VMeta m => is_meta (_tensor m) = true
  | VTensor _ => False
  | _ => True
  end.

(** A leaf of a result is a proxy that reports [d], or no tensor. *)
Definition reports (d : Torch.device) (v : value) : Prop :=
  match v with
  | VMeta m => device m = d
  | VTensor _ => False
  | _ => True
  end.

(** [fake_device] holds the location [d], or something the frontend
    refuses. *)
Definition holds (fd : value) (d : Torch.device) : Prop :=
  match location_of_value fd with
  | inr (Some l) => as_device l = d
  | inr None => False
  | inl _ => True
  end.

(** The first argument of [to] that names the location [l]. *)
Definition target_of (l : location) : to_target :=
  match l with
  | LocStr s => TargetStr s
  | LocDevice d => TargetDevice d
  end.

(** *** Further vocabulary *)

(** The device a tensor among the arguments contributes. *)
Definition leaf_device (x : value) : Torch.device :=
  match x with
  | VMeta m => device m
  | VTensor t => tensor_device t
  | _ => meta
  end.

(** Two tensors agree in everything but the device. *)
Definition same_metadata (t1 t2 : Tensor) : Prop :=
  size t1 = size t2
  /\ stride t1 = stride t2
  /\ storage_offset t1 = storage_offset t2
  /\ tensor_dtype t1 = tensor_dtype t2
  /\ tensor_layout t1 = tensor_layout t2
  /\ requires_grad t1 = requires_grad t2.

(** [x'] stands in the result of the interception where the operation
    returned [x]: for a plain tensor a proxy that holds it, migrated when it
    was on live storage, and advertises the metadata of what it holds; for a
    proxy a proxy; the leaf itself otherwise. *)
Definition mirrors {F : Frontend} (x x' : value) : Prop :=
  match x with
  | VTensor t =>
      match x' with
      | VMeta m => _tensor m = migrated t /\ same_metadata (_tensor m) (wrapper m)
      | _ => False
      end
  | VMeta _ =>
      match x' with
      | VMeta _ => True
      | _ => False
      end
  | _ => x' = x
  end.

(** What [tree_map(unwrap, v)] answers. *)
Fixpoint unwrapped {F : Frontend} (v : value) : value :=
  match v with
  | VMeta m => VTensor (_tensor m)
  | VTensor t => VTensor (Tensor_to_device t meta)
  | VList l => VList (map unwrapped l)
  | VTuple l => VTuple (map unwrapped l)
  | VDict d => VDict (map (fun kv => (fst kv, unwrapped (snd kv))) d)
  | leaf => leaf
  end.

Definition unwrapped_args {F : Frontend} (args : list value) : list value :=
  map unwrapped args.

Definition unwrapped_kwargs {F : Frontend} (kwargs : dict) : dict :=
  map (fun kv => (fst kv, unwrapped (snd kv)))
    match dict_get "device" kwargs with
    | Some _ => dict_set "device" (VDevice meta) kwargs
    | None => kwargs
    end.

(** A leaf the operation may be given: no proxy, and a tensor only on
    virtual storage. *)
Definition on_virtual (v : value) : bool :=
  match v with
  | VTensor t => is_meta t
  | VMeta _ => false
  | _ => true
  end.

(** A leaf of the arguments whose payload, if it is a proxy, is on virtual
    storage (as [__new__] leaves it). *)
Definition sound_input (v : value) : bool :=
  match v with
  | VMeta m => is_meta (_tensor m)
  | _ => true
  end.

(** The operation [func] behind a check of what it is called with: leaves on
    virtual storage only, and a location keyword that is the virtual
    device. *)
Definition virtual_only (func : list value -> dict -> result value)
  (args : list value) (kwargs : dict) : result value :=
  if forallb on_virtual (leaves_args args ++ leaves_kwargs kwargs)%list
     && match dict_get "device" kwargs with
        | None => true
        | Some (VDevice d) => device_eqb d meta
        | Some _ => false
        end
  then func args kwargs
  else raise (TypeError "called on live storage").

End MetaTensorModel.

(** * Part II: [T5PipelineForwards] *)

Module T5.

(** ** Effects: advisories and device selection *)

Inductive event : Type :=
| warning_once (msg : string)          (* logger.warning_once *)
| FutureWarning (msg : string)         (* warnings.warn(_, FutureWarning) *)
| cuda_set_device (d : Torch.device).  (* torch.cuda.set_device *)

(** A computation: the events it emits, in order, and how it ends. *)
Definition M (A : Type) : Type := (list event * result A)%type.

Definition mret {A} (a : A) : M A := ([], inr a).
Definition mraise {A} (e : exn) : M A := ([], inl e).
Definition emit (ev : event) : M unit := ([ev], inr tt).
Definition lift {A} (r : result A) : M A := ([], r).
Definition lift_d {A} (d : delegated A) : M A := ([], of_delegated d).

Definition mbind {A B} (m : M A) (k : A -> M B) : M B :=
  match m with
  | (t, inl e) => (t, inl e)
  | (t, inr a) => let '(t', r) := k a in ((t ++ t')%list, r)
  end.

Declare Scope t5_scope.
Delimit Scope t5_scope with t5.
Notation "x <- m ;; k" := (mbind m (fun x => k))
  (at level 61, m at next level, right associativity) : t5_scope.
Notation "' p <- m ;; k" := (mbind m (fun x => match x with p => k end))
  (at level 61, p pattern, m at next level, right associativity) : t5_scope.
Notation "m ;; k" := (mbind m (fun _ => k))
  (at level 61, right associativity) : t5_scope.
Local Open Scope t5_scope.

(** What the caller gets back. *)
Definition returned {A} (m : M A) : result A := snd m.

Definition is_advisory (ev : event) : bool :=
  match ev with
  | warning_once _ => true
  | FutureWarning _ => true
  | cuda_set_device _ => false
  end.

(** The events left when the advisory log is set aside. *)
Definition effects {A} (m : M A) : list event :=
  filter (fun ev => negb (is_advisory ev)) (fst m).

(** ** The numeric backend *)

Class Backend : Type := {
  tensor : Type;
  t_size : tensor -> list Z;                       (* x.size(), x.shape *)
  t_device : tensor -> Torch.device;               (* x.device *)
  t_view : tensor -> list Z -> delegated tensor;   (* x.view(...) *)
  t_select : tensor -> Z -> delegated tensor;      (* x[i] *)
  t_ones : list Z -> Torch.device -> option Torch.dtype -> tensor
}.

Inductive model_output_class : Type :=
| BaseModelOutput
| BaseModelOutputWithPastAndCrossAttentions
| Seq2SeqModelOutput
| Seq2SeqLMOutput.

Definition model_output_class_eqb (a b : model_output_class) : bool :=
  match a, b with
  | BaseModelOutput, BaseModelOutput => true
  | BaseModelOutputWithPastAndCrossAttentions,
    BaseModelOutputWithPastAndCrossAttentions => true
  | Seq2SeqModelOutput, Seq2SeqModelOutput => true
  | Seq2SeqLMOutput, Seq2SeqLMOutput => true
  | _, _ => false
  end.

Section Values.
Context {B : Backend}.

(** The objects the forwards handle. *)
#[local] Set Warnings "-register-all".
Inductive pyval : Type :=
| PNone
| PTensor (t : tensor)
| PTuple (l : list pyval)
| PDict (d : list (string * pyval))
| PModelOutput (cls : model_output_class) (fields : list (string * pyval)).

Definition is_None (v : pyval) : bool :=
  match v with
  | PNone => true
  | _ => false
  end.

(** Attribute access that only a tensor answers. *)
Definition tensor_attr (attr : string) (v : pyval) : result tensor :=
  match v with
  | PTensor t => ok t
  | _ => raise (AttributeError attr)
  end.

(** [l[i]] on a sequence, with Python's negative indices. *)
Definition seq_getitem {A} (l : list A) (i : Z) : result A :=
  let n := Z.of_nat (List.length l) in
  let j := if i <? 0 then i + n else i in
  if (j <? 0) || (n <=? j) then raise (IndexError "index out of range")
  else match nth_error l (Z.to_nat j) with
       | Some a => ok a
       | None => raise (IndexError "index out of range")
       end.

(** [ModelOutput.to_tuple()]: the fields that are not [None]. *)
Definition to_tuple (fields : list (string * pyval)) : list pyval :=
  filter (fun v => negb (is_None v)) (map snd fields).

(** [v[i]] *)
Definition py_getitem (v : pyval) (i : Z) : result pyval :=
  match v with
  | PTuple l => seq_getitem l i
  | PModelOutput _ fields => seq_getitem (to_tuple fields) i
  | PTensor t => let? r := of_delegated (t_select t i) in ok (PTensor r)
  | PDict _ => raise (KeyError "0")
  | PNone => raise (TypeError "'NoneType' object is not subscriptable")
  end.

(** [v[1:]] *)
Definition py_tail (v : pyval) : result pyval :=
  match v with
  | PTuple l => ok (PTuple (tl l))
  | PModelOutput _ fields => ok (PTuple (tl (to_tuple fields)))
  | PTensor _ => raise (CollaboratorError "tensor slicing")
  | PDict _ => raise (TypeError "unhashable type: 'slice'")
  | PNone => raise (TypeError "'NoneType' object is not subscriptable")
  end.

(** [len(v)] *)
Definition py_len (v : pyval) : result Z :=
  match v with
  | PTuple l => ok (Z.of_nat (List.length l))
  | PModelOutput _ fields => ok (Z.of_nat (List.length (to_tuple fields)))
  | PDict d => ok (Z.of_nat (List.length d))
  | PTensor t =>
      match t_size t with
      | n :: _ => ok n
      | [] => raise (TypeError "len() of a 0-d tensor")
      end
  | PNone => raise (TypeError "object of type 'NoneType' has no len()")
  end.

Fixpoint fields_set (k : string) (v : pyval) (d : list (string * pyval))
  : list (string * pyval) :=
  match d with
  | [] => [(k, v)]
  | (k', v') :: d' =>
      if String.eqb k k' then (k', v) :: d' else (k', v') :: fields_set k v d'
  end.

Fixpoint fields_get (k : string) (d : list (string * pyval)) : option pyval :=
  match d with
  | [] => None
  | (k', v) :: d' => if String.eqb k k' then Some v else fields_get k d'
  end.

(** [o[k] = v] *)
Definition py_setitem (o : pyval) (k : string) (v : pyval) : result pyval :=
  match o with
  | PDict d => ok (PDict (fields_set k v d))
  | PModelOutput cls fields => ok (PModelOutput cls (fields_set k v fields))
  | PTuple _ => raise (TypeError "'tuple' object does not support item assignment")
  | PTensor _ => raise (CollaboratorError "tensor item assignment")
  | PNone => raise (TypeError "'NoneType' object does not support item assignment")
  end.

(** [o.k] on the result of a sub-model *)
Definition py_getattr (o : pyval) (k : string) : result pyval :=
  match o with
  | PModelOutput _ fields =>
      match fields_get k fields with
      | Some v => ok v
      | None => raise (AttributeError k)
      end
  | _ => raise (AttributeError k)
  end.

(** [a + b] on tuples *)
Definition py_add (a b : pyval) : result pyval :=
  match a, b with
  | PTuple l1, PTuple l2 => ok (PTuple (l1 ++ l2)%list)
  | _, _ => raise (TypeError "unsupported operand type(s) for +")
  end.

(** [tuple(v for v in vs if v is not None)] *)
Definition tuple_not_None (vs : list pyval) : pyval :=
  PTuple (filter (fun v => negb (is_None v)) vs).

(** Truth value of an [Optional[bool]]. *)
Definition truthy (b : option bool) : bool :=
  match b with
  | Some true => true
  | _ => false
  end.

(** [b is True] *)
Definition is_True (b : option bool) : bool :=
  match b with
  | Some true => true
  | _ => false
  end.

(** [b is False or b is None] *)
Definition is_False_or_None (b : option bool) : bool :=
  match b with
  | Some true => false
  | _ => true
  end.

(** Truth value of an optional tuple: [None] and [()] are false. *)
Definition truthy_tuple (v : option (list pyval)) : bool :=
  match v with
  | Some (_ :: _) => true
  | _ => false
  end.

(** Reading a local variable of the function body; [None] is a local
    that no assignment has reached yet. *)
Definition read_local {A} (name : string) (v : option A) : M A :=
  match v with
  | Some a => mret a
  | None => mraise (UnboundLocalError name)
  end.

(** [range(a, b)] *)
Definition range (a b : Z) : list Z :=
  map (fun k => a + Z.of_nat k) (seq 0 (Z.to_nat (b - a))).

(** [a, b = l] *)
Definition unpack2 {A} (l : list A) : result (A * A) :=
  match l with
  | [a; b] => ok (a, b)
  | _ :: _ :: _ :: _ => raise (ValueError "too many values to unpack (expected 2)")
  | _ => raise (ValueError "not enough values to unpack (expected 2)")
  end.

End Values.

(** ** Collaborators *)

(** [colossalai.pipeline.stage_manager.PipelineStageManager], as far as the
    forwards use it; [is_last_stage] is the answer of [is_last_stage()]. *)
Record PipelineStageManager : Type := {
  stage : Z;
  num_stages : Z;
  is_last_stage : bool
}.

Record T5Config : Type := {
  config_use_cache : bool;
  config_use_return_dict : bool;
  config_num_layers : Z;
  config_num_decoder_layers : Z;
  config_tie_word_embeddings : bool
}.

(** The arguments a block of the stack is called with. *)
Record block_call {B : Backend} : Type := {
  bc_hidden_states : pyval;
  bc_attention_mask : pyval;
  bc_position_bias : pyval;
  bc_encoder_hidden_states : pyval;
  bc_encoder_attention_mask : pyval;
  bc_encoder_decoder_position_bias : pyval;
  bc_layer_head_mask : pyval;
  bc_cross_attn_layer_head_mask : pyval;
  bc_past_key_value : pyval;
  bc_use_cache : option bool;
  bc_output_attentions : option bool
}.

(** A transformer block: it returns a tuple. *)
Definition T5Block {B : Backend} : Type := block_call -> delegated (list pyval).

(** [transformers]' [T5Stack]: the attributes and sub-modules the staged
    forward touches. *)
Record T5Stack {B : Backend} : Type := {
  is_decoder : bool;
  gradient_checkpointing : bool;
  training : bool;
  config : T5Config;
  embed_tokens : option (pyval -> delegated pyval);
  dropout : pyval -> delegated pyval;
  final_layer_norm : pyval -> delegated pyval;
  block : list T5Block;
  get_extended_attention_mask : pyval -> list Z -> delegated pyval;
  invert_attention_mask : pyval -> delegated pyval;
  get_head_mask : pyval -> Z -> delegated pyval
}.

(** [torch.utils.checkpoint.checkpoint]: in the forward pass it runs the
    function on the inputs. *)
Definition checkpoint {A R} (function : A -> R) (inputs : A) : R :=
  function inputs.

(** The parameters of [t5_stack_forward] after [self]. *)
Record stack_args {B : Backend} : Type := {
  input_ids : pyval;
  attention_mask : pyval;
  encoder_hidden_states : pyval;
  encoder_attention_mask : pyval;
  inputs_embeds : pyval;
  head_mask : pyval;
  cross_attn_head_mask : pyval;
  past_key_values : option (list pyval);
  use_cache : option bool;
  output_attentions : option bool;
  output_hidden_states : option bool;
  return_dict : option bool;
  stage_manager : option PipelineStageManager;
  hidden_states : pyval;
  position_bias : pyval;
  encoder_decoder_position_bias : pyval;
  stage_index : option (list Z);
  decoder_starting_stage : option Z
}.

(** The declared defaults. *)
Definition stack_defaults {B : Backend} : stack_args := {|
  input_ids := PNone;
  attention_mask := PNone;
  encoder_hidden_states := PNone;
  encoder_attention_mask := PNone;
  inputs_embeds := PNone;
  head_mask := PNone;
  cross_attn_head_mask := PNone;
  past_key_values := None;
  use_cache := Some false;
  output_attentions := Some false;
  output_hidden_states := Some false;
  return_dict := None;
  stage_manager := None;
  hidden_states := PNone;
  position_bias := PNone;
  encoder_decoder_position_bias := PNone;
  stage_index := None;
  decoder_starting_stage := None
|}.

Section Forwards.
Context {B : Backend}.

(** The pattern
    [if flag: logger.warning_once(msg); flag = False]. *)
Definition force_off (msg : string) (flag : option bool) : M (option bool) :=
  if truthy flag then emit (warning_once msg) ;; mret (Some false)
  else mret flag.

(** The same for [past_key_values], which is reset to [None]. *)
Definition clear_past (past_key_values : option (list pyval))
  : M (option (list pyval)) :=
  if truthy_tuple past_key_values
  then emit (warning_once
         "Non-empty past_key_values is not supported for pipeline models at the moment.") ;;
       mret None
  else mret past_key_values.

(** [torch.cuda.set_device(device)] with the device of a tensor: it selects
    an accelerator, and refuses any other device and an accelerator without
    an index. *)
Definition set_device (d : Torch.device) : M unit :=
  if String.prefix "cuda:" (Torch.device_str d) then emit (cuda_set_device d)
  else if String.eqb (Torch.device_str d) "cuda" then
    mraise (ValueError
      "Expected a torch.device with a specified index or an integer, but got:cuda")
  else
    mraise (ValueError ("Expected a cuda device, but got: " ++ Torch.device_str d)).

(** The variables the loop over the held blocks carries. *)
Record loop_state : Type := {
  ls_hidden_states : pyval;
  ls_position_bias : pyval;
  ls_encoder_decoder_position_bias : pyval;
  ls_present_key_value_states : pyval
}.

(** One turn of [for i in range(start_idx, end_idx)]. *)
Definition block_step (self : T5Stack)
  (past_key_values : list pyval) (head_mask cross_attn_head_mask : pyval)
  (extended_attention_mask encoder_hidden_states
     encoder_extended_attention_mask : pyval)
  (use_cache output_attentions : option bool) (in_decoder : bool)
  (st : loop_state) (i : Z) : M loop_state :=
  past_key_value <- lift (seq_getitem past_key_values i) ;;
  layer_module <- lift (seq_getitem (block self) i) ;;
  layer_head_mask <- lift (py_getitem head_mask i) ;;
  cross_attn_layer_head_mask <- lift (py_getitem cross_attn_head_mask i) ;;
  t <- lift (tensor_attr "device" (ls_hidden_states st)) ;;
  set_device (t_device t) ;;
  layer_outputs <-
    (if gradient_checkpointing self && training self then
       lift_d (checkpoint layer_module
               {| bc_hidden_states := ls_hidden_states st;
                  bc_attention_mask := extended_attention_mask;
                  bc_position_bias := ls_position_bias st;
                  bc_encoder_hidden_states := encoder_hidden_states;
                  bc_encoder_attention_mask := encoder_extended_attention_mask;
                  bc_encoder_decoder_position_bias :=
                    ls_encoder_decoder_position_bias st;
                  bc_layer_head_mask := layer_head_mask;
                  bc_cross_attn_layer_head_mask := cross_attn_layer_head_mask;
                  (* past_key_value is always None with gradient checkpointing *)
                  bc_past_key_value := PNone;
                  bc_use_cache := use_cache;
                  bc_output_attentions := output_attentions |})
     else
       lift_d (layer_module
               {| bc_hidden_states := ls_hidden_states st;
                  bc_attention_mask := extended_attention_mask;
                  bc_position_bias := ls_position_bias st;
                  bc_encoder_hidden_states := encoder_hidden_states;
                  bc_encoder_attention_mask := encoder_extended_attention_mask;
                  bc_encoder_decoder_position_bias :=
                    ls_encoder_decoder_position_bias st;
                  bc_layer_head_mask := layer_head_mask;
                  bc_cross_attn_layer_head_mask := cross_attn_layer_head_mask;
                  bc_past_key_value := past_key_value;
                  bc_use_cache := use_cache;
                  bc_output_attentions := output_attentions |})) ;;
  let layer_outputs :=
    if is_False_or_None use_cache
    then (firstn 1 layer_outputs ++ [PNone] ++ skipn 1 layer_outputs)%list
    else layer_outputs in
  '(hidden_states, present_key_value_state) <-
    lift (unpack2 (firstn 2 layer_outputs)) ;;
  (* the first layer stores the position biases, the others share them *)
  position_bias <- lift (seq_getitem layer_outputs 2) ;;
  encoder_decoder_position_bias <-
    (if in_decoder && negb (is_None encoder_hidden_states)
     then lift (seq_getitem layer_outputs (if truthy output_attentions then 4 else 3))
     else mret (ls_encoder_decoder_position_bias st)) ;;
  present_key_value_states <-
    (if truthy use_cache
     then lift (py_add (ls_present_key_value_states st)
                  (PTuple [present_key_value_state]))
     else mret (ls_present_key_value_states st)) ;;
  mret {| ls_hidden_states := hidden_states;
          ls_position_bias := position_bias;
          ls_encoder_decoder_position_bias := encoder_decoder_position_bias;
          ls_present_key_value_states := present_key_value_states |}.

Fixpoint for_each {S} (step : S -> Z -> M S) (st : S) (l : list Z) : M S :=
  match l with
  | [] => mret st
  | i :: l' => st' <- step st i ;; for_each step st' l'
  end.

(** [a, b, _ = l] *)
Definition unpack3 {A} (l : list A) : result (A * A * A) :=
  match l with
  | [a; b; c] => ok (a, b, c)
  | _ :: _ :: _ :: _ :: _ =>
      raise (ValueError "too many values to unpack (expected 3)")
  | _ => raise (ValueError "not enough values to unpack (expected 3)")
  end.

(** What the first-stage branch and the other branch of the input
    processing leave behind. *)
Record processed_inputs : Type := {
  pi_input_ids : pyval;
  pi_inputs_embeds : pyval;
  pi_input_shape : list Z;
  pi_batch_size : Z;
  pi_seq_length : Z;
  pi_device : Torch.device;
  pi_hidden_states : pyval
}.

(** [if at_first_stage: ... else: ...] of [t5_stack_forward]. *)
Definition process_inputs (self : T5Stack) (in_decoder at_first_stage : bool)
  (input_ids inputs_embeds hidden_states : pyval) : M processed_inputs :=
  if at_first_stage then
    '(input_ids, input_shape) <-
      (if negb (is_None input_ids) && negb (is_None inputs_embeds) then
         let err_msg_prefix := if in_decoder then "decoder_" else "" in
         mraise (ValueError
           ("You cannot specify both " ++ err_msg_prefix ++ "input_ids and "
              ++ err_msg_prefix ++ "inputs_embeds at the same time"))
       else if negb (is_None input_ids) then
         t <- lift (tensor_attr "size" input_ids) ;;
         let input_shape := t_size t in
         last <- lift (seq_getitem input_shape (-1)) ;;
         v <- lift_d (t_view t [-1; last]) ;;
         mret (PTensor v, input_shape)
       else if negb (is_None inputs_embeds) then
         t <- lift (tensor_attr "size" inputs_embeds) ;;
         mret (input_ids, removelast (t_size t))
       else
         let err_msg_prefix := if in_decoder then "decoder_" else "" in
         mraise (ValueError
           ("You have to specify either " ++ err_msg_prefix ++ "input_ids or "
              ++ err_msg_prefix ++ "inputs_embeds"))) ;;
    inputs_embeds <-
      (if is_None inputs_embeds then
         match embed_tokens self with
         | None =>
             mraise (ValueError
               "You have to initialize the model with valid token embeddings")
         | Some embed => lift_d (embed input_ids)
         end
       else mret inputs_embeds) ;;
    '(batch_size, seq_length) <- lift (unpack2 input_shape) ;;
    t <- lift (tensor_attr "device" inputs_embeds) ;;
    hidden_states <- lift_d (dropout self inputs_embeds) ;;
    mret {| pi_input_ids := input_ids;
            pi_inputs_embeds := inputs_embeds;
            pi_input_shape := input_shape;
            pi_batch_size := batch_size;
            pi_seq_length := seq_length;
            pi_device := t_device t;
            pi_hidden_states := hidden_states |}
  else
    if is_None hidden_states then
      mraise (ValueError
        "hidden_states shouldn't be None for stages other than the first stage of encoder/decoder.")
    else
      t <- lift (tensor_attr "size" hidden_states) ;;
      let input_shape := removelast (t_size t) in
      batch_size <- lift (seq_getitem input_shape 0) ;;
      seq_length <- lift (seq_getitem input_shape 1) ;;
      mret {| pi_input_ids := input_ids;
              pi_inputs_embeds := inputs_embeds;
              pi_input_shape := input_shape;
              pi_batch_size := batch_size;
              pi_seq_length := seq_length;
              pi_device := t_device t;
              pi_hidden_states := hidden_states |}.

(** [t5_stack_forward] from the masks on: what follows the processing of
    the inputs, with the locals that are live at that point. *)
Definition after_inputs (self : T5Stack) (a : stack_args)
  (past_key_values : option (list pyval))
  (use_cache output_attentions output_hidden_states : option bool)
  (in_decoder at_last_stage : bool) (p : processed_inputs) : M pyval :=
  let input_shape := pi_input_shape p in
  let batch_size := pi_batch_size p in
  let seq_length := pi_seq_length p in
  let device := pi_device p in
  let inputs_embeds := pi_inputs_embeds p in
  let hidden_states := pi_hidden_states p in
  (* required mask seq length can be calculated via length of past *)
  mask_seq_length <-
    match past_key_values with
    | Some pkv =>
        first <- lift (seq_getitem pkv 0) ;;
        key <- lift (py_getitem first 0) ;;
        t <- lift (tensor_attr "shape" key) ;;
        n <- lift (seq_getitem (t_size t) 2) ;;
        mret (n + seq_length)
    | None => mret seq_length
    end ;;
  let attention_mask :=
    if is_None (attention_mask a)
    then PTensor (t_ones [batch_size; mask_seq_length] device None)
    else attention_mask a in
  let encoder_hidden_states := encoder_hidden_states a in
  encoder_attention_mask <-
    (if in_decoder && is_None (encoder_attention_mask a)
          && negb (is_None encoder_hidden_states)
     then
       t <- lift (tensor_attr "shape" encoder_hidden_states) ;;
       encoder_seq_length <- lift (seq_getitem (t_size t) 1) ;;
       mret (PTensor (t_ones [batch_size; encoder_seq_length] device (Some Torch.int64)))
     else mret (encoder_attention_mask a)) ;;
  (* initialize past_key_values with None if past does not exist *)
  let past_key_values :=
    match past_key_values with
    | None => repeat PNone (List.length (block self))
    | Some pkv => pkv
    end in
  extended_attention_mask <-
    lift_d (get_extended_attention_mask self attention_mask input_shape) ;;
  encoder_extended_attention_mask <-
    (if is_decoder self && negb (is_None encoder_hidden_states) then
       t <- lift (tensor_attr "size" encoder_hidden_states) ;;
       '(encoder_batch_size, encoder_sequence_length, _) <-
         lift (unpack3 (t_size t)) ;;
       let encoder_hidden_shape := [encoder_batch_size; encoder_sequence_length] in
       encoder_attention_mask <-
         (if is_None encoder_attention_mask then
            e <- lift (tensor_attr "device" inputs_embeds) ;;
            mret (PTensor (t_ones encoder_hidden_shape (t_device e) None))
          else mret encoder_attention_mask) ;;
       lift_d (invert_attention_mask self encoder_attention_mask)
     else mret PNone) ;;
  (* Prepare head mask if needed *)
  head_mask <- lift_d (get_head_mask self (head_mask a) (config_num_layers (config self))) ;;
  cross_attn_head_mask <-
    lift_d (get_head_mask self (cross_attn_head_mask a) (config_num_layers (config self))) ;;
  let present_key_value_states := if truthy use_cache then PTuple [] else PNone in
  let all_hidden_states := if truthy output_hidden_states then PTuple [] else PNone in
  let all_attentions := if truthy output_attentions then PTuple [] else PNone in
  let all_cross_attentions :=
    if truthy output_attentions && is_decoder self then PTuple [] else PNone in
  (* Going through held blocks. *)
  stage_index <-
    match stage_index a with
    | Some l => mret l
    | None => mraise (TypeError "'NoneType' object is not subscriptable")
    end ;;
  start_idx <- lift (seq_getitem stage_index 0) ;;
  end_idx <- lift (seq_getitem stage_index 1) ;;
  st <- for_each
          (block_step self past_key_values head_mask cross_attn_head_mask
             extended_attention_mask encoder_hidden_states
             encoder_extended_attention_mask use_cache output_attentions in_decoder)
          {| ls_hidden_states := hidden_states;
             ls_position_bias := position_bias a;
             ls_encoder_decoder_position_bias := encoder_decoder_position_bias a;
             ls_present_key_value_states := present_key_value_states |}
          (range start_idx end_idx) ;;
  let hidden_states := ls_hidden_states st in
  let present_key_value_states := ls_present_key_value_states st in
  (* last layer *)
  if at_last_stage then
    hidden_states <- lift_d (final_layer_norm self hidden_states) ;;
    hidden_states <- lift_d (dropout self hidden_states) ;;
    if negb (truthy (return_dict a)) then
      mret (tuple_not_None
              [hidden_states; present_key_value_states; all_hidden_states;
               all_attentions; all_cross_attentions])
    else
      mret (PModelOutput BaseModelOutputWithPastAndCrossAttentions
              [("last_hidden_state", hidden_states);
               ("past_key_values", present_key_value_states);
               ("hidden_states", all_hidden_states);
               ("attentions", all_attentions);
               ("cross_attentions", all_cross_attentions)])
  else
    mret (PDict
            [("hidden_states", hidden_states);
             ("position_bias", ls_position_bias st);
             ("encoder_decoder_position_bias",
              ls_encoder_decoder_position_bias st)]).

(** [T5PipelineForwards.t5_stack_forward] *)
Definition t5_stack_forward (self : T5Stack) (a : stack_args) : M pyval :=
  (* locals that are assigned further down *)
  let in_decoder_local : option bool := None in
  past_key_values <- clear_past (past_key_values a) ;;
  output_attentions <-
    force_off "output_attentions=True is not supported for pipeline models at the moment."
      (output_attentions a) ;;
  output_hidden_states <-
    force_off "output_hidden_states=True is not supported for pipeline models at the moment."
      (output_hidden_states a) ;;
  use_cache <-
    force_off "use_cache=True is not supported for pipeline models at the moment."
      (use_cache a) ;;
  (if is_True use_cache then
     in_decoder <- read_local "in_decoder" in_decoder_local ;;
     if negb in_decoder
     then mraise (ValueError
            "`use_cache` can only be set to `True` if the stack is used as a decoder")
     else mret tt
   else mret tt) ;;
  use_cache <-
    (if gradient_checkpointing self && training self then
       if truthy use_cache then
         emit (warning_once
           "`use_cache=True` is incompatible with gradient checkpointing. Setting `use_cache=False`...") ;;
         mret (Some false)
       else mret use_cache
     else mret use_cache) ;;
  stage_manager <-
    match stage_manager a with
    | Some sm => mret sm
    | None => mraise (AttributeError "'NoneType' object has no attribute 'stage'")
    end ;;
  let stage := stage stage_manager in
  let in_decoder := is_decoder self in
  decoder_starting_stage <-
    match decoder_starting_stage a with
    | Some d => mret d
    | None => mraise (TypeError "'>=' not supported between instances of 'int' and 'NoneType'")
    end ;;
  (if negb (Bool.eqb in_decoder (decoder_starting_stage <=? stage))
   then mraise (ValueError "Config in T5Stack is not aligned with pipeline setting.")
   else mret tt) ;;
  (* at_first_stage: the first stage of encoder/decoder, taking
     input_ids/inputs_embeds;  at_last_stage: the last stage of
     encoder/decoder, shaping the outputs like huggingface *)
  let at_first_stage := (stage =? 0) || (stage =? decoder_starting_stage) in
  let at_last_stage :=
    (stage =? decoder_starting_stage - 1) || (stage =? num_stages stage_manager - 1) in
  p <- process_inputs self in_decoder at_first_stage
         (input_ids a) (inputs_embeds a) (hidden_states a) ;;
  after_inputs self a past_key_values use_cache output_attentions output_hidden_states
    in_decoder at_last_stage p.

(** [transformers]' [T5Model] *)
Record T5Model : Type := {
  model_config : T5Config;
  encoder : T5Stack;
  decoder : T5Stack
}.

(** [transformers]' [T5ForConditionalGeneration].  [rescale] multiplies by
    [model_dim ** -0.5]; [loss_fct] is the cross entropy that ignores the
    label -100, applied to the flattened logits and to the labels moved to
    the device of the logits. *)
Record T5ForConditionalGeneration : Type := {
  lm_config : T5Config;
  lm_encoder : T5Stack;
  lm_decoder : T5Stack;
  lm_head : pyval -> delegated pyval;
  rescale : pyval -> delegated pyval;
  loss_fct : pyval -> pyval -> delegated pyval
}.

(** [transformers]' [T5EncoderModel] *)
Record T5EncoderModel : Type := {
  enc_config : T5Config;
  enc_encoder : T5Stack
}.

(** The parameters of [t5_model_forward] after [self];
    [t5_for_conditional_generation_forward] has [labels] in addition and
    [t5_encoder_model_forward] uses a part of them. *)
Record model_args : Type := {
  m_input_ids : pyval;
  m_attention_mask : pyval;
  m_decoder_input_ids : pyval;
  m_decoder_attention_mask : pyval;
  m_head_mask : pyval;
  m_decoder_head_mask : pyval;
  m_cross_attn_head_mask : pyval;
  m_encoder_outputs : pyval;
  m_past_key_values : option (list pyval);
  m_inputs_embeds : pyval;
  m_decoder_inputs_embeds : pyval;
  m_use_cache : option bool;
  m_output_attentions : option bool;
  m_output_hidden_states : option bool;
  m_return_dict : option bool;
  m_stage_manager : option PipelineStageManager;
  m_hidden_states : pyval;
  m_position_bias : pyval;
  m_encoder_decoder_position_bias : pyval;
  m_stage_index : option (list Z);
  m_decoder_starting_stage : option Z
}.

Definition model_defaults : model_args := {|
  m_input_ids := PNone;
  m_attention_mask := PNone;
  m_decoder_input_ids := PNone;
  m_decoder_attention_mask := PNone;
  m_head_mask := PNone;
  m_decoder_head_mask := PNone;
  m_cross_attn_head_mask := PNone;
  m_encoder_outputs := PNone;
  m_past_key_values := None;
  m_inputs_embeds := PNone;
  m_decoder_inputs_embeds := PNone;
  m_use_cache := None;
  m_output_attentions := None;
  m_output_hidden_states := None;
  m_return_dict := None;
  m_stage_manager := None;
  m_hidden_states := PNone;
  m_position_bias := PNone;
  m_encoder_decoder_position_bias := PNone;
  m_stage_index := None;
  m_decoder_starting_stage := None
|}.

Definition HEAD_MASK_WARNING_MSG : string :=
  "The input argument `head_mask` was split into two arguments `head_mask` and `decoder_head_mask`.".

(** [stage_manager.stage >= decoder_starting_stage] *)
Definition stage_ge (stage_manager : option PipelineStageManager)
  (decoder_starting_stage : option Z) : M (PipelineStageManager * Z * bool) :=
  match stage_manager with
  | None => mraise (AttributeError "'NoneType' object has no attribute 'stage'")
  | Some sm =>
      match decoder_starting_stage with
      | None =>
          mraise (TypeError "'>=' not supported between instances of 'int' and 'NoneType'")
      | Some d => mret (sm, d, d <=? stage sm)
      end
  end.

(** The call of the staged forward on the encoder, as both seq2seq
    forwards write it. *)
Definition encoder_call (a : model_args)
  (output_attentions output_hidden_states : option bool) (return_dict : bool)
  : stack_args :=
  {| input_ids := m_input_ids a;
     attention_mask := m_attention_mask a;
     encoder_hidden_states := encoder_hidden_states stack_defaults;
     encoder_attention_mask := encoder_attention_mask stack_defaults;
     inputs_embeds := m_inputs_embeds a;
     head_mask := m_head_mask a;
     cross_attn_head_mask := cross_attn_head_mask stack_defaults;
     past_key_values := past_key_values stack_defaults;
     use_cache := use_cache stack_defaults;
     output_attentions := output_attentions;
     output_hidden_states := output_hidden_states;
     return_dict := Some return_dict;
     stage_manager := m_stage_manager a;
     hidden_states := m_hidden_states a;
     position_bias := m_position_bias a;
     encoder_decoder_position_bias := m_encoder_decoder_position_bias a;
     stage_index := m_stage_index a;
     decoder_starting_stage := m_decoder_starting_stage a |}.

(** The call of the staged forward on the decoder, as both seq2seq
    forwards write it: [stage_manager] is not among the keywords. *)
Definition decoder_call (a : model_args)
  (past_key_values : option (list pyval)) (encoder_hidden_states decoder_head_mask : pyval)
  (use_cache output_attentions output_hidden_states : option bool)
  (return_dict : bool) : stack_args :=
  {| input_ids := m_decoder_input_ids a;
     attention_mask := m_decoder_attention_mask a;
     encoder_hidden_states := encoder_hidden_states;
     encoder_attention_mask := m_attention_mask a;
     inputs_embeds := m_decoder_inputs_embeds a;
     head_mask := decoder_head_mask;
     cross_attn_head_mask := m_cross_attn_head_mask a;
     past_key_values := past_key_values;
     use_cache := use_cache;
     output_attentions := output_attentions;
     output_hidden_states := output_hidden_states;
     return_dict := Some return_dict;
     stage_manager := stage_manager stack_defaults;
     hidden_states := m_hidden_states a;
     position_bias := m_position_bias a;
     encoder_decoder_position_bias := m_encoder_decoder_position_bias a;
     stage_index := m_stage_index a;
     decoder_starting_stage := m_decoder_starting_stage a |}.

(** [BaseModelOutput(last_hidden_state=eo[0], hidden_states=eo[1] if
    len(eo) > 1 else None, attentions=eo[2] if len(eo) > 2 else None)] *)
Definition as_BaseModelOutput (encoder_outputs : pyval) : result pyval :=
  let? last_hidden_state := py_getitem encoder_outputs 0 in
  let? n := py_len encoder_outputs in
  let? hidden_states :=
    if 1 <? n then py_getitem encoder_outputs 1 else ok PNone in
  let? n := py_len encoder_outputs in
  let? attentions :=
    if 2 <? n then py_getitem encoder_outputs 2 else ok PNone in
  ok (PModelOutput BaseModelOutput
        [("last_hidden_state", last_hidden_state);
         ("hidden_states", hidden_states);
         ("attentions", attentions)]).

Definition isinstance_BaseModelOutput (v : pyval) : bool :=
  match v with
  | PModelOutput BaseModelOutput _ => true
  | _ => false
  end.

(** [T5PipelineForwards.t5_model_forward] *)
Definition t5_model_forward (self : T5Model) (a : model_args) : M pyval :=
  let use_cache :=
    match m_use_cache a with
    | Some b => Some b
    | None => Some (config_use_cache (model_config self))
    end in
  let return_dict :=
    match m_return_dict a with
    | Some b => b
    | None => config_use_return_dict (model_config self)
    end in
  past_key_values <- clear_past (m_past_key_values a) ;;
  output_attentions <-
    force_off "output_attentions=True is not supported for pipeline models at the moment."
      (m_output_attentions a) ;;
  output_hidden_states <-
    force_off "output_hidden_states=True is not supported for pipeline models at the moment."
      (m_output_hidden_states a) ;;
  use_cache <-
    force_off "use_cache=True is not supported for pipeline models at the moment."
      use_cache ;;
  (* head_mask was separated into two input args: head_mask, decoder_head_mask *)
  decoder_head_mask <-
    (if negb (is_None (m_head_mask a)) && is_None (m_decoder_head_mask a) then
       if config_num_layers (model_config self)
            =? config_num_decoder_layers (model_config self)
       then emit (FutureWarning HEAD_MASK_WARNING_MSG) ;; mret (m_head_mask a)
       else mret (m_decoder_head_mask a)
     else mret (m_decoder_head_mask a)) ;;
  '(stage_manager, decoder_starting_stage, in_decoder) <-
    stage_ge (m_stage_manager a) (m_decoder_starting_stage a) ;;
  (* Stage is in encoder, directly return the output of t5_stack_forward *)
  if negb in_decoder then
    encoder_outputs <-
      t5_stack_forward (encoder self)
        (encoder_call a output_attentions output_hidden_states return_dict) ;;
    if stage stage_manager =? decoder_starting_stage - 1 then
      (* last stage of encoder *)
      mret (PDict [("encoder_outputs", encoder_outputs)])
    else mret encoder_outputs
  else
    let at_last_decoder_stage := is_last_stage stage_manager in
    let at_first_decoder_stage := stage stage_manager =? decoder_starting_stage in
    if is_None (m_encoder_outputs a) then
      mraise (ValueError "Non-empty encoder_outputs should be passed in at decoder stages.")
    else
      let encoder_outputs := m_encoder_outputs a in
      encoder_hidden_states <- lift (py_getitem encoder_outputs 0) ;;
      encoder_outputs <-
        (if return_dict && negb (isinstance_BaseModelOutput encoder_outputs)
         then lift (as_BaseModelOutput encoder_outputs)
         else mret encoder_outputs) ;;
      (* Stage is in decoder, the outputs of the last encoder stage are passed in. *)
      if negb at_first_decoder_stage && is_None (m_hidden_states a) then
        mraise (ValueError
          "If not at the first layer of decoder, non-empty hidden_states must be provided.")
      else
        (* Decode *)
        decoder_outputs <-
          t5_stack_forward (decoder self)
            (decoder_call a past_key_values encoder_hidden_states decoder_head_mask
               use_cache output_attentions output_hidden_states return_dict) ;;
        (* Directly return outputs of overloaded T5Stack forward if not at last stage. *)
        if negb at_last_decoder_stage then
          (* encoder_outputs should be passed to the next stage *)
          lift (py_setitem decoder_outputs "encoder_outputs" encoder_outputs)
        else if negb return_dict then
          lift (py_add decoder_outputs encoder_outputs)
        else
          last_hidden_state <- lift (py_getattr decoder_outputs "last_hidden_state") ;;
          past_key_values <- lift (py_getattr decoder_outputs "past_key_values") ;;
          decoder_hidden_states <- lift (py_getattr decoder_outputs "hidden_states") ;;
          decoder_attentions <- lift (py_getattr decoder_outputs "attentions") ;;
          cross_attentions <- lift (py_getattr decoder_outputs "cross_attentions") ;;
          encoder_last_hidden_state <-
            lift (py_getattr encoder_outputs "last_hidden_state") ;;
          encoder_hidden_states <- lift (py_getattr encoder_outputs "hidden_states") ;;
          encoder_attentions <- lift (py_getattr encoder_outputs "attentions") ;;
          mret (PModelOutput Seq2SeqModelOutput
                  [("last_hidden_state", last_hidden_state);
                   ("past_key_values", past_key_values);
                   ("decoder_hidden_states", decoder_hidden_states);
                   ("decoder_attentions", decoder_attentions);
                   ("cross_attentions", cross_attentions);
                   ("encoder_last_hidden_state", encoder_last_hidden_state);
                   ("encoder_hidden_states", encoder_hidden_states);
                   ("encoder_attentions", encoder_attentions)]).

(** [T5PipelineForwards.t5_for_conditional_generation_forward] *)
Definition t5_for_conditional_generation_forward
  (self : T5ForConditionalGeneration) (a : model_args) (labels : pyval) : M pyval :=
  let use_cache :=
    match m_use_cache a with
    | Some b => Some b
    | None => Some (config_use_cache (lm_config self))
    end in
  let return_dict :=
    match m_return_dict a with
    | Some b => b
    | None => config_use_return_dict (lm_config self)
    end in
  past_key_values <- clear_past (m_past_key_values a) ;;
  output_attentions <-
    force_off "output_attentions=True is not supported for pipeline models at the moment."
      (m_output_attentions a) ;;
  output_hidden_states <-
    force_off "output_hidden_states=True is not supported for pipeline models at the moment."
      (m_output_hidden_states a) ;;
  use_cache <-
    force_off "use_cache=True is not supported for pipeline models at the moment."
      use_cache ;;
  (* head_mask was separated into two input args: head_mask, decoder_head_mask *)
  decoder_head_mask <-
    (if negb (is_None (m_head_mask a)) && is_None (m_decoder_head_mask a) then
       if config_num_layers (lm_config self)
            =? config_num_decoder_layers (lm_config self)
       then emit (FutureWarning HEAD_MASK_WARNING_MSG) ;; mret (m_head_mask a)
       else mret (m_decoder_head_mask a)
     else mret (m_decoder_head_mask a)) ;;
  '(stage_manager, decoder_starting_stage, in_decoder) <-
    stage_ge (m_stage_manager a) (m_decoder_starting_stage a) ;;
  (* Stage is in encoder, directly return the output of t5_stack_forward *)
  if negb in_decoder then
    encoder_outputs <-
      t5_stack_forward (lm_encoder self)
        (encoder_call a output_attentions output_hidden_states return_dict) ;;
    if stage stage_manager =? decoder_starting_stage - 1 then
      (* last stage of encoder *)
      mret (PDict [("encoder_outputs", encoder_outputs)])
    else mret encoder_outputs
  else
    let at_last_decoder_stage := is_last_stage stage_manager in
    let at_first_decoder_stage := stage stage_manager =? decoder_starting_stage in
    if is_None (m_encoder_outputs a) then
      mraise (ValueError "Non-empty encoder_outputs should be passed in at decoder stages.")
    else
      let encoder_outputs := m_encoder_outputs a in
      encoder_hidden_states <- lift (py_getitem encoder_outputs 0) ;;
      encoder_outputs <-
        (if return_dict && negb (isinstance_BaseModelOutput encoder_outputs)
         then lift (as_BaseModelOutput encoder_outputs)
         else mret encoder_outputs) ;;
      (* Stage is in decoder, the outputs of the last encoder stage are passed in. *)
      if negb at_first_decoder_stage && is_None (m_hidden_states a) then
        mraise (ValueError
          "If not at the first layer of decoder, non-empty hidden_states must be provided.")
      else
        (* Decode *)
        decoder_outputs <-
          t5_stack_forward (lm_decoder self)
            (decoder_call a past_key_values encoder_hidden_states decoder_head_mask
               use_cache output_attentions output_hidden_states return_dict) ;;
        (* Directly return outputs of overloaded T5Stack forward if not at last stage. *)
        if negb at_last_decoder_stage then
          (* encoder_outputs should be passed to the next stage *)
          lift (py_setitem decoder_outputs "encoder_outputs" encoder_outputs)
        else
          sequence_output <- lift (py_getitem decoder_outputs 0) ;;
          sequence_output <-
            (if config_tie_word_embeddings (lm_config self)
             then (* Rescale output before projecting on vocab *)
                  lift_d (rescale self sequence_output)
             else mret sequence_output) ;;
          lm_logits <- lift_d (lm_head self sequence_output) ;;
          loss <-
            (if negb (is_None labels) then lift_d (loss_fct self lm_logits labels)
             else mret PNone) ;;
          if negb return_dict then
            rest <- lift (py_tail decoder_outputs) ;;
            output <- lift (py_add (PTuple [lm_logits]) rest) ;;
            output <- lift (py_add output encoder_outputs) ;;
            if negb (is_None loss) then lift (py_add (PTuple [loss]) output)
            else mret output
          else
            past_key_values <- lift (py_getattr decoder_outputs "past_key_values") ;;
            decoder_hidden_states <- lift (py_getattr decoder_outputs "hidden_states") ;;
            decoder_attentions <- lift (py_getattr decoder_outputs "attentions") ;;
            cross_attentions <- lift (py_getattr decoder_outputs "cross_attentions") ;;
            encoder_last_hidden_state <-
              lift (py_getattr encoder_outputs "last_hidden_state") ;;
            encoder_hidden_states <- lift (py_getattr encoder_outputs "hidden_states") ;;
            encoder_attentions <- lift (py_getattr encoder_outputs "attentions") ;;
            mret (PModelOutput Seq2SeqLMOutput
                    [("loss", loss);
                     ("logits", lm_logits);
                     ("past_key_values", past_key_values);
                     ("decoder_hidden_states", decoder_hidden_states);
                     ("decoder_attentions", decoder_attentions);
                     ("cross_attentions", cross_attentions);
                     ("encoder_last_hidden_state", encoder_last_hidden_state);
                     ("encoder_hidden_states", encoder_hidden_states);
                     ("encoder_attentions", encoder_attentions)]).

(** [T5PipelineForwards.t5_encoder_model_forward]: the staged forward on
    the encoder, with the stage manager passed on; what it gives is what the
    caller gets. *)
Definition t5_encoder_model_forward (self : T5EncoderModel) (a : model_args)
  : M pyval :=
  let return_dict :=
    match m_return_dict a with
    | Some b => b
    | None => config_use_return_dict (enc_config self)
    end in
  outputs <-
    t5_stack_forward (enc_encoder self)
      (encoder_call a (m_output_attentions a) (m_output_hidden_states a) return_dict) ;;
  mret outputs.

(** Setting the two flags of a call. *)
Definition stack_with_flags (a : stack_args) (uc oa : option bool) : stack_args :=
  {| input_ids := input_ids a;
     attention_mask := attention_mask a;
     encoder_hidden_states := encoder_hidden_states a;
     encoder_attention_mask := encoder_attention_mask a;
     inputs_embeds := inputs_embeds a;
     head_mask := head_mask a;
     cross_attn_head_mask := cross_attn_head_mask a;
     past_key_values := past_key_values a;
     use_cache := uc;
     output_attentions := oa;
     output_hidden_states := output_hidden_states a;
     return_dict := return_dict a;
     stage_manager := stage_manager a;
     hidden_states := hidden_states a;
     position_bias := position_bias a;
     encoder_decoder_position_bias := encoder_decoder_position_bias a;
     stage_index := stage_index a;
     decoder_starting_stage := decoder_starting_stage a |}.

Definition model_with_flags (a : model_args) (uc oa : option bool) : model_args :=
  {| m_input_ids := m_input_ids a;
     m_attention_mask := m_attention_mask a;
     m_decoder_input_ids := m_decoder_input_ids a;
     m_decoder_attention_mask := m_decoder_attention_mask a;
     m_head_mask := m_head_mask a;
     m_decoder_head_mask := m_decoder_head_mask a;
     m_cross_attn_head_mask := m_cross_attn_head_mask a;
     m_encoder_outputs := m_encoder_outputs a;
     m_past_key_values := m_past_key_values a;
     m_inputs_embeds := m_inputs_embeds a;
     m_decoder_inputs_embeds := m_decoder_inputs_embeds a;
     m_use_cache := uc;
     m_output_attentions := oa;
     m_output_hidden_states := m_output_hidden_states a;
     m_return_dict := m_return_dict a;
     m_stage_manager := m_stage_manager a;
     m_hidden_states := m_hidden_states a;
     m_position_bias := m_position_bias a;
     m_encoder_decoder_position_bias := m_encoder_decoder_position_bias a;
     m_stage_index := m_stage_index a;
     m_decoder_starting_stage := m_decoder_starting_stage a |}.

End Forwards.

(** *** Vocabulary of the statements *)

(** What a flag is after the pattern [force_off]. *)
Definition forced (flag : option bool) : option bool :=
  if truthy flag then Some false else flag.

(** What a run shows when the advisory log is set aside: the other effects
    and the way it ends. *)
Definition observe {A} (m : M A) : list event * result A :=
  (effects m, returned m).

(** The run does not end in an error of the class [P]. *)
Definition avoids {A} (P : exn -> bool) (m : M A) : Prop :=
  match returned m with
  | inl e => P e = false
  | inr _ => True
  end.

(** A block call with another [output_attentions]. *)
Definition with_output_attentions {B : Backend} (c : block_call) (oa : option bool)
  : block_call :=
  {| bc_hidden_states := bc_hidden_states c;
     bc_attention_mask := bc_attention_mask c;
     bc_position_bias := bc_position_bias c;
     bc_encoder_hidden_states := bc_encoder_hidden_states c;
     bc_encoder_attention_mask := bc_encoder_attention_mask c;
     bc_encoder_decoder_position_bias := bc_encoder_decoder_position_bias c;
     bc_layer_head_mask := bc_layer_head_mask c;
     bc_cross_attn_layer_head_mask := bc_cross_attn_layer_head_mask c;
     bc_past_key_value := bc_past_key_value c;
     bc_use_cache := bc_use_cache c;
     bc_output_attentions := oa |}.

(** The block reads [output_attentions] by its truth value, as
    [if output_attentions:] does: [None] and [False] are the same to it. *)
Definition attentions_by_truth {B : Backend} (blk : T5Block) : Prop :=
  forall c, blk (with_output_attentions c None)
            = blk (with_output_attentions c (Some false)).

(** The errors of the branch [if use_cache is True] of the staged forward:
    the read of [in_decoder] before its assignment, and the [ValueError] the
    branch would raise. *)
Definition use_cache_branch_error (e : exn) : bool :=
  match e with
  | UnboundLocalError _ => true
  | ValueError msg =>
      String.eqb msg
        "`use_cache` can only be set to `True` if the stack is used as a decoder"
  | _ => false
  end.

(** The two errors of the check that exactly one of [input_ids] and
    [inputs_embeds] is given, for the encoder and for the decoder. *)
Definition exclusivity_error (e : exn) : bool :=
  match e with
  | ValueError msg =>
      String.eqb msg "You cannot specify both input_ids and inputs_embeds at the same time"
      || String.eqb msg
           "You cannot specify both decoder_input_ids and decoder_inputs_embeds at the same time"
      || String.eqb msg "You have to specify either input_ids or inputs_embeds"
      || String.eqb msg
           "You have to specify either decoder_input_ids or decoder_inputs_embeds"
  | _ => false
  end.

(** The one input of a first stage as the processing of the inputs expects
    it, and what the processing leaves behind: either [input_ids] alone, of
    two dimensions, which the engine reshapes and the embedding table of the
    stack turns into a tensor, or [inputs_embeds] alone, of three
    dimensions; in both cases [dropout] returns. *)
Definition accepted_input {B : Backend} (self : T5Stack)
  (input_ids inputs_embeds : pyval) (p : processed_inputs) : Prop :=
  match input_ids, inputs_embeds with
  | PTensor t, PNone =>
      exists batch_size seq_length v embed e h,
        t_size t = [batch_size; seq_length]
        /\ t_view t [-1; seq_length] = inr v
        /\ embed_tokens self = Some embed
        /\ embed (PTensor v) = inr (PTensor e)
        /\ dropout self (PTensor e) = inr h
        /\ p = {| pi_input_ids := PTensor v;
                  pi_inputs_embeds := PTensor e;
                  pi_input_shape := [batch_size; seq_length];
                  pi_batch_size := batch_size;
                  pi_seq_length := seq_length;
                  pi_device := t_device e;
                  pi_hidden_states := h |}
  | PNone, PTensor e =>
      exists batch_size seq_length width h,
        t_size e = [batch_size; seq_length; width]
        /\ dropout self (PTensor e) = inr h
        /\ p = {| pi_input_ids := PNone;
                  pi_inputs_embeds := PTensor e;
                  pi_input_shape := [batch_size; seq_length];
                  pi_batch_size := batch_size;
                  pi_seq_length := seq_length;
                  pi_device := t_device e;
                  pi_hidden_states := h |}
  | _, _ => False
  end.

(** *** Further vocabulary *)

(** When the run returns, what it returns satisfies [Q]. *)
Definition ensures {A} (Q : A -> Prop) (m : M A) : Prop :=
  match returned m with
  | inl _ => True
  | inr a => Q a
  end.

(** When the run returns, it has selected a device [n] times. *)
Definition selects {A} (n : nat) (m : M A) : Prop :=
  match returned m with
  | inl _ => True
  | inr _ => List.length (effects m) = n
  end.

(** The advisory of the branch for gradient checkpointing. *)
Definition checkpointing_advisory (ev : event) : bool :=
  match ev with
  | warning_once msg =>
      String.eqb msg
        "`use_cache=True` is incompatible with gradient checkpointing. Setting `use_cache=False`..."
  | _ => false
  end.

(** No event of the run is of the class [P]. *)
Definition silent {A} (P : event -> bool) (m : M A) : Prop :=
  forallb (fun ev => negb (P ev)) (fst m) = true.

(** The stack with other blocks. *)
Definition with_block {B : Backend} (self : T5Stack) (blocks : list T5Block) : T5Stack :=
  {| is_decoder := is_decoder self;
     gradient_checkpointing := gradient_checkpointing self;
     training := training self;
     config := config self;
     embed_tokens := embed_tokens self;
     dropout := dropout self;
     final_layer_norm := final_layer_norm self;
     block := blocks;
     get_extended_attention_mask := get_extended_attention_mask self;
     invert_attention_mask := invert_attention_mask self;
     get_head_mask := get_head_mask self |}.

(** The three shapes of what the staged forward returns: the bundle for the
    next stage, the output structure with its cache and collections empty,
    and the tuple of the values that are not [None]. *)
Definition stage_output {B : Backend} (at_last_stage return_dict : bool) (v : pyval)
  : Prop :=
  match v with
  | PDict [("hidden_states", _); ("position_bias", _);
           ("encoder_decoder_position_bias", _)] =>
      at_last_stage = false
  | PModelOutput BaseModelOutputWithPastAndCrossAttentions
      [("last_hidden_state", _); ("past_key_values", PNone); ("hidden_states", PNone);
       ("attentions", PNone); ("cross_attentions", PNone)] =>
      at_last_stage = true /\ return_dict = true
  | PTuple [] | PTuple [_] => at_last_stage = true /\ return_dict = false
  | _ => False
  end.

End T5.

(** * Concrete inputs

    A backend that tracks shapes and devices only, a one-block encoder and a
    one-block decoder over it, and a few tensors: the inputs the statements
    below are run on. *)

Module Demo.
Import Torch MetaTensorModel.

Definition cpu : Torch.device := torch_device "cpu".
Definition cuda0 : Torch.device := torch_device "cuda:0".

(** The strides of a tensor laid out row by row. *)
Fixpoint contiguous (size : list Z) : list Z :=
  match size with
  | [] => []
  | _ :: rest => fold_right Z.mul 1 rest :: contiguous rest
  end.

(** A frontend that lays every fresh copy out row by row. *)
Definition demo_frontend : Frontend :=
  {| fresh_stride := fun t => contiguous (size t) |}.

#[local] Existing Instance demo_frontend.

(** [torch.rand(2, 3)] on the CPU *)
Definition x23 : Tensor :=
  {| size := [2; 3];
     stride := [3; 1];
     storage_offset := 0;
     tensor_dtype := float32;
     tensor_layout := strided;
     tensor_device := cpu;
     requires_grad := false |}.

(** A proxy of [x23] that reports the CPU. *)
Definition proxy_cpu : MetaTensor := MetaTensor_new (Plain x23) (Some (LocStr "cpu")).

(** The base-class conversion on a proxy: a proxy of the same advertised
    device whose payload has the new dtype. *)
Definition demo_Tensor_to (self : MetaTensor) (dt : dtype) (non_blocking copy : bool)
  : result tensor_like :=
  let retype (t : Tensor) : Tensor :=
    {| size := size t;
       stride := stride t;
       storage_offset := storage_offset t;
       tensor_dtype := dt;
       tensor_layout := tensor_layout t;
       tensor_device := tensor_device t;
       requires_grad := requires_grad t |} in
  ok (Proxy {| wrapper := retype (wrapper self); _tensor := retype (_tensor self) |}).

(** A [deepcopy] that answers an equal value for what starts at the head of
    its storage, and refuses a view further in. *)
Definition demo_deepcopy (x : tensor_like) : result tensor_like :=
  if storage_offset (payload x) =? 0 then ok x
  else raise (CollaboratorError "NotImplementedError: Cannot copy out of meta tensor; no data!").

(** An operation with one tensor input and one tensor output of the same
    metadata, such as [aten.neg] or [aten.zeros_like]: it answers its first
    positional argument. *)
Definition like_first (args : list value) (kwargs : dict) : result value :=
  match args with
  | VTensor t :: _ => ok (VTensor t)
  | _ => raise (TypeError "expected a Tensor as the first argument")
  end.

(** An operation that answers the keyword arguments it was called with. *)
Definition echo_kwargs (args : list value) (kwargs : dict) : result value :=
  ok (VDict kwargs).

Import T5.

Record shape_tensor : Type := {
  st_shape : list Z;
  st_device : Torch.device
}.

Definition shape_backend : Backend := {|
  tensor := shape_tensor;
  t_size := st_shape;
  t_device := st_device;
  t_view := fun t s => inr {| st_shape := s; st_device := st_device t |};
  t_select := fun t i => inr {| st_shape := tl (st_shape t); st_device := st_device t |};
  t_ones := fun s d _ => {| st_shape := s; st_device := d |}
|}.

#[local] Existing Instance shape_backend.

Definition demo_config : T5Config := {|
  config_use_cache := true;
  config_use_return_dict := true;
  config_num_layers := 1;
  config_num_decoder_layers := 1;
  config_tie_word_embeddings := true
|}.

(** A block that answers the hidden state it was given and a position
    bias, plus a cross-attention bias when it has encoder states. *)
Definition demo_block : T5Block := fun call =>
  let bias := PTensor {| st_shape := [1; 4; 5; 5]; st_device := cuda0 |} in
  match bc_encoder_hidden_states call with
  | PNone => inr [bc_hidden_states call; bias]
  | _ => inr [bc_hidden_states call; bias; bias]
  end.

Definition demo_embed (ids : pyval) : delegated pyval :=
  match ids with
  | PTensor t => inr (PTensor {| st_shape := (st_shape t ++ [8])%list;
                                 st_device := st_device t |})
  | _ => inl "embedding of a non-tensor"
  end.

Definition demo_stack (decoder : bool) : T5Stack := {|
  is_decoder := decoder;
  gradient_checkpointing := false;
  training := false;
  config := demo_config;
  embed_tokens := Some demo_embed;
  dropout := fun v => inr v;
  final_layer_norm := fun v => inr v;
  block := [demo_block];
  get_extended_attention_mask := fun m _ => inr m;
  invert_attention_mask := fun m => inr m;
  get_head_mask := fun _ n => inr (PTuple (repeat PNone (Z.to_nat n)))
|}.

Definition demo_model : T5Model := {|
  model_config := demo_config;
  encoder := demo_stack false;
  decoder := demo_stack true
|}.

Definition demo_lm : T5ForConditionalGeneration := {|
  lm_config := demo_config;
  lm_encoder := demo_stack false;
  lm_decoder := demo_stack true;
  lm_head := fun v => inr v;
  rescale := fun v => inr v;
  loss_fct := fun logits labels => inr labels
|}.

(** Two stages, the decoder starting at stage 1. *)
Definition stage0 : PipelineStageManager :=
  {| stage := 0; num_stages := 2; is_last_stage := false |}.
Definition stage1 : PipelineStageManager :=
  {| stage := 1; num_stages := 2; is_last_stage := true |}.

(** [input_ids] of shape [2, 5] *)
Definition ids25 : pyval := PTensor {| st_shape := [2; 5]; st_device := cuda0 |}.
(** embeddings of shape [2, 5, 8] *)
Definition embeds258 : pyval := PTensor {| st_shape := [2; 5; 8]; st_device := cuda0 |}.

(** A call of the staged forward at stage 0 with the given inputs. *)
Definition stack_call_stage0 (ids embeds : pyval) : stack_args := {|
  input_ids := ids;
  attention_mask := PNone;
  encoder_hidden_states := PNone;
  encoder_attention_mask := PNone;
  inputs_embeds := embeds;
  head_mask := PNone;
  cross_attn_head_mask := PNone;
  past_key_values := None;
  use_cache := Some false;
  output_attentions := Some false;
  output_hidden_states := Some false;
  return_dict := None;
  stage_manager := Some stage0;
  hidden_states := PNone;
  position_bias := PNone;
  encoder_decoder_position_bias := PNone;
  stage_index := Some [0; 1];
  decoder_starting_stage := Some 1
|}.

(** A call of a seq2seq forward at the given stage. *)
Definition model_call (sm : PipelineStageManager) (ids encoder_outputs : pyval)
  : model_args := {|
  m_input_ids := ids;
  m_attention_mask := PNone;
  m_decoder_input_ids := PNone;
  m_decoder_attention_mask := PNone;
  m_head_mask := PNone;
  m_decoder_head_mask := PNone;
  m_cross_attn_head_mask := PNone;
  m_encoder_outputs := encoder_outputs;
  m_past_key_values := None;
  m_inputs_embeds := PNone;
  m_decoder_inputs_embeds := PNone;
  m_use_cache := None;
  m_output_attentions := None;
  m_output_hidden_states := None;
  m_return_dict := None;
  m_stage_manager := Some sm;
  m_hidden_states := PNone;
  m_position_bias := PNone;
  m_encoder_decoder_position_bias := PNone;
  m_stage_index := Some [0; 1];
  m_decoder_starting_stage := Some 1
|}.

End Demo.

(** Further inputs: a stack without embedding table, a middle stage of a
    longer pipeline, and calls at it. *)

Module MoreDemo.
Import T5 Demo.

#[local] Existing Instance shape_backend.

(** The demo encoder without [embed_tokens]. *)
Definition bare_stack : T5Stack := {|
  is_decoder := false;
  gradient_checkpointing := false;
  training := false;
  config := demo_config;
  embed_tokens := None;
  dropout := fun v => inr v;
  final_layer_norm := fun v => inr v;
  block := [demo_block];
  get_extended_attention_mask := fun m _ => inr m;
  invert_attention_mask := fun m => inr m;
  get_head_mask := fun _ n => inr (PTuple (repeat PNone (Z.to_nat n)))
|}.

(** Stage 1 of four, the decoder starting at stage 3: a middle stage of the
    encoder. *)
Definition middle_stage : PipelineStageManager :=
  {| stage := 1; num_stages := 4; is_last_stage := false |}.

(** A call of the staged forward at [sm] with the decoder starting at [d],
    the blocks [idx] and the given hidden state. *)
Definition stack_call_at (sm : PipelineStageManager) (d : Z) (idx : list Z)
  (ids hs : pyval) : stack_args := {|
  input_ids := ids;
  attention_mask := PNone;
  encoder_hidden_states := PNone;
  encoder_attention_mask := PNone;
  inputs_embeds := PNone;
  head_mask := PNone;
  cross_attn_head_mask := PNone;
  past_key_values := None;
  use_cache := Some true;
  output_attentions := Some true;
  output_hidden_states := Some true;
  return_dict := Some true;
  stage_manager := Some sm;
  hidden_states := hs;
  position_bias := PNone;
  encoder_decoder_position_bias := PNone;
  stage_index := Some idx;
  decoder_starting_stage := Some d
|}.

(** The same call without a stage manager. *)
Definition stack_call_unmanaged : stack_args := {|
  input_ids := ids25;
  attention_mask := PNone;
  encoder_hidden_states := PNone;
  encoder_attention_mask := PNone;
  inputs_embeds := PNone;
  head_mask := PNone;
  cross_attn_head_mask := PNone;
  past_key_values := None;
  use_cache := Some false;
  output_attentions := Some false;
  output_hidden_states := Some false;
  return_dict := None;
  stage_manager := None;
  hidden_states := PNone;
  position_bias := PNone;
  encoder_decoder_position_bias := PNone;
  stage_index := Some [0; 1];
  decoder_starting_stage := Some 1
|}.

(** A block that fails. *)
Definition failing_block : T5Block := fun _ => inl "block not held by this stage".

(** A call of a seq2seq forward at [sm] with the decoder starting at [d]. *)
Definition model_call_at (sm : PipelineStageManager) (d : Z) (hs : pyval)
  : model_args := {|
  m_input_ids := PNone;
  m_attention_mask := PNone;
  m_decoder_input_ids := PNone;
  m_decoder_attention_mask := PNone;
  m_head_mask := PNone;
  m_decoder_head_mask := PNone;
  m_cross_attn_head_mask := PNone;
  m_encoder_outputs := PNone;
  m_past_key_values := None;
  m_inputs_embeds := PNone;
  m_decoder_inputs_embeds := PNone;
  m_use_cache := None;
  m_output_attentions := None;
  m_output_hidden_states := None;
  m_return_dict := None;
  m_stage_manager := Some sm;
  m_hidden_states := hs;
  m_position_bias := PNone;
  m_encoder_decoder_position_bias := PNone;
  m_stage_index := Some [0; 1];
  m_decoder_starting_stage := Some d
|}.

(** [torch.rand(4)] on the first accelerator, and a proxy of it. *)
Definition y4 : Torch.Tensor :=
  {| Torch.size := [4];
     Torch.stride := [1];
     Torch.storage_offset := 0;
     Torch.tensor_dtype := Torch.float16;
     Torch.tensor_layout := Torch.strided;
     Torch.tensor_device := cuda0;
     Torch.requires_grad := true |}.

(** Three elements of a buffer, from [offset] on, on the device [d]. *)
Definition view3_on (d : Torch.device) (offset : Z) : Torch.Tensor :=
  {| Torch.size := [3];
     Torch.stride := [1];
     Torch.storage_offset := offset;
     Torch.tensor_dtype := Torch.float32;
     Torch.tensor_layout := Torch.strided;
     Torch.tensor_device := d;
     Torch.requires_grad := false |}.

(** An operation that answers a view into a CPU buffer, three elements in. *)
Definition answer_view (args : list MetaTensorModel.value) (kwargs : MetaTensorModel.dict)
  : result MetaTensorModel.value :=
  ok (MetaTensorModel.VTensor (view3_on cpu 3)).

(** An operation that raises. *)
Definition failing_op (args : list MetaTensorModel.value) (kwargs : MetaTensorModel.dict)
  : result MetaTensorModel.value :=
  raise (CollaboratorError "mat1 and mat2 shapes cannot be multiplied").

(** An operation that answers a fresh tensor and a number, whatever it is
    called with. *)
Definition factory_op (args : list MetaTensorModel.value) (kwargs : MetaTensorModel.dict)
  : result MetaTensorModel.value :=
  ok (MetaTensorModel.VTuple [MetaTensorModel.VTensor y4; MetaTensorModel.VInt 7]).

(** An encoder-only model over the demo encoder. *)
Definition demo_encoder_model : T5.T5EncoderModel (B := shape_backend) :=
  {| T5.enc_config := demo_config; T5.enc_encoder := demo_stack false |}.

End MoreDemo.

(** * Properties of [MetaTensor] *)

Module MetaTensorProps.
Import Torch MetaTensorModel.

#[local] Arguments MetaTensor_new : simpl never.

Lemma device_eqb_refl d : device_eqb d d = true.
Proof. apply String.eqb_refl. Qed.

Section Construction.
Context {F : Frontend}.

Lemma is_meta_to_meta t : is_meta (Tensor_to_device t meta) = true.
Proof.
  unfold Tensor_to_device. destruct (device_eqb (tensor_device t) meta) eqn:E.
  - exact E.
  - reflexivity.
Qed.

Lemma is_meta_migrated t : is_meta (migrated t) = true.
Proof.
  unfold migrated. destruct (is_meta t) eqn:E; [exact E | apply is_meta_to_meta].
Qed.

Lemma new_tensor elem fd : _tensor (MetaTensor_new elem fd) = migrated (payload elem).
Proof.
  unfold MetaTensor_new, migrated.
  destruct elem as [t | m]; cbn; [destruct (is_meta t) | destruct (is_meta (_tensor m))];
    reflexivity.
Qed.

Lemma new_tensor_is_meta elem fd : is_meta (_tensor (MetaTensor_new elem fd)) = true.
Proof. rewrite new_tensor. apply is_meta_migrated. Qed.

Lemma new_device_explicit elem l :
  device (MetaTensor_new elem (Some l)) = as_device l.
Proof. destruct elem; reflexivity. Qed.

Lemma new_device_default_proxy m :
  device (MetaTensor_new (Proxy m) None) = device m.
Proof. reflexivity. Qed.

Lemma new_device_default_plain t :
  device (MetaTensor_new (Plain t) None) = tensor_device t.
Proof. reflexivity. Qed.

End Construction.

(** ** Induction on trees *)

Lemma leaves_leaf v : is_leaf v = true -> leaves v = [v].
Proof. destruct v; cbn; intros H; try reflexivity; discriminate. Qed.

Section ValueInd.
Variable P : value -> Prop.
Hypothesis Hleaf : forall v, is_leaf v = true -> P v.
Hypothesis Hlist : forall l, Forall P l -> P (VList l).
Hypothesis Htuple : forall l, Forall P l -> P (VTuple l).
Hypothesis Hdict : forall d, Forall (fun kv => P (snd kv)) d -> P (VDict d).

Lemma value_tree_ind : forall v, P v.
Proof.
  fix IH 1. intros v.
  destruct v as [| | | | | | | | l | l | d];
    try (apply Hleaf; reflexivity).
  - apply Hlist. induction l as [| x l IHl]; constructor; [apply IH | exact IHl].
  - apply Htuple. induction l as [| x l IHl]; constructor; [apply IH | exact IHl].
  - apply Hdict. induction d as [| [k x] d IHd]; constructor; [apply IH | exact IHd].
Qed.
End ValueInd.

(** ** What [tree_map] does to the state and to the leaves *)

Section TreeMapFacts.
Context {St : Type}.
Variable f : St -> value -> result (St * value).

Lemma tree_map_VList s l :
  tree_map f s (VList l) =
  rbind (tree_map_args f s l) (fun '(s', l') => ok (s', VList l')).
Proof. reflexivity. Qed.

Lemma tree_map_VTuple s l :
  tree_map f s (VTuple l) =
  rbind (tree_map_args f s l) (fun '(s', l') => ok (s', VTuple l')).
Proof. reflexivity. Qed.

Lemma tree_map_VDict s d :
  tree_map f s (VDict d) =
  rbind (tree_map_kwargs f s d) (fun '(s', d') => ok (s', VDict d')).
Proof. reflexivity. Qed.

Lemma tree_map_leaf s v : is_leaf v = true -> tree_map f s v = f s v.
Proof. destruct v; cbn; intros H; try reflexivity; discriminate. Qed.

(** An invariant [I] of the state and a property [Q] of the mapped leaves,
    both kept by [f] on leaves, hold after [tree_map]. *)
Variable I : St -> Prop.
Variable Q : value -> Prop.
Hypothesis f_keeps : forall s x s' x',
  I s -> is_leaf x = true -> f s x = ok (s', x') ->
  I s' /\ is_leaf x' = true /\ Q x'.

Lemma tree_map_keeps : forall v s s' v',
  I s -> tree_map f s v = ok (s', v') -> I s' /\ Forall Q (leaves v').
Proof.
  induction v as [v Hv | l IHl | l IHl | d IHd] using value_tree_ind;
    intros s s' v' Hs H.
  - rewrite tree_map_leaf in H by exact Hv.
    destruct (f_keeps _ _ _ _ Hs Hv H) as (Hs' & Hl & Hq).
    split; [exact Hs' |]. rewrite (leaves_leaf _ Hl). constructor; [exact Hq | constructor].
  - rewrite tree_map_VList in H.
    assert (G : forall s s' l', I s -> tree_map_args f s l = ok (s', l') ->
                  I s' /\ Forall Q (flat_map leaves l')).
    { clear H s s' v' Hs. induction IHl as [| x l Hx _ IH]; intros s s' l' Hs H.
      - cbn in H. inversion H; subst. split; [exact Hs | constructor].
      - cbn in H. destruct (tree_map f s x) as [e | [s1 x']] eqn:E1; [discriminate |].
        cbn in H. destruct (tree_map_args f s1 l) as [e | [s2 l2]] eqn:E2; [discriminate |].
        cbn in H. inversion H; subst.
        destruct (Hx _ _ _ Hs E1) as [Hs1 Hq1].
        destruct (IH _ _ _ Hs1 E2) as [Hs2 Hq2].
        split; [exact Hs2 |]. cbn. apply Forall_app. split; assumption. }
    destruct (tree_map_args f s l) as [e | [s1 l1]] eqn:E; [discriminate |].
    cbn in H. inversion H; subst. exact (G _ _ _ Hs E).
  - rewrite tree_map_VTuple in H.
    assert (G : forall s s' l', I s -> tree_map_args f s l = ok (s', l') ->
                  I s' /\ Forall Q (flat_map leaves l')).
    { clear H s s' v' Hs. induction IHl as [| x l Hx _ IH]; intros s s' l' Hs H.
      - cbn in H. inversion H; subst. split; [exact Hs | constructor].
      - cbn in H. destruct (tree_map f s x) as [e | [s1 x']] eqn:E1; [discriminate |].
        cbn in H. destruct (tree_map_args f s1 l) as [e | [s2 l2]] eqn:E2; [discriminate |].
        cbn in H. inversion H; subst.
        destruct (Hx _ _ _ Hs E1) as [Hs1 Hq1].
        destruct (IH _ _ _ Hs1 E2) as [Hs2 Hq2].
        split; [exact Hs2 |]. cbn. apply Forall_app. split; assumption. }
    destruct (tree_map_args f s l) as [e | [s1 l1]] eqn:E; [discriminate |].
    cbn in H. inversion H; subst. exact (G _ _ _ Hs E).
  - rewrite tree_map_VDict in H.
    assert (G : forall s s' d', I s -> tree_map_kwargs f s d = ok (s', d') ->
                  I s' /\ Forall Q (flat_map (fun kv => leaves (snd kv)) d')).
    { clear H s s' v' Hs. induction IHd as [| [k x] d Hx _ IH]; intros s s' d' Hs H.
      - cbn in H. inversion H; subst. split; [exact Hs | constructor].
      - cbn in H. destruct (tree_map f s x) as [e | [s1 x']] eqn:E1; [discriminate |].
        cbn in H. destruct (tree_map_kwargs f s1 d) as [e | [s2 d2]] eqn:E2; [discriminate |].
        cbn in H. inversion H; subst.
        destruct (Hx _ _ _ Hs E1) as [Hs1 Hq1].
        destruct (IH _ _ _ Hs1 E2) as [Hs2 Hq2].
        split; [exact Hs2 |]. cbn. apply Forall_app. split; assumption. }
    destruct (tree_map_kwargs f s d) as [e | [s1 d1]] eqn:E; [discriminate |].
    cbn in H. inversion H; subst. exact (G _ _ _ Hs E).
Qed.

End TreeMapFacts.

(** ** [unwrap] and [wrap] *)

Lemma fold_seen_filter ls : forall s,
  fold_left seen ls s = fold_left seen (filter is_tensor ls) s.
Proof.
  induction ls as [| x ls IH]; intros s; [reflexivity |].
  destruct x; cbn; apply IH.
Qed.

Section Closures.
Context {F : Frontend}.
Variable Tensor_to : MetaTensor -> dtype -> bool -> bool -> result tensor_like.
Variable deepcopy : tensor_like -> result tensor_like.

(** [unwrap] never raises; afterwards [fake_device] is the device of the last
    tensor among the leaves, or what it was when there is none. *)
Lemma unwrap_tree : forall v s,
  exists v', tree_map unwrap s v = ok (fold_left seen (leaves v) s, v').
Proof.
  induction v as [v Hv | l IHl | l IHl | d IHd] using value_tree_ind; intros s.
  - rewrite tree_map_leaf by exact Hv. rewrite (leaves_leaf _ Hv).
    destruct v; try discriminate; cbn; eexists; reflexivity.
  - rewrite tree_map_VList.
    assert (G : forall s, exists l',
               tree_map_args unwrap s l = ok (fold_left seen (flat_map leaves l) s, l')).
    { clear s. induction IHl as [| x l Hx _ IH]; intros s.
      - eexists; reflexivity.
      - destruct (Hx s) as [x' Ex]. destruct (IH (fold_left seen (leaves x) s)) as [l' El].
        exists (x' :: l'). cbn. rewrite Ex. cbn. rewrite El. cbn.
        rewrite fold_left_app. reflexivity. }
    destruct (G s) as [l' El]. rewrite El. cbn. eexists; reflexivity.
  - rewrite tree_map_VTuple.
    assert (G : forall s, exists l',
               tree_map_args unwrap s l = ok (fold_left seen (flat_map leaves l) s, l')).
    { clear s. induction IHl as [| x l Hx _ IH]; intros s.
      - eexists; reflexivity.
      - destruct (Hx s) as [x' Ex]. destruct (IH (fold_left seen (leaves x) s)) as [l' El].
        exists (x' :: l'). cbn. rewrite Ex. cbn. rewrite El. cbn.
        rewrite fold_left_app. reflexivity. }
    destruct (G s) as [l' El]. rewrite El. cbn. eexists; reflexivity.
  - rewrite tree_map_VDict.
    assert (G : forall s, exists d',
               tree_map_kwargs unwrap s d
               = ok (fold_left seen (flat_map (fun kv => leaves (snd kv)) d) s, d')).
    { clear s. induction IHd as [| [k x] d Hx _ IH]; intros s.
      - eexists; reflexivity.
      - cbn in Hx. destruct (Hx s) as [x' Ex].
        destruct (IH (fold_left seen (leaves x) s)) as [d' Ed].
        exists ((k, x') :: d'). cbn. rewrite Ex. cbn. rewrite Ed. cbn.
        rewrite fold_left_app. reflexivity. }
    destruct (G s) as [d' Ed]. rewrite Ed. cbn. eexists; reflexivity.
Qed.

Lemma unwrap_args : forall l s,
  exists l', tree_map_args unwrap s l = ok (fold_left seen (leaves_args l) s, l').
Proof.
  intros l s. destruct (unwrap_tree (VTuple l) s) as [v' E].
  rewrite tree_map_VTuple in E.
  destruct (tree_map_args unwrap s l) as [e | [s1 l1]]; [discriminate |].
  cbn in E. inversion E; subst. eexists; reflexivity.
Qed.

Lemma unwrap_kwargs : forall d s,
  exists d', tree_map_kwargs unwrap s d = ok (fold_left seen (leaves_kwargs d) s, d').
Proof.
  intros d s. destruct (unwrap_tree (VDict d) s) as [v' E].
  rewrite tree_map_VDict in E.
  destruct (tree_map_kwargs unwrap s d) as [e | [s1 d1]]; [discriminate |].
  cbn in E. inversion E; subst. eexists; reflexivity.
Qed.

(** What [wrap] answers when it returns: for a tensor a proxy built by
    [__new__] with the location read from [fake_device], and the leaf
    itself otherwise; [fake_device] is left alone. *)
Lemma wrap_tensor_inv fd x s' x' :
  is_tensor x = true -> wrap Tensor_to deepcopy fd x = ok (s', x') ->
  exists y l,
    location_of_value fd = ok l /\ s' = fd /\ x' = VMeta (MetaTensor_new y l).
Proof.
  intros Hx H. destruct x; try discriminate; unfold wrap in H.
  - destruct (location_of_value fd) as [e | l]; [discriminate |].
    cbn [rbind ok] in H. inversion H; subst. eexists _, l. repeat split.
  - unfold to, to_location in H.
    destruct (negb (is_meta (wrapper m)));
      [cbn [rbind ok] in H; destruct (deepcopy (Proxy m)) as [e | c]; [discriminate |] |];
      cbn [rbind ok] in H;
      (destruct (location_of_value fd) as [e | l]; [discriminate |]);
      cbn [rbind ok] in H; inversion H; subst; eexists _, l; repeat split.
Qed.

Lemma wrap_other fd x :
  is_tensor x = false -> wrap Tensor_to deepcopy fd x = ok (fd, x).
Proof. destruct x; intros H; try discriminate; reflexivity. Qed.

(** [wrap] leaves [fake_device] alone and answers a leaf: a proxy over
    virtual storage for a tensor, the leaf itself otherwise. *)
Lemma wrap_virtual fd x s' x' :
  is_leaf x = true -> wrap Tensor_to deepcopy fd x = ok (s', x') ->
  s' = fd /\ is_leaf x' = true /\ virtual_proxy x'.
Proof.
  intros Hx H. destruct (is_tensor x) eqn:Ht.
  - destruct (wrap_tensor_inv fd x s' x' Ht H) as (y & l & _ & -> & ->).
    split; [reflexivity | split; [reflexivity |]]. cbn. apply new_tensor_is_meta.
  - rewrite (wrap_other fd x Ht) in H. inversion H; subst.
    split; [reflexivity | split; [exact Hx |]]. destruct x'; try discriminate; exact I.
Qed.

(** When [fake_device] holds a location, the proxies [wrap] builds report
    it; when it holds something the frontend refuses, [wrap] raises on every
    tensor. *)
Lemma wrap_reports fd d x s' x' :
  holds fd d -> is_leaf x = true -> wrap Tensor_to deepcopy fd x = ok (s', x') ->
  s' = fd /\ is_leaf x' = true /\ reports d x'.
Proof.
  unfold holds. intros Hfd Hx H. destruct (is_tensor x) eqn:Ht.
  - destruct (wrap_tensor_inv fd x s' x' Ht H) as (y & l & El & -> & ->).
    split; [reflexivity | split; [reflexivity |]]. rewrite El in Hfd.
    destruct l as [l |]; [| contradiction]. cbn. rewrite new_device_explicit. exact Hfd.
  - rewrite (wrap_other fd x Ht) in H. inversion H; subst.
    split; [reflexivity | split; [exact Hx |]]. destruct x'; try discriminate; exact I.
Qed.

Lemma located_has_no_tensor v l :
  location_of_value v = ok l -> filter is_tensor (leaves v) = [].
Proof. destruct v; cbn; intros H; try reflexivity; discriminate. Qed.

Lemma holds_seen_proxy m : holds (VDevice (device m)) (device m).
Proof. reflexivity. Qed.

Lemma holds_refused v x : filter is_tensor (leaves v) = [x] -> forall d, holds v d.
Proof.
  intros H d. unfold holds.
  destruct (location_of_value v) as [e | l] eqn:E; [exact I |].
  rewrite (located_has_no_tensor _ _ E) in H. discriminate.
Qed.

(** Replacing the entry of a key replaces its leaves and no others. *)
Lemma dict_set_leaves k v : forall kw d,
  dict_get k kw = Some d ->
  exists pre post,
    leaves_kwargs kw = (pre ++ leaves d ++ post)%list
    /\ leaves_kwargs (dict_set k v kw) = (pre ++ leaves v ++ post)%list.
Proof.
  induction kw as [| [k' x] kw IH]; intros d H; [discriminate |].
  cbn in H |- *. destruct (String.eqb k k') eqn:E.
  - inversion H; subst. exists [], (leaves_kwargs kw). split; reflexivity.
  - destruct (IH _ H) as (pre & post & E1 & E2).
    exists (leaves x ++ pre)%list, post. unfold leaves_kwargs in *. cbn.
    rewrite E1, E2, <- !app_assoc. split; reflexivity.
Qed.

Lemma one_of_three {A} (X D P : list A) (x : A) :
  (X ++ D ++ P)%list = [x] ->
  (X ++ P)%list = [x] /\ D = [] \/ (X ++ P)%list = [] /\ D = [x].
Proof.
  destruct X as [| a X]; cbn.
  - destruct D as [| b D]; cbn; intros H.
    + left. split; [exact H | reflexivity].
    + inversion H as [[Hb HD]]. destruct (app_eq_nil _ _ HD) as [-> ->].
      right. split; reflexivity.
  - intros H. inversion H as [[Ha HX]].
    destruct (app_eq_nil _ _ HX) as [-> HDP]. destruct (app_eq_nil _ _ HDP) as [-> ->].
    left. split; reflexivity.
Qed.

(** The state [wrap] runs in, when one proxy is the only tensor among the
    arguments: it holds the proxy's location or something the frontend
    refuses. *)
Lemma single_input_state args kwargs m :
  tensor_inputs args kwargs = [VMeta m] ->
  let '(fd0, kw) :=
    match dict_get "device" kwargs with
    | Some d => (d, dict_set "device" (VDevice meta) kwargs)
    | None => (VNone, kwargs)
    end in
  holds (fold_left seen (leaves_kwargs kw) (fold_left seen (leaves_args args) fd0))
    (device m).
Proof.
  unfold tensor_inputs. intros H.
  destruct (dict_get "device" kwargs) as [d |] eqn:E.
  - destruct (dict_set_leaves "device" (VDevice meta) _ _ E) as (pre & post & E1 & E2).
    rewrite E2, <- fold_left_app, fold_seen_filter.
    rewrite E1 in H. rewrite !filter_app in H |- *. cbn [leaves filter is_tensor app].
    rewrite app_assoc in H.
    destruct (one_of_three _ _ _ _ H) as [[HX HD] | [HX HD]].
    + rewrite <- app_assoc in HX. rewrite HX. apply holds_seen_proxy.
    + rewrite <- app_assoc in HX. rewrite HX. cbn. exact (holds_refused _ _ HD _).
  - rewrite <- fold_left_app, fold_seen_filter, H. apply holds_seen_proxy.
Qed.

End Closures.

(** ** The claims on [MetaTensor] *)

(** C1 (the code departs from it): with a proxy that reports the CPU as the
    positional argument and [device='cuda:0'] among the keywords, the result
    of the intercepted operation is a proxy that reports the CPU: the
    location [unwrap] saw last replaces the one taken from the keyword. *)
Theorem device_keyword_overridden :
  exists m',
    torch_dispatch (F := Demo.demo_frontend) Demo.demo_Tensor_to Demo.demo_deepcopy Demo.like_first
      [VMeta Demo.proxy_cpu] (Some [("device", VStr "cuda:0")]) = ok (VMeta m')
    /\ device m' = Demo.cpu
    /\ device m' <> as_device (LocStr "cuda:0").
Proof.
  eexists. split; [reflexivity |]. split; [reflexivity | discriminate].
Qed.

(** The operation is called with the virtual device in place of the location
    keyword. *)
Lemma device_keyword_replaced :
  torch_dispatch (F := Demo.demo_frontend) Demo.demo_Tensor_to Demo.demo_deepcopy Demo.echo_kwargs
    [VMeta Demo.proxy_cpu] (Some [("device", VStr "cuda:0")])
  = ok (VDict [("device", VDevice meta)]).
Proof. reflexivity. Qed.

(** Without a tensor among the arguments the location keyword is what the
    proxies of the result report. *)
Lemma device_keyword_alone {F : Frontend} Tensor_to deepcopy func args kwargs v d out :
  tensor_inputs args kwargs = [] ->
  dict_get "device" kwargs = Some v ->
  holds v d ->
  torch_dispatch Tensor_to deepcopy func args (Some kwargs) = ok out ->
  Forall (reports d) (leaves out).
Proof.
  unfold tensor_inputs. intros Hin Hget Hv H. unfold torch_dispatch in H. rewrite Hget in H.
  destruct (unwrap_args args v) as [args' Ea]. rewrite Ea in H. cbn [rbind ok] in H.
  destruct (unwrap_kwargs (dict_set "device" (VDevice meta) kwargs)
              (fold_left seen (leaves_args args) v)) as [kw' Ek].
  rewrite Ek in H. cbn [rbind ok] in H.
  destruct (func args' kw') as [e | out0]; [discriminate |]. cbn [rbind ok] in H.
  match type of H with
  | rbind (tree_map _ ?fd _) _ = _ => set (s := fd) in *
  end.
  assert (Hs : s = v).
  { subst s. rewrite <- fold_left_app, fold_seen_filter.
    destruct (dict_set_leaves "device" (VDevice meta) _ _ Hget) as (pre & post & E1 & E2).
    rewrite E2. rewrite E1 in Hin. rewrite !filter_app in Hin |- *.
    cbn [leaves filter is_tensor app].
    destruct (app_eq_nil _ _ Hin) as [H1 H2]. destruct (app_eq_nil _ _ H2) as [H3 H4].
    destruct (app_eq_nil _ _ H4) as [H5 H6]. rewrite H1, H3, H6. reflexivity. }
  destruct (tree_map (wrap Tensor_to deepcopy) s out0) as [e | [s' out']] eqn:Ew; [discriminate |].
  cbn in H. inversion H; subst out'.
  refine (proj2 (tree_map_keeps (wrap Tensor_to deepcopy) (fun x => x = s) (reports d) _
                   out0 s s' out eq_refl Ew)).
  intros s0 x s1 x1 -> Hx Hw. apply (wrap_reports Tensor_to deepcopy s d x s1 x1); [| exact Hx | exact Hw].
  rewrite Hs. exact Hv.
Qed.

(** An [int] as the location keyword is read as the ordinal of an
    accelerator. *)
Example device_keyword_ordinal :
  exists m,
    torch_dispatch (F := Demo.demo_frontend) Demo.demo_Tensor_to Demo.demo_deepcopy
      MoreDemo.factory_op [VList [VInt 4]] (Some [("device", VInt 3)])
    = ok (VTuple [VMeta m; VInt 7])
    /\ device m = torch_device "cuda:3".
Proof. eexists. split; reflexivity. Qed.

(** C2: wrapping a proxy again reports the location given explicitly, and the
    location of the inner proxy when none is given (whether or not the two
    locations differ). *)
Theorem construct_round_trip {F : Frontend} (x : Tensor) (A B : location) :
  device (MetaTensor_new (Proxy (MetaTensor_new (Plain x) (Some A))) (Some B))
  = as_device B
  /\ device (MetaTensor_new (Proxy (MetaTensor_new (Plain x) (Some A))) None)
     = as_device A.
Proof.
  split.
  - apply new_device_explicit.
  - rewrite new_device_default_proxy. apply new_device_explicit.
Qed.

(** C3: the payload of a proxy is on virtual storage after construction from
    a tensor or a proxy, after [to] with a location, and in every proxy of
    the result of an intercepted operation, whose tensor leaves are all
    proxies. *)
Theorem storage_invariant {F : Frontend} :
  (forall elem fake_device,
      is_meta (_tensor (MetaTensor_new elem fake_device)) = true)
  /\ (forall Tensor_to deepcopy self l dtype non_blocking copy m',
         to_location Tensor_to deepcopy self l dtype non_blocking copy = ok m' ->
         is_meta (_tensor m') = true)
  /\ (forall Tensor_to deepcopy func args kwargs out,
         torch_dispatch Tensor_to deepcopy func args kwargs = ok out ->
         Forall virtual_proxy (leaves out)).
Proof.
  split; [exact new_tensor_is_meta | split].
  - intros Tensor_to deepcopy self l dtype nb copy m' H. unfold to_location in H.
    destruct (match dtype with
              | Some dt => Tensor_to self dt nb copy
              | None => ok (Proxy self)
              end) as [e | r]; [discriminate |].
    cbn [rbind ok] in H. destruct (deepcopy r) as [e | c]; [discriminate |].
    cbn in H. inversion H; subst. apply new_tensor_is_meta.
  - intros Tensor_to deepcopy func args [kwargs |] out H; [| discriminate].
    unfold torch_dispatch in H.
    destruct (match dict_get "device" kwargs with
              | Some d => (d, dict_set "device" (VDevice meta) kwargs)
              | None => (VNone, kwargs)
              end) as [fd0 kw].
    destruct (unwrap_args args fd0) as [args' Ea]. rewrite Ea in H. cbn [rbind ok] in H.
    destruct (unwrap_kwargs kw (fold_left seen (leaves_args args) fd0)) as [kw' Ek].
    rewrite Ek in H. cbn [rbind ok] in H.
    destruct (func args' kw') as [e | out0]; [discriminate |]. cbn [rbind ok] in H.
    match type of H with
    | rbind (tree_map _ ?fd _) _ = _ => set (s := fd) in *
    end.
    destruct (tree_map (wrap Tensor_to deepcopy) s out0) as [e | [s' out']] eqn:Ew; [discriminate |].
    cbn in H. inversion H; subst out'.
    refine (proj2 (tree_map_keeps (wrap Tensor_to deepcopy) (fun x => x = s) virtual_proxy _
                     out0 s s' out eq_refl Ew)).
    intros s0 x s1 x1 -> Hx Hw. exact (wrap_virtual Tensor_to deepcopy s x s1 x1 Hx Hw).
Qed.

(** An intercepted operation on a plain CPU tensor inside a list answers a
    proxy over virtual storage. *)
Lemma storage_invariant_witness :
  torch_dispatch (F := Demo.demo_frontend) Demo.demo_Tensor_to Demo.demo_deepcopy Demo.like_first [VTensor Demo.x23] (Some [])
  = ok (VMeta (MetaTensor_new (F := Demo.demo_frontend) (Plain Demo.x23)
                 (Some (LocDevice Demo.cpu))))
  /\ Forall virtual_proxy
       (leaves (VMeta (MetaTensor_new (F := Demo.demo_frontend) (Plain Demo.x23)
                         (Some (LocDevice Demo.cpu))))).
Proof.
  split; [reflexivity |].
  apply (proj2 (proj2 (storage_invariant (F := Demo.demo_frontend)))
           Demo.demo_Tensor_to Demo.demo_deepcopy Demo.like_first
           [VTensor Demo.x23] (Some [])).
  reflexivity.
Defined.

(** C7: when a proxy is the only tensor among the arguments of an intercepted
    operation, every tensor leaf of the result is a proxy that reports the
    location of that proxy. *)
Theorem location_propagation {F : Frontend} Tensor_to deepcopy func args kwargs m out :
  tensor_inputs args kwargs = [VMeta m] ->
  torch_dispatch Tensor_to deepcopy func args (Some kwargs) = ok out ->
  Forall (reports (device m)) (leaves out).
Proof.
  intros Hin H. pose proof (single_input_state args kwargs m Hin) as Hfd.
  unfold torch_dispatch in H.
  destruct (match dict_get "device" kwargs with
            | Some d => (d, dict_set "device" (VDevice meta) kwargs)
            | None => (VNone, kwargs)
            end) as [fd0 kw].
  destruct (unwrap_args args fd0) as [args' Ea]. rewrite Ea in H. cbn [rbind ok] in H.
  destruct (unwrap_kwargs kw (fold_left seen (leaves_args args) fd0)) as [kw' Ek].
  rewrite Ek in H. cbn [rbind ok] in H.
  destruct (func args' kw') as [e | out0]; [discriminate |]. cbn [rbind ok] in H.
  match type of H with
  | rbind (tree_map _ ?fd _) _ = _ => set (s := fd) in *
  end.
  destruct (tree_map (wrap Tensor_to deepcopy) s out0) as [e | [s' out']] eqn:Ew; [discriminate |].
  cbn in H. inversion H; subst out'.
  refine (proj2 (tree_map_keeps (wrap Tensor_to deepcopy) (fun x => x = s) (reports (device m)) _
                   out0 s s' out eq_refl Ew)).
  intros s0 x s1 x1 -> Hx Hw.
  exact (wrap_reports Tensor_to deepcopy s (device m) x s1 x1 Hfd Hx Hw).
Qed.

(** A one-input operation on a proxy that reports the CPU, called with a
    location keyword as well: the result reports the CPU. *)
Lemma location_propagation_witness :
  Forall (reports (device Demo.proxy_cpu))
    (leaves (VMeta (MetaTensor_new (F := Demo.demo_frontend)
                      (Plain (_tensor Demo.proxy_cpu)) (Some (LocDevice Demo.cpu))))).
Proof.
  apply (location_propagation (F := Demo.demo_frontend)
           Demo.demo_Tensor_to Demo.demo_deepcopy Demo.like_first
           [VMeta Demo.proxy_cpu] [("device", VStr "cuda:0")] Demo.proxy_cpu).
  - reflexivity.
  - reflexivity.
Defined.

(** C8: [to] with a [str] or a [torch.device] first converts the dtype on the
    normal path when one is given (an error there is passed on, and no
    conversion takes place when none is given), then deep-copies the
    converted value (an error of the copy is passed on), and answers a new
    proxy over the copy that reports the target. *)
Theorem to_location_target {F : Frontend} Tensor_to deepcopy self (l : location)
  dtype non_blocking copy :
  match match dtype with
        | Some dt => Tensor_to self dt non_blocking copy
        | None => ok (Proxy self)
        end with
  | inl e => to Tensor_to deepcopy self (target_of l) dtype non_blocking copy = raise e
  | inr r =>
      match deepcopy r with
      | inl e => to Tensor_to deepcopy self (target_of l) dtype non_blocking copy = raise e
      | inr c =>
          exists m',
            to Tensor_to deepcopy self (target_of l) dtype non_blocking copy
            = ok (Proxy m')
            /\ m' = MetaTensor_new c (Some l)
            /\ device m' = as_device l
            /\ _tensor m' = migrated (payload c)
      end
  end.
Proof.
  destruct (match dtype with
            | Some dt => Tensor_to self dt non_blocking copy
            | None => ok (Proxy self)
            end) as [e | r] eqn:E.
  - destruct l; cbn [target_of to]; unfold to_location; rewrite E; reflexivity.
  - destruct (deepcopy r) as [e | c] eqn:Ec.
    + destruct l; cbn [target_of to]; unfold to_location; rewrite E; cbn [rbind ok];
        rewrite Ec; reflexivity.
    + exists (MetaTensor_new c (Some l)).
      split; [destruct l; cbn [target_of to]; unfold to_location; rewrite E;
              cbn [rbind ok]; rewrite Ec; reflexivity |].
      split; [reflexivity |].
      split; [apply new_device_explicit | apply new_tensor].
Qed.

(** A proxy over a view three elements into its storage, which the copy
    refuses: the move raises what the copy raised. *)
Example to_location_copy_refused :
  to (F := Demo.demo_frontend) Demo.demo_Tensor_to Demo.demo_deepcopy
    {| wrapper := MoreDemo.view3_on Demo.cpu 3; _tensor := MoreDemo.view3_on meta 3 |}
    (TargetStr "cuda:1") None false false
  = raise (CollaboratorError "NotImplementedError: Cannot copy out of meta tensor; no data!").
Proof. reflexivity. Qed.

(** C10: called without keyword arguments, that is with [kwargs] left at
    [None], the interception raises a [TypeError] at the membership test,
    whatever the operation and the positional arguments. *)
Theorem dispatch_without_kwargs {F : Frontend} Tensor_to deepcopy func args :
  torch_dispatch Tensor_to deepcopy func args None
  = raise (TypeError "argument of type 'NoneType' is not iterable").
Proof. reflexivity. Qed.

End MetaTensorProps.

(** * Properties of [T5PipelineForwards] *)

Module T5Props.
Import T5.
Local Open Scope t5_scope.

(** ** Runs *)

Lemma returned_mbind {A B} (m : M A) (k : A -> M B) :
  returned (mbind m k) = rbind (returned m) (fun a => returned (k a)).
Proof.
  destruct m as [t [e | a]]; cbn; [reflexivity |]. destruct (k a); reflexivity.
Qed.

Lemma effects_mbind {A B} (m : M A) (k : A -> M B) :
  effects (mbind m k)
  = (effects m ++ match returned m with
                  | inl _ => []
                  | inr a => effects (k a)
                  end)%list.
Proof.
  unfold effects. destruct m as [t [e | a]]; cbn.
  - now rewrite app_nil_r.
  - destruct (k a) as [t' r]. cbn. apply filter_app.
Qed.

Lemma observe_mbind {A B} (m1 m2 : M A) (k1 k2 : A -> M B) :
  observe m1 = observe m2 ->
  (forall a, returned m1 = ok a -> observe (k1 a) = observe (k2 a)) ->
  observe (mbind m1 k1) = observe (mbind m2 k2).
Proof.
  unfold observe. intros H K. inversion H as [[He Hr]].
  rewrite !effects_mbind, !returned_mbind, He, <- Hr.
  destruct (returned m1) as [e | a]; cbn; [reflexivity |].
  specialize (K a eq_refl). inversion K as [[Ke Kr]]. now rewrite Ke, Kr.
Qed.

Lemma avoids_mbind {A B} (P : exn -> bool) (m : M A) (k : A -> M B) :
  avoids P m ->
  (forall a, returned m = ok a -> avoids P (k a)) ->
  avoids P (mbind m k).
Proof.
  unfold avoids. rewrite returned_mbind. intros Hm Hk.
  destruct (returned m) as [e | a]; cbn; [exact Hm | exact (Hk a eq_refl)].
Qed.

Lemma avoids_lift_d {A} (P : exn -> bool) (d : delegated A) :
  P (CollaboratorError "") = false ->
  (forall msg, P (CollaboratorError msg) = P (CollaboratorError "")) ->
  avoids P (lift_d d).
Proof.
  intros H0 H. unfold avoids. destruct d as [msg | a]; cbn; [| exact I].
  now rewrite H.
Qed.

(** [set_device] raises two errors of its own and no others. *)
Lemma avoids_set_device (P : exn -> bool) (d : Torch.device) :
  (forall s, P (ValueError ("Expected a cuda device, but got: " ++ s)) = false) ->
  P (ValueError
       "Expected a torch.device with a specified index or an integer, but got:cuda")
  = false ->
  avoids P (set_device d).
Proof.
  intros H1 H2. unfold set_device.
  destruct (String.prefix "cuda:" (Torch.device_str d)); [exact I |].
  destruct (String.eqb (Torch.device_str d) "cuda"); [exact H2 | apply H1].
Qed.

Section Atoms.
Context {B : Backend}.

Lemma returned_force_off msg flag : returned (force_off msg flag) = ok (forced flag).
Proof. destruct flag as [[|] |]; reflexivity. Qed.

Lemma effects_force_off msg flag : effects (force_off msg flag) = [].
Proof. destruct flag as [[|] |]; reflexivity. Qed.

Lemma returned_clear_past pkv :
  returned (clear_past pkv) = ok (if truthy_tuple pkv then None else pkv).
Proof. destruct pkv as [[| x l] |]; reflexivity. Qed.

Lemma effects_clear_past pkv : effects (clear_past pkv) = [].
Proof. destruct pkv as [[| x l] |]; reflexivity. Qed.

Lemma forced_not_True flag : is_True (forced flag) = false.
Proof. destruct flag as [[|] |]; reflexivity. Qed.

Lemma forced_not_truthy flag : truthy (forced flag) = false.
Proof. destruct flag as [[|] |]; reflexivity. Qed.

Lemma forced_bool (b : bool) : forced (Some b) = Some false.
Proof. destruct b; reflexivity. Qed.

Lemma avoids_for_each {S} (P : exn -> bool) (step : S -> Z -> M S) l :
  (forall st i, avoids P (step st i)) ->
  forall st, avoids P (for_each step st l).
Proof.
  intros Hstep. induction l as [| i l IH]; intros st; cbn; [exact I |].
  apply avoids_mbind; [apply Hstep | intros st' _; apply IH].
Qed.

End Atoms.

(** ** Tactics for runs *)

(** An atom of a run: a helper applied to its arguments. *)
Ltac crush_result :=
  cbv [avoids returned lift lift_d mraise mret emit read_local snd
       tensor_attr seq_getitem py_getitem unpack2 unpack3 py_add py_setitem
       py_getattr py_len py_tail of_delegated rbind ok raise];
  repeat match goal with
         | |- context [match ?x with _ => _ end] =>
             lazymatch x with
             | context [match _ with _ => _ end] => fail
             | _ => destruct x
             end
         end;
  try exact I; try reflexivity.

Ltac avoid_step :=
  match goal with
  | |- avoids _ (mbind _ _) => apply avoids_mbind; [| intros ? ?]
  | |- avoids _ (mret _) => exact I
  | |- avoids _ (emit _) => exact I
  | |- avoids _ (set_device _) =>
      apply avoids_set_device; [intros ?; reflexivity | reflexivity]
  | |- avoids _ (for_each _ _ _) => apply avoids_for_each; intros ? ?
  | |- avoids _ (block_step _ _ _ _ _ _ _ _ _ _ _ _) => unfold block_step, checkpoint
  | |- avoids _ (if ?b then _ else _) => destruct b eqn:?
  | |- avoids _ (match ?x with _ => _ end) => destruct x eqn:?
  | |- avoids _ (let _ := _ in _) => cbv zeta
  | |- avoids _ _ => solve [crush_result]
  end.

Section StackForward.
Context {B : Backend}.

Lemma avoids_prefix {A} (P : exn -> bool) msg flag (k : option bool -> M A) :
  avoids P (k (forced flag)) -> avoids P (mbind (force_off msg flag) k).
Proof.
  intros H. apply avoids_mbind.
  - unfold avoids. now rewrite returned_force_off.
  - intros x Hx. rewrite returned_force_off in Hx. inversion Hx; subst. exact H.
Qed.

Lemma avoids_clear_past {A} (P : exn -> bool) pkv (k : option (list pyval) -> M A) :
  avoids P (k (if truthy_tuple pkv then None else pkv)) ->
  avoids P (mbind (clear_past pkv) k).
Proof.
  intros H. apply avoids_mbind.
  - unfold avoids. now rewrite returned_clear_past.
  - intros x Hx. rewrite returned_clear_past in Hx. inversion Hx; subst. exact H.
Qed.

(** C9: no run of the staged forward ends in the errors of the branch
    [if use_cache is True]: neither in the read of [in_decoder] before its
    assignment nor in the [ValueError] of the branch, because the flag is
    forced off just before the test. *)
Theorem use_cache_branch_unreachable (self : T5Stack) (a : stack_args) :
  avoids use_cache_branch_error (t5_stack_forward self a).
Proof.
  unfold t5_stack_forward, after_inputs. cbv zeta.
  apply avoids_clear_past. apply avoids_prefix. apply avoids_prefix. apply avoids_prefix.
  rewrite forced_not_True, forced_not_truthy.
  apply avoids_mbind; [exact I | intros _ _].
  apply avoids_mbind; [destruct (gradient_checkpointing self && training self); exact I
                      | intros use_cache _].
  unfold process_inputs.
  repeat avoid_step.
Qed.

(** ** Forcing the flags off *)

Lemma observe_same {A C} (m : M A) (k1 k2 : A -> M C) :
  (forall x, observe (k1 x) = observe (k2 x)) ->
  observe (mbind m k1) = observe (mbind m k2).
Proof. intros H. apply observe_mbind; [reflexivity | intros x _; apply H]. Qed.

Lemma observe_force_off {C} msg f1 f2 (k1 k2 : option bool -> M C) :
  forced f1 = forced f2 ->
  observe (k1 (forced f1)) = observe (k2 (forced f1)) ->
  observe (mbind (force_off msg f1) k1) = observe (mbind (force_off msg f2) k2).
Proof.
  intros Hf Hk. apply observe_mbind.
  - unfold observe. now rewrite !effects_force_off, !returned_force_off, Hf.
  - intros x Hx. rewrite returned_force_off in Hx. inversion Hx; subst. exact Hk.
Qed.

Lemma stack_flags_forced (self : T5Stack) (a : stack_args) (uc oa : bool) :
  observe (t5_stack_forward self (stack_with_flags a (Some uc) (Some oa)))
  = observe (t5_stack_forward self (stack_with_flags a (Some false) (Some false))).
Proof.
  unfold t5_stack_forward, after_inputs, stack_with_flags.
  cbn [past_key_values output_attentions output_hidden_states use_cache].
  apply observe_same; intros pkv.
  apply observe_force_off; [now rewrite !forced_bool |].
  apply observe_same; intros ohs.
  apply observe_force_off; [now rewrite !forced_bool |].
  reflexivity.
Qed.

Lemma resolved_forced (uc : option bool) (dflt : bool) :
  forced match uc with Some b => Some b | None => Some dflt end = Some false.
Proof. destruct uc as [b |]; apply forced_bool. Qed.

Lemma model_flags_forced (self : T5Model) (a : model_args) (uc : option bool) (oa : bool) :
  observe (t5_model_forward self (model_with_flags a uc (Some oa)))
  = observe (t5_model_forward self (model_with_flags a (Some false) (Some false))).
Proof.
  unfold t5_model_forward, model_with_flags.
  cbn [m_past_key_values m_output_attentions m_output_hidden_states m_use_cache].
  apply observe_same; intros pkv.
  apply observe_force_off; [now rewrite !forced_bool |].
  apply observe_same; intros ohs.
  apply observe_force_off; [now rewrite resolved_forced |].
  reflexivity.
Qed.

Lemma lm_flags_forced (self : T5ForConditionalGeneration) (a : model_args)
  (labels : pyval) (uc : option bool) (oa : bool) :
  observe (t5_for_conditional_generation_forward self
             (model_with_flags a uc (Some oa)) labels)
  = observe (t5_for_conditional_generation_forward self
               (model_with_flags a (Some false) (Some false)) labels).
Proof.
  unfold t5_for_conditional_generation_forward, model_with_flags.
  cbn [m_past_key_values m_output_attentions m_output_hidden_states m_use_cache].
  apply observe_same; intros pkv.
  apply observe_force_off; [now rewrite !forced_bool |].
  apply observe_same; intros ohs.
  apply observe_force_off; [now rewrite resolved_forced |].
  reflexivity.
Qed.

End StackForward.

(** ** Stage boundaries *)

Lemma returned_mbind_ok {A C} (m : M A) (k : A -> M C) (x : A) :
  returned m = ok x -> returned (mbind m k) = returned (k x).
Proof. intros H. now rewrite returned_mbind, H. Qed.

Lemma returned_mbind_mret {A C} (x : A) (k : A -> M C) :
  returned (mbind (mret x) k) = returned (k x).
Proof. now rewrite returned_mbind. Qed.

Section Boundaries.
Context {B : Backend}.

Lemma is_None_eq (v : pyval) : is_None v = true <-> v = PNone.
Proof. destruct v; cbn; split; intros H; try reflexivity; discriminate. Qed.

(** The keyword [decoder_head_mask] of the decoder call. *)
Lemma returned_head_mask_block (a : model_args) (n n' : Z) :
  exists v,
    returned
      (if negb (is_None (m_head_mask a)) && is_None (m_decoder_head_mask a) then
         if n =? n'
         then emit (FutureWarning HEAD_MASK_WARNING_MSG) ;; mret (m_head_mask a)
         else mret (m_decoder_head_mask a)
       else mret (m_decoder_head_mask a)) = ok v.
Proof.
  destruct (negb (is_None (m_head_mask a)) && is_None (m_decoder_head_mask a));
    [destruct (n =? n') |]; eexists; reflexivity.
Qed.

Lemma model_forward_encoder_stage (self : T5Model) (a : model_args) sm d :
  m_stage_manager a = Some sm -> m_decoder_starting_stage a = Some d ->
  stage sm = d - 1 ->
  returned (t5_model_forward self a)
  = rbind (returned
             (t5_stack_forward (encoder self)
                (encoder_call a (forced (m_output_attentions a))
                   (forced (m_output_hidden_states a))
                   match m_return_dict a with
                   | Some b => b
                   | None => config_use_return_dict (model_config self)
                   end)))
      (fun v => ok (PDict [("encoder_outputs", v)])).
Proof.
  intros Hsm Hd Hst. unfold t5_model_forward.
  rewrite (returned_mbind_ok _ _ _ (returned_clear_past _)).
  rewrite (returned_mbind_ok _ _ _ (returned_force_off _ _)).
  rewrite (returned_mbind_ok _ _ _ (returned_force_off _ _)).
  rewrite (returned_mbind_ok _ _ _ (returned_force_off _ _)).
  destruct (returned_head_mask_block a (config_num_layers (model_config self))
              (config_num_decoder_layers (model_config self))) as [dhm Edhm].
  rewrite (returned_mbind_ok _ _ _ Edhm).
  rewrite Hsm, Hd. cbn [stage_ge].
  assert (E1 : (d <=? stage sm) = false) by (apply Z.leb_gt; lia).
  assert (E2 : (stage sm =? d - 1) = true) by (apply Z.eqb_eq; exact Hst).
  rewrite E1.
  rewrite returned_mbind_mret. cbn [negb].
  rewrite returned_mbind, E2. reflexivity.
Qed.

Lemma model_forward_decoder_stage (self : T5Model) (a : model_args) sm d :
  m_stage_manager a = Some sm -> m_decoder_starting_stage a = Some d ->
  d <= stage sm -> m_encoder_outputs a = PNone ->
  returned (t5_model_forward self a)
  = raise (ValueError "Non-empty encoder_outputs should be passed in at decoder stages.").
Proof.
  intros Hsm Hd Hst Heo. unfold t5_model_forward.
  rewrite (returned_mbind_ok _ _ _ (returned_clear_past _)).
  rewrite (returned_mbind_ok _ _ _ (returned_force_off _ _)).
  rewrite (returned_mbind_ok _ _ _ (returned_force_off _ _)).
  rewrite (returned_mbind_ok _ _ _ (returned_force_off _ _)).
  destruct (returned_head_mask_block a (config_num_layers (model_config self))
              (config_num_decoder_layers (model_config self))) as [dhm Edhm].
  rewrite (returned_mbind_ok _ _ _ Edhm).
  rewrite Hsm, Hd. cbn [stage_ge].
  assert (E1 : (d <=? stage sm) = true) by (apply Z.leb_le; exact Hst).
  rewrite E1.
  rewrite returned_mbind_mret. cbn [negb].
  rewrite Heo. reflexivity.
Qed.

Lemma lm_forward_encoder_stage (self : T5ForConditionalGeneration) (a : model_args)
  (labels : pyval) sm d :
  m_stage_manager a = Some sm -> m_decoder_starting_stage a = Some d ->
  stage sm = d - 1 ->
  returned (t5_for_conditional_generation_forward self a labels)
  = rbind (returned
             (t5_stack_forward (lm_encoder self)
                (encoder_call a (forced (m_output_attentions a))
                   (forced (m_output_hidden_states a))
                   match m_return_dict a with
                   | Some b => b
                   | None => config_use_return_dict (lm_config self)
                   end)))
      (fun v => ok (PDict [("encoder_outputs", v)])).
Proof.
  intros Hsm Hd Hst. unfold t5_for_conditional_generation_forward.
  rewrite (returned_mbind_ok _ _ _ (returned_clear_past _)).
  rewrite (returned_mbind_ok _ _ _ (returned_force_off _ _)).
  rewrite (returned_mbind_ok _ _ _ (returned_force_off _ _)).
  rewrite (returned_mbind_ok _ _ _ (returned_force_off _ _)).
  destruct (returned_head_mask_block a (config_num_layers (lm_config self))
              (config_num_decoder_layers (lm_config self))) as [dhm Edhm].
  rewrite (returned_mbind_ok _ _ _ Edhm).
  rewrite Hsm, Hd. cbn [stage_ge].
  assert (E1 : (d <=? stage sm) = false) by (apply Z.leb_gt; lia).
  assert (E2 : (stage sm =? d - 1) = true) by (apply Z.eqb_eq; exact Hst).
  rewrite E1.
  rewrite returned_mbind_mret. cbn [negb].
  rewrite returned_mbind, E2. reflexivity.
Qed.

Lemma lm_forward_decoder_stage (self : T5ForConditionalGeneration) (a : model_args)
  (labels : pyval) sm d :
  m_stage_manager a = Some sm -> m_decoder_starting_stage a = Some d ->
  d <= stage sm -> m_encoder_outputs a = PNone ->
  returned (t5_for_conditional_generation_forward self a labels)
  = raise (ValueError "Non-empty encoder_outputs should be passed in at decoder stages.").
Proof.
  intros Hsm Hd Hst Heo. unfold t5_for_conditional_generation_forward.
  rewrite (returned_mbind_ok _ _ _ (returned_clear_past _)).
  rewrite (returned_mbind_ok _ _ _ (returned_force_off _ _)).
  rewrite (returned_mbind_ok _ _ _ (returned_force_off _ _)).
  rewrite (returned_mbind_ok _ _ _ (returned_force_off _ _)).
  destruct (returned_head_mask_block a (config_num_layers (lm_config self))
              (config_num_decoder_layers (lm_config self))) as [dhm Edhm].
  rewrite (returned_mbind_ok _ _ _ Edhm).
  rewrite Hsm, Hd. cbn [stage_ge].
  assert (E1 : (d <=? stage sm) = true) by (apply Z.leb_le; exact Hst).
  rewrite E1.
  rewrite returned_mbind_mret. cbn [negb].
  rewrite Heo. reflexivity.
Qed.

(** ** The first stage of a sub-model *)

Lemma returned_mbind_mraise {A C} (e : exn) (k : A -> M C) :
  returned (mbind (mraise e) k) = raise e.
Proof. reflexivity. Qed.

Lemma process_inputs_both (self : T5Stack) in_decoder ids embeds hs :
  is_None ids = false -> is_None embeds = false ->
  is_ValueError (returned (process_inputs self in_decoder true ids embeds hs)) = true.
Proof.
  intros Hi He. unfold process_inputs. rewrite Hi, He. reflexivity.
Qed.

Lemma process_inputs_neither (self : T5Stack) in_decoder ids embeds hs :
  is_None ids = true -> is_None embeds = true ->
  is_ValueError (returned (process_inputs self in_decoder true ids embeds hs)) = true.
Proof.
  intros Hi He. unfold process_inputs. rewrite Hi, He. reflexivity.
Qed.

Lemma process_inputs_one (self : T5Stack) in_decoder at_first_stage ids embeds hs :
  Bool.eqb (is_None ids) (is_None embeds) = false ->
  avoids exclusivity_error
    (process_inputs self in_decoder at_first_stage ids embeds hs).
Proof.
  intros H. unfold process_inputs.
  destruct (is_None ids) eqn:Hi, (is_None embeds) eqn:He; try discriminate H;
    cbv beta iota delta [negb andb]; destruct at_first_stage;
    repeat avoid_step.
Qed.

(** At the first stage of a sub-model a run ends in a [ValueError] when both
    or neither of the two inputs are given. *)
Lemma first_stage_rejects (self : T5Stack) (a : stack_args) sm d :
  stage_manager a = Some sm -> decoder_starting_stage a = Some d ->
  stage sm = 0 \/ stage sm = d ->
  Bool.eqb (is_None (input_ids a)) (is_None (inputs_embeds a)) = true ->
  is_ValueError (returned (t5_stack_forward self a)) = true.
Proof.
  intros Hsm Hd Hfirst Hx.
  assert (E : (stage sm =? 0) || (stage sm =? d) = true).
  { apply Bool.orb_true_iff. destruct Hfirst as [H | H]; [left | right];
      apply Z.eqb_eq; exact H. }
  unfold t5_stack_forward, after_inputs. cbv zeta.
  rewrite (returned_mbind_ok _ _ _ (returned_clear_past _)).
  rewrite (returned_mbind_ok _ _ _ (returned_force_off _ _)).
  rewrite (returned_mbind_ok _ _ _ (returned_force_off _ _)).
  rewrite (returned_mbind_ok _ _ _ (returned_force_off _ _)).
  rewrite forced_not_True, forced_not_truthy.
  rewrite returned_mbind_mret.
  assert (G : returned
                (if gradient_checkpointing self && training self
                 then mret (forced (use_cache a))
                 else mret (forced (use_cache a))) = ok (forced (use_cache a)))
    by (destruct (gradient_checkpointing self && training self); reflexivity).
  rewrite (returned_mbind_ok _ _ _ G). clear G.
  rewrite Hsm, Hd, !returned_mbind_mret, E.
  destruct (negb (Bool.eqb (is_decoder self) (d <=? stage sm))).
  - reflexivity.
  - rewrite returned_mbind_mret, returned_mbind.
    destruct (is_None (input_ids a)) eqn:Hi, (is_None (inputs_embeds a)) eqn:He;
      try discriminate Hx.
    + pose proof (process_inputs_neither self (is_decoder self) _ _ (hidden_states a) Hi He) as H.
      destruct (returned (process_inputs self (is_decoder self) true (input_ids a)
                            (inputs_embeds a) (hidden_states a))) as [[] | p];
        try discriminate H; reflexivity.
    + pose proof (process_inputs_both self (is_decoder self) _ _ (hidden_states a) Hi He) as H.
      destruct (returned (process_inputs self (is_decoder self) true (input_ids a)
                            (inputs_embeds a) (hidden_states a))) as [[] | p];
        try discriminate H; reflexivity.
Qed.

(** With exactly one of the two inputs no run ends in an error of the
    check. *)
Lemma one_input_accepted (self : T5Stack) (a : stack_args) :
  Bool.eqb (is_None (input_ids a)) (is_None (inputs_embeds a)) = false ->
  avoids exclusivity_error (t5_stack_forward self a).
Proof.
  intros Hx. unfold t5_stack_forward, after_inputs. cbv zeta.
  apply avoids_clear_past. apply avoids_prefix. apply avoids_prefix. apply avoids_prefix.
  rewrite forced_not_True, forced_not_truthy.
  apply avoids_mbind; [exact I | intros _ _].
  apply avoids_mbind; [destruct (gradient_checkpointing self && training self); exact I
                      | intros use_cache _].
  repeat avoid_step.
  apply process_inputs_one. exact Hx.
Qed.

(** The processing of the inputs returns on one input in the expected
    form. *)
Lemma process_inputs_accepts (self : T5Stack) in_decoder ids embeds hs p :
  accepted_input self ids embeds p ->
  returned (process_inputs self in_decoder true ids embeds hs) = ok p.
Proof.
  unfold accepted_input. intros H.
  destruct ids as [| t | | |]; try contradiction;
    destruct embeds as [| e | | |]; try contradiction.
  - destruct H as (b & sl & w & h & Hs & Hdrop & ->).
    unfold process_inputs. cbn [is_None negb andb].
    rewrite (returned_mbind_ok _ _ (PNone, [b; sl])).
    2: { rewrite (returned_mbind_ok _ _ e) by reflexivity. rewrite Hs. reflexivity. }
    cbv beta iota.
    rewrite (returned_mbind_ok _ _ (PTensor e)) by reflexivity.
    rewrite (returned_mbind_ok _ _ (b, sl)) by reflexivity.
    cbv beta iota.
    rewrite (returned_mbind_ok _ _ e) by reflexivity.
    rewrite (returned_mbind_ok _ _ h) by (cbv [returned lift_d snd]; rewrite Hdrop; reflexivity).
    reflexivity.
  - destruct H as (b & sl & v & embed & e & h & Hs & Hv & He & Hemb & Hdrop & ->).
    unfold process_inputs. cbn [is_None negb andb].
    rewrite (returned_mbind_ok _ _ (PTensor v, [b; sl])).
    2: { rewrite (returned_mbind_ok _ _ t) by reflexivity. cbv zeta. rewrite Hs.
         rewrite (returned_mbind_ok _ _ sl) by reflexivity.
         rewrite (returned_mbind_ok _ _ v)
           by (cbv [returned lift_d snd]; rewrite Hv; reflexivity).
         reflexivity. }
    cbv beta iota. rewrite He.
    rewrite (returned_mbind_ok _ _ (PTensor e))
      by (cbv [returned lift_d snd]; rewrite Hemb; reflexivity).
    rewrite (returned_mbind_ok _ _ (b, sl)) by reflexivity.
    cbv beta iota.
    rewrite (returned_mbind_ok _ _ e) by reflexivity.
    rewrite (returned_mbind_ok _ _ h) by (cbv [returned lift_d snd]; rewrite Hdrop; reflexivity).
    reflexivity.
Qed.

(** At the first stage of an aligned stack, a call whose one input is in
    the expected form goes on with what follows the processing of the
    inputs. *)
Lemma first_stage_passes (self : T5Stack) (a : stack_args) sm d p :
  stage_manager a = Some sm -> decoder_starting_stage a = Some d ->
  stage sm = 0 \/ stage sm = d ->
  is_decoder self = (d <=? stage sm) ->
  accepted_input self (input_ids a) (inputs_embeds a) p ->
  returned (t5_stack_forward self a)
  = returned
      (after_inputs self a
         (if truthy_tuple (past_key_values a) then None else past_key_values a)
         (forced (use_cache a)) (forced (output_attentions a))
         (forced (output_hidden_states a)) (is_decoder self)
         ((stage sm =? d - 1) || (stage sm =? num_stages sm - 1)) p).
Proof.
  intros Hsm Hd Hfirst Hal Hp.
  assert (E : (stage sm =? 0) || (stage sm =? d) = true).
  { apply Bool.orb_true_iff. destruct Hfirst as [H | H]; [left | right];
      apply Z.eqb_eq; exact H. }
  unfold t5_stack_forward. cbv zeta.
  rewrite (returned_mbind_ok _ _ _ (returned_clear_past _)).
  rewrite (returned_mbind_ok _ _ _ (returned_force_off _ _)).
  rewrite (returned_mbind_ok _ _ _ (returned_force_off _ _)).
  rewrite (returned_mbind_ok _ _ _ (returned_force_off _ _)).
  rewrite forced_not_True, forced_not_truthy.
  rewrite returned_mbind_mret.
  assert (G : returned
                (if gradient_checkpointing self && training self
                 then mret (forced (use_cache a))
                 else mret (forced (use_cache a))) = ok (forced (use_cache a)))
    by (destruct (gradient_checkpointing self && training self); reflexivity).
  rewrite (returned_mbind_ok _ _ _ G). clear G.
  rewrite Hsm, Hd, !returned_mbind_mret, E, <- Hal, Bool.eqb_reflx.
  cbn [negb]. rewrite returned_mbind_mret.
  rewrite (returned_mbind_ok _ _ p (process_inputs_accepts self _ _ _ _ p Hp)).
  reflexivity.
Qed.

End Boundaries.

(** C4: at the last encoder stage the two seq2seq forwards end as the staged
    forward of the encoder does, and when that returns a value they return
    the mapping with the one key ['encoder_outputs'] holding it;
    at a decoder stage without [encoder_outputs] they raise the
    [ValueError] of the missing encoder outputs. *)
Theorem stage_boundary {B : Backend} (model : T5Model) (lm : T5ForConditionalGeneration)
  (a : model_args) (labels : pyval) (sm : PipelineStageManager) (d : Z) :
  m_stage_manager a = Some sm ->
  m_decoder_starting_stage a = Some d ->
  (stage sm = d - 1 ->
   returned (t5_model_forward model a)
   = rbind (returned
              (t5_stack_forward (encoder model)
                 (encoder_call a (forced (m_output_attentions a))
                    (forced (m_output_hidden_states a))
                    match m_return_dict a with
                    | Some b => b
                    | None => config_use_return_dict (model_config model)
                    end)))
       (fun v => ok (PDict [("encoder_outputs", v)]))
   /\ returned (t5_for_conditional_generation_forward lm a labels)
      = rbind (returned
                 (t5_stack_forward (lm_encoder lm)
                    (encoder_call a (forced (m_output_attentions a))
                       (forced (m_output_hidden_states a))
                       match m_return_dict a with
                       | Some b => b
                       | None => config_use_return_dict (lm_config lm)
                       end)))
          (fun v => ok (PDict [("encoder_outputs", v)])))
  /\ (d <= stage sm -> m_encoder_outputs a = PNone ->
      returned (t5_model_forward model a)
      = raise (ValueError "Non-empty encoder_outputs should be passed in at decoder stages.")
      /\ returned (t5_for_conditional_generation_forward lm a labels)
         = raise (ValueError "Non-empty encoder_outputs should be passed in at decoder stages.")).
Proof.
  intros Hsm Hd. split.
  - intros Hst. split.
    + exact (model_forward_encoder_stage model a sm d Hsm Hd Hst).
    + exact (lm_forward_encoder_stage lm a labels sm d Hsm Hd Hst).
  - intros Hst Heo. split.
    + exact (model_forward_decoder_stage model a sm d Hsm Hd Hst Heo).
    + exact (lm_forward_decoder_stage lm a labels sm d Hsm Hd Hst Heo).
Qed.

(** At stage 0 of two, with the decoder starting at stage 1, and [input_ids]
    of shape [2, 5]: the forward returns the mapping; at stage 1 without
    encoder outputs it raises. *)
Lemma stage_boundary_witness :
  (exists v,
      returned (t5_model_forward Demo.demo_model
                  (Demo.model_call Demo.stage0 Demo.ids25 PNone))
      = ok (PDict [("encoder_outputs", v)]))
  /\ returned (t5_model_forward Demo.demo_model
                 (Demo.model_call Demo.stage1 Demo.ids25 PNone))
     = raise (ValueError "Non-empty encoder_outputs should be passed in at decoder stages.").
Proof.
  split.
  - destruct (stage_boundary Demo.demo_model Demo.demo_lm
                (Demo.model_call Demo.stage0 Demo.ids25 PNone) PNone Demo.stage0 1
                eq_refl eq_refl) as [H _].
    destruct (H eq_refl) as [H1 _]. rewrite H1. eexists. reflexivity.
  - destruct (stage_boundary Demo.demo_model Demo.demo_lm
                (Demo.model_call Demo.stage1 Demo.ids25 PNone) PNone Demo.stage1 1
                eq_refl eq_refl) as [_ H].
    destruct (H ltac:(cbn; lia) eq_refl) as [H1 _]. exact H1.
Defined.

(** The decoder call of the two seq2seq forwards does not hand on
    [stage_manager], so a decoder stage that gets past its own checks ends
    in the staged forward's read of [stage_manager.stage]. *)
Example decoder_stage_without_stage_manager :
  returned (t5_model_forward Demo.demo_model
              (Demo.model_call Demo.stage1 Demo.ids25 (PTuple [Demo.embeds258])))
  = raise (AttributeError "'NoneType' object has no attribute 'stage'").
Proof. reflexivity. Qed.

(** C5: at the first stage of a sub-model (stage 0, or the stage the decoder
    starts at) the staged forward ends in a [ValueError] when both or
    neither of [input_ids] and [inputs_embeds] are given.  When exactly one
    is given, no run ends in an error of that check, and a call with the
    one input in the expected form gets past the check: the forward goes on
    with what follows the processing of the inputs, and ends as that
    does. *)
Theorem first_stage_exclusivity {B : Backend} (self : T5Stack) (a : stack_args)
  (sm : PipelineStageManager) (d : Z) :
  stage_manager a = Some sm ->
  decoder_starting_stage a = Some d ->
  stage sm = 0 \/ stage sm = d ->
  if Bool.eqb (is_None (input_ids a)) (is_None (inputs_embeds a))
  then is_ValueError (returned (t5_stack_forward self a)) = true
  else avoids exclusivity_error (t5_stack_forward self a)
       /\ forall p,
            is_decoder self = (d <=? stage sm) ->
            accepted_input self (input_ids a) (inputs_embeds a) p ->
            returned (t5_stack_forward self a)
            = returned
                (after_inputs self a
                   (if truthy_tuple (past_key_values a) then None else past_key_values a)
                   (forced (use_cache a)) (forced (output_attentions a))
                   (forced (output_hidden_states a)) (is_decoder self)
                   ((stage sm =? d - 1) || (stage sm =? num_stages sm - 1)) p).
Proof.
  intros Hsm Hd Hfirst.
  destruct (Bool.eqb (is_None (input_ids a)) (is_None (inputs_embeds a))) eqn:Hx.
  - exact (first_stage_rejects self a sm d Hsm Hd Hfirst Hx).
  - split; [exact (one_input_accepted self a Hx) |].
    intros p Hal Hp.
    exact (first_stage_passes self a sm d p Hsm Hd Hfirst Hal Hp).
Qed.

(** Stage 0 of the demo encoder with [input_ids] alone, and with
    [inputs_embeds] alone: the run gets past the check and returns. *)
Example stage0_with_input_ids :
  returned (t5_stack_forward (Demo.demo_stack false)
              (Demo.stack_call_stage0 Demo.ids25 PNone))
  = ok (PTuple [PTensor (B := Demo.shape_backend)
                  {| Demo.st_shape := [-1; 5; 8]; Demo.st_device := Demo.cuda0 |}]).
Proof. reflexivity. Qed.

Example stage0_with_inputs_embeds :
  returned (t5_stack_forward (Demo.demo_stack false)
              (Demo.stack_call_stage0 PNone Demo.embeds258))
  = ok (PTuple [Demo.embeds258]).
Proof. reflexivity. Qed.

Example stage0_with_neither :
  returned (t5_stack_forward (Demo.demo_stack false)
              (Demo.stack_call_stage0 PNone PNone))
  = raise (ValueError "You have to specify either input_ids or inputs_embeds").
Proof. reflexivity. Qed.

(** Stage 0 with both inputs, and with [input_ids] alone: the second call
    gets past the check and returns. *)
Lemma first_stage_exclusivity_witness :
  is_ValueError
    (returned (t5_stack_forward (Demo.demo_stack false)
                 (Demo.stack_call_stage0 Demo.ids25 Demo.embeds258))) = true
  /\ avoids exclusivity_error
       (t5_stack_forward (Demo.demo_stack false)
          (Demo.stack_call_stage0 Demo.ids25 PNone))
  /\ returned (t5_stack_forward (Demo.demo_stack false)
                 (Demo.stack_call_stage0 Demo.ids25 PNone))
     = ok (PTuple [PTensor (B := Demo.shape_backend)
                     {| Demo.st_shape := [-1; 5; 8]; Demo.st_device := Demo.cuda0 |}]).
Proof.
  split.
  - apply (first_stage_exclusivity (Demo.demo_stack false)
             (Demo.stack_call_stage0 Demo.ids25 Demo.embeds258) Demo.stage0 1
             eq_refl eq_refl (or_introl eq_refl)).
  - split.
    + apply (proj1 (first_stage_exclusivity (Demo.demo_stack false)
                      (Demo.stack_call_stage0 Demo.ids25 PNone) Demo.stage0 1
                      eq_refl eq_refl (or_introl eq_refl))).
    + eapply eq_trans.
      * apply (proj2 (first_stage_exclusivity (Demo.demo_stack false)
                        (Demo.stack_call_stage0 Demo.ids25 PNone) Demo.stage0 1
                        eq_refl eq_refl (or_introl eq_refl))).
        -- reflexivity.
        -- cbn. eexists _, _, _, _, _, _.
           repeat (split; [reflexivity |]). reflexivity.
      * reflexivity.
Defined.

(** ** [output_attentions] left at [None] *)

Lemma mbind_ext {A C} (m : M A) (k1 k2 : A -> M C) :
  (forall x, returned m = ok x -> k1 x = k2 x) -> mbind m k1 = mbind m k2.
Proof.
  intros H. destruct m as [t [e | x]]; cbn; [reflexivity |].
  now rewrite (H x eq_refl).
Qed.

Lemma mbind_mret_l {A C} (x : A) (k : A -> M C) : mbind (mret x) k = k x.
Proof. unfold mbind, mret. destruct (k x); reflexivity. Qed.

Section AttentionsDefault.
Context {B : Backend}.

Lemma seq_getitem_In {A} (l : list A) i x : seq_getitem l i = ok x -> In x l.
Proof.
  unfold seq_getitem.
  destruct ((_ <? 0) || (_ <=? _)); [discriminate |].
  destruct (nth_error l _) eqn:E; [| discriminate].
  intros H. inversion H; subst. exact (nth_error_In _ _ E).
Qed.

Lemma block_step_attentions_default (self : T5Stack) pkv hm chm eam ehs eeam uc in_dec st i :
  (forall blk, In blk (block self) -> attentions_by_truth blk) ->
  block_step self pkv hm chm eam ehs eeam uc None in_dec st i
  = block_step self pkv hm chm eam ehs eeam uc (Some false) in_dec st i.
Proof.
  intros Hblk. unfold block_step, checkpoint.
  apply mbind_ext; intros past _.
  apply mbind_ext; intros blk Hb.
  apply mbind_ext; intros lhm _.
  apply mbind_ext; intros clhm _.
  apply mbind_ext; intros t _.
  apply mbind_ext; intros _ _.
  pose proof (Hblk blk (seq_getitem_In _ _ _ Hb)) as Hby. unfold attentions_by_truth in Hby.
  destruct (gradient_checkpointing self && training self).
  - pose proof (Hby {| bc_hidden_states := ls_hidden_states st;
                       bc_attention_mask := eam;
                       bc_position_bias := ls_position_bias st;
                       bc_encoder_hidden_states := ehs;
                       bc_encoder_attention_mask := eeam;
                       bc_encoder_decoder_position_bias :=
                         ls_encoder_decoder_position_bias st;
                       bc_layer_head_mask := lhm;
                       bc_cross_attn_layer_head_mask := clhm;
                       bc_past_key_value := PNone;
                       bc_use_cache := uc;
                       bc_output_attentions := None |}) as E.
    unfold with_output_attentions in E. cbn in E. rewrite E. reflexivity.
  - pose proof (Hby {| bc_hidden_states := ls_hidden_states st;
                       bc_attention_mask := eam;
                       bc_position_bias := ls_position_bias st;
                       bc_encoder_hidden_states := ehs;
                       bc_encoder_attention_mask := eeam;
                       bc_encoder_decoder_position_bias :=
                         ls_encoder_decoder_position_bias st;
                       bc_layer_head_mask := lhm;
                       bc_cross_attn_layer_head_mask := clhm;
                       bc_past_key_value := past;
                       bc_use_cache := uc;
                       bc_output_attentions := None |}) as E.
    unfold with_output_attentions in E. cbn in E. rewrite E. reflexivity.
Qed.

Lemma for_each_ext {S} (f g : S -> Z -> M S) l :
  (forall st i, f st i = g st i) -> forall st, for_each f st l = for_each g st l.
Proof.
  intros H. induction l as [| i l IH]; intros st; cbn; [reflexivity |].
  rewrite H. apply mbind_ext. intros st' _. apply IH.
Qed.

(** The staged forward ends the same way with [output_attentions=None] and
    with [output_attentions=False], when its blocks read the flag by its
    truth value. *)
Lemma stack_attentions_default (self : T5Stack) (a : stack_args) (uc : option bool) :
  (forall blk, In blk (block self) -> attentions_by_truth blk) ->
  t5_stack_forward self (stack_with_flags a uc None)
  = t5_stack_forward self (stack_with_flags a uc (Some false)).
Proof.
  intros Hblk. unfold t5_stack_forward, after_inputs, stack_with_flags.
  cbn [past_key_values output_attentions output_hidden_states use_cache
       stage_manager decoder_starting_stage input_ids inputs_embeds hidden_states
       attention_mask encoder_hidden_states encoder_attention_mask head_mask
       cross_attn_head_mask stage_index position_bias encoder_decoder_position_bias
       return_dict].
  cbv zeta.
  apply mbind_ext; intros pkv _.
  change (force_off
            "output_attentions=True is not supported for pipeline models at the moment."
            None) with (@mret (option bool) None).
  change (force_off
            "output_attentions=True is not supported for pipeline models at the moment."
            (Some false)) with (@mret (option bool) (Some false)).
  rewrite !mbind_mret_l.
  repeat (apply mbind_ext; intros ? _).
  match goal with
  | |- context [for_each (block_step ?s ?p ?h ?c ?e ?eh ?ee ?u None ?d)] =>
      rewrite (for_each_ext
                 (block_step s p h c e eh ee u None d)
                 (block_step s p h c e eh ee u (Some false) d))
        by (intros; apply block_step_attentions_default; exact Hblk)
  end.
  reflexivity.
Qed.

#[local] Opaque t5_stack_forward.

(** One step through two runs that differ in [output_attentions] only. *)
Ltac same_step Henc Hdec :=
  lazymatch goal with
  | |- mbind (t5_stack_forward ?s ?r1) _ = mbind (t5_stack_forward ?s ?r2) _ =>
      replace (t5_stack_forward s r1) with (t5_stack_forward s r2)
        by (symmetry;
            first [ exact (stack_attentions_default s r2 (use_cache r2) Henc)
                  | exact (stack_attentions_default s r2 (use_cache r2) Hdec) ]);
      apply mbind_ext; intros ? _
  | |- mbind _ _ = mbind _ _ => apply mbind_ext; intros ? _
  | |- (if ?b then _ else _) = (if _ then _ else _) => destruct b
  | |- (match ?x with _ => _ end) = (match _ with _ => _ end) => destruct x
  | |- _ => reflexivity
  end.

(** The same for the two seq2seq forwards: with [output_attentions] omitted
    they end as with [output_attentions=False]. *)
Lemma model_attentions_default (self : T5Model) (a : model_args) (uc : option bool) :
  (forall blk, In blk (block (encoder self)) -> attentions_by_truth blk) ->
  (forall blk, In blk (block (decoder self)) -> attentions_by_truth blk) ->
  t5_model_forward self (model_with_flags a uc None)
  = t5_model_forward self (model_with_flags a uc (Some false)).
Proof.
  intros Henc Hdec. unfold t5_model_forward, model_with_flags, encoder_call, decoder_call.
  cbn [m_input_ids m_attention_mask m_decoder_input_ids m_decoder_attention_mask
       m_head_mask m_decoder_head_mask m_cross_attn_head_mask m_encoder_outputs
       m_past_key_values m_inputs_embeds m_decoder_inputs_embeds m_use_cache
       m_output_attentions m_output_hidden_states m_return_dict m_stage_manager
       m_hidden_states m_position_bias m_encoder_decoder_position_bias m_stage_index
       m_decoder_starting_stage].
  apply mbind_ext; intros pkv _.
  change (force_off
            "output_attentions=True is not supported for pipeline models at the moment."
            None) with (@mret (option bool) None).
  change (force_off
            "output_attentions=True is not supported for pipeline models at the moment."
            (Some false)) with (@mret (option bool) (Some false)).
  rewrite !mbind_mret_l.
  do 4 (apply mbind_ext; intros ? _).
  repeat same_step Henc Hdec.
Qed.

Lemma lm_attentions_default (self : T5ForConditionalGeneration) (a : model_args)
  (labels : pyval) (uc : option bool) :
  (forall blk, In blk (block (lm_encoder self)) -> attentions_by_truth blk) ->
  (forall blk, In blk (block (lm_decoder self)) -> attentions_by_truth blk) ->
  t5_for_conditional_generation_forward self (model_with_flags a uc None) labels
  = t5_for_conditional_generation_forward self (model_with_flags a uc (Some false)) labels.
Proof.
  intros Henc Hdec.
  unfold t5_for_conditional_generation_forward, model_with_flags, encoder_call, decoder_call.
  cbn [m_input_ids m_attention_mask m_decoder_input_ids m_decoder_attention_mask
       m_head_mask m_decoder_head_mask m_cross_attn_head_mask m_encoder_outputs
       m_past_key_values m_inputs_embeds m_decoder_inputs_embeds m_use_cache
       m_output_attentions m_output_hidden_states m_return_dict m_stage_manager
       m_hidden_states m_position_bias m_encoder_decoder_position_bias m_stage_index
       m_decoder_starting_stage].
  apply mbind_ext; intros pkv _.
  change (force_off
            "output_attentions=True is not supported for pipeline models at the moment."
            None) with (@mret (option bool) None).
  change (force_off
            "output_attentions=True is not supported for pipeline models at the moment."
            (Some false)) with (@mret (option bool) (Some false)).
  rewrite !mbind_mret_l.
  do 4 (apply mbind_ext; intros ? _).
  repeat same_step Henc Hdec.
Qed.

End AttentionsDefault.

#[local] Transparent t5_stack_forward.

(** C6: a call of the staged forward with [use_cache=True] or
    [output_attentions=True] ends as the same call with both flags at their
    default [False] does, with the same effects apart from the advisory log.
    The same holds for the two seq2seq forwards against both flags [False],
    whatever [use_cache] is (an omitted one is resolved from the
    configuration and forced off as well), and against both flags omitted
    (their default [None]) when the blocks read [output_attentions] by its
    truth value. *)
Theorem cache_attention_suppression {B : Backend} :
  (forall (self : T5Stack) (a : stack_args) (uc oa : bool),
      observe (t5_stack_forward self (stack_with_flags a (Some uc) (Some oa)))
      = observe (t5_stack_forward self (stack_with_flags a (Some false) (Some false))))
  /\ (forall (self : T5Model) (a : model_args) (uc : option bool) (oa : bool),
         observe (t5_model_forward self (model_with_flags a uc (Some oa)))
         = observe (t5_model_forward self (model_with_flags a (Some false) (Some false))))
  /\ (forall (self : T5ForConditionalGeneration) (a : model_args) (labels : pyval)
             (uc : option bool) (oa : bool),
         observe (t5_for_conditional_generation_forward self
                    (model_with_flags a uc (Some oa)) labels)
         = observe (t5_for_conditional_generation_forward self
                      (model_with_flags a (Some false) (Some false)) labels))
  /\ (forall (self : T5Model) (a : model_args) (uc : option bool) (oa : bool),
         (forall blk, In blk (block (encoder self)) -> attentions_by_truth blk) ->
         (forall blk, In blk (block (decoder self)) -> attentions_by_truth blk) ->
         observe (t5_model_forward self (model_with_flags a uc (Some oa)))
         = observe (t5_model_forward self (model_with_flags a None None)))
  /\ (forall (self : T5ForConditionalGeneration) (a : model_args) (labels : pyval)
             (uc : option bool) (oa : bool),
         (forall blk, In blk (block (lm_encoder self)) -> attentions_by_truth blk) ->
         (forall blk, In blk (block (lm_decoder self)) -> attentions_by_truth blk) ->
         observe (t5_for_conditional_generation_forward self
                    (model_with_flags a uc (Some oa)) labels)
         = observe (t5_for_conditional_generation_forward self
                      (model_with_flags a None None) labels)).
Proof.
  split; [exact stack_flags_forced |].
  split; [exact model_flags_forced |].
  split; [exact lm_flags_forced |].
  split.
  - intros self a uc oa Henc Hdec.
    rewrite (model_flags_forced self a uc oa).
    rewrite <- (model_flags_forced self a None false).
    now rewrite (model_attentions_default self a None Henc Hdec).
  - intros self a labels uc oa Henc Hdec.
    rewrite (lm_flags_forced self a labels uc oa).
    rewrite <- (lm_flags_forced self a labels None false).
    now rewrite (lm_attentions_default self a labels None Henc Hdec).
Qed.

(** The last encoder stage called with both flags [True] and with both
    omitted: the same mapping comes back. *)
Lemma cache_attention_suppression_witness :
  observe (t5_model_forward Demo.demo_model
             (model_with_flags (Demo.model_call Demo.stage0 Demo.ids25 PNone)
                (Some true) (Some true)))
  = observe (t5_model_forward Demo.demo_model
               (model_with_flags (Demo.model_call Demo.stage0 Demo.ids25 PNone)
                  None None)).
Proof.
  apply (proj1 (proj2 (proj2 (proj2 cache_attention_suppression)))
           Demo.demo_model (Demo.model_call Demo.stage0 Demo.ids25 PNone)
           (Some true) true).
  - intros blk [<- | []] c. reflexivity.
  - intros blk [<- | []] c. reflexivity.
Defined.

End T5Props.

(** * Further properties of [T5PipelineForwards] *)

Module T5More.
Import T5 T5Props.
Local Open Scope t5_scope.

Section StackHead.
Context {B : Backend}.

(** The staged forward up to the processing of its inputs. *)
Lemma stack_forward_head (self : T5Stack) (a : stack_args) sm d :
  stage_manager a = Some sm -> decoder_starting_stage a = Some d ->
  exists K,
    returned (t5_stack_forward self a)
    = if negb (Bool.eqb (is_decoder self) (d <=? stage sm))
      then raise (ValueError "Config in T5Stack is not aligned with pipeline setting.")
      else rbind (returned
                    (process_inputs self (is_decoder self)
                       ((stage sm =? 0) || (stage sm =? d))
                       (input_ids a) (inputs_embeds a) (hidden_states a))) K.
Proof.
  intros Hsm Hd. eexists.
  unfold t5_stack_forward, after_inputs. cbv zeta.
  rewrite (returned_mbind_ok _ _ _ (returned_clear_past _)).
  rewrite (returned_mbind_ok _ _ _ (returned_force_off _ _)).
  rewrite (returned_mbind_ok _ _ _ (returned_force_off _ _)).
  rewrite (returned_mbind_ok _ _ _ (returned_force_off _ _)).
  rewrite forced_not_True, forced_not_truthy.
  rewrite returned_mbind_mret.
  assert (G : returned
                (if gradient_checkpointing self && training self
                 then mret (forced (use_cache a))
                 else mret (forced (use_cache a))) = ok (forced (use_cache a)))
    by (destruct (gradient_checkpointing self && training self); reflexivity).
  rewrite (returned_mbind_ok _ _ _ G). clear G.
  rewrite Hsm, Hd, !returned_mbind_mret.
  destruct (negb (Bool.eqb (is_decoder self) (d <=? stage sm))).
  - reflexivity.
  - rewrite returned_mbind_mret, returned_mbind. reflexivity.
Qed.

(** Called without a stage manager the staged forward raises at the read of
    [stage_manager.stage], whatever the other arguments are. *)
Lemma stack_without_stage_manager (self : T5Stack) (a : stack_args) :
  stage_manager a = None ->
  returned (t5_stack_forward self a)
  = raise (AttributeError "'NoneType' object has no attribute 'stage'").
Proof.
  intros Hsm. unfold t5_stack_forward, after_inputs. cbv zeta.
  rewrite (returned_mbind_ok _ _ _ (returned_clear_past _)).
  rewrite (returned_mbind_ok _ _ _ (returned_force_off _ _)).
  rewrite (returned_mbind_ok _ _ _ (returned_force_off _ _)).
  rewrite (returned_mbind_ok _ _ _ (returned_force_off _ _)).
  rewrite forced_not_True, forced_not_truthy.
  rewrite returned_mbind_mret.
  assert (G : returned
                (if gradient_checkpointing self && training self
                 then mret (forced (use_cache a))
                 else mret (forced (use_cache a))) = ok (forced (use_cache a)))
    by (destruct (gradient_checkpointing self && training self); reflexivity).
  rewrite (returned_mbind_ok _ _ _ G). clear G.
  rewrite Hsm. reflexivity.
Qed.

Lemma decoder_call_unmanaged (a : model_args) p e d u o h r :
  stage_manager (decoder_call a p e d u o h r) = None.
Proof. reflexivity. Qed.

Lemma model_forward_decoder_fails (self : T5Model) (a : model_args) sm d :
  m_stage_manager a = Some sm -> m_decoder_starting_stage a = Some d ->
  d <= stage sm ->
  exists e, returned (t5_model_forward self a) = raise e.
Proof.
  intros Hsm Hd Hst. unfold t5_model_forward.
  rewrite (returned_mbind_ok _ _ _ (returned_clear_past _)).
  rewrite (returned_mbind_ok _ _ _ (returned_force_off _ _)).
  rewrite (returned_mbind_ok _ _ _ (returned_force_off _ _)).
  rewrite (returned_mbind_ok _ _ _ (returned_force_off _ _)).
  destruct (returned_head_mask_block a (config_num_layers (model_config self))
              (config_num_decoder_layers (model_config self))) as [dhm Edhm].
  rewrite (returned_mbind_ok _ _ _ Edhm).
  rewrite Hsm, Hd. cbn [stage_ge].
  assert (E1 : (d <=? stage sm) = true) by (apply Z.leb_le; exact Hst).
  rewrite E1, returned_mbind_mret. cbn [negb]. cbv zeta.
  destruct (is_None (m_encoder_outputs a)); [eexists; reflexivity |].
  rewrite returned_mbind.
  destruct (returned (lift (py_getitem (m_encoder_outputs a) 0))) as [e | ehs];
    [eexists; reflexivity |].
  cbn [rbind]. rewrite returned_mbind.
  match goal with
  | |- context [rbind (returned ?m) _] => destruct (returned m) as [e | eo]
  end; [eexists; reflexivity |].
  cbn [rbind].
  destruct (negb (stage sm =? d) && is_None (m_hidden_states a)); [eexists; reflexivity |].
  rewrite returned_mbind, stack_without_stage_manager by apply decoder_call_unmanaged.
  eexists; reflexivity.
Qed.

Lemma lm_forward_decoder_fails (self : T5ForConditionalGeneration) (a : model_args)
  (labels : pyval) sm d :
  m_stage_manager a = Some sm -> m_decoder_starting_stage a = Some d ->
  d <= stage sm ->
  exists e, returned (t5_for_conditional_generation_forward self a labels) = raise e.
Proof.
  intros Hsm Hd Hst. unfold t5_for_conditional_generation_forward.
  rewrite (returned_mbind_ok _ _ _ (returned_clear_past _)).
  rewrite (returned_mbind_ok _ _ _ (returned_force_off _ _)).
  rewrite (returned_mbind_ok _ _ _ (returned_force_off _ _)).
  rewrite (returned_mbind_ok _ _ _ (returned_force_off _ _)).
  destruct (returned_head_mask_block a (config_num_layers (lm_config self))
              (config_num_decoder_layers (lm_config self))) as [dhm Edhm].
  rewrite (returned_mbind_ok _ _ _ Edhm).
  rewrite Hsm, Hd. cbn [stage_ge].
  assert (E1 : (d <=? stage sm) = true) by (apply Z.leb_le; exact Hst).
  rewrite E1, returned_mbind_mret. cbn [negb]. cbv zeta.
  destruct (is_None (m_encoder_outputs a)); [eexists; reflexivity |].
  rewrite returned_mbind.
  destruct (returned (lift (py_getitem (m_encoder_outputs a) 0))) as [e | ehs];
    [eexists; reflexivity |].
  cbn [rbind]. rewrite returned_mbind.
  match goal with
  | |- context [rbind (returned ?m) _] => destruct (returned m) as [e | eo]
  end; [eexists; reflexivity |].
  cbn [rbind].
  destruct (negb (stage sm =? d) && is_None (m_hidden_states a)); [eexists; reflexivity |].
  rewrite returned_mbind, stack_without_stage_manager by apply decoder_call_unmanaged.
  eexists; reflexivity.
Qed.

End StackHead.

(** X1: a stack whose [is_decoder] does not agree with the side of the
    decoder threshold its stage is on is rejected with the [ValueError] of
    the misaligned configuration, whatever the inputs are. *)
Theorem misaligned_stack_rejected {B : Backend} (self : T5Stack) (a : stack_args)
  (sm : PipelineStageManager) (d : Z) :
  stage_manager a = Some sm ->
  decoder_starting_stage a = Some d ->
  is_decoder self <> (d <=? stage sm) ->
  returned (t5_stack_forward self a)
  = raise (ValueError "Config in T5Stack is not aligned with pipeline setting.").
Proof.
  intros Hsm Hd Hne. destruct (stack_forward_head self a sm d Hsm Hd) as [K HK].
  rewrite HK.
  destruct (is_decoder self), (d <=? stage sm); try reflexivity; now elim Hne.
Qed.

(** The demo decoder called at stage 0, an encoder stage. *)
Lemma misaligned_stack_rejected_witness :
  returned (t5_stack_forward (Demo.demo_stack true)
              (Demo.stack_call_stage0 Demo.ids25 PNone))
  = raise (ValueError "Config in T5Stack is not aligned with pipeline setting.").
Proof.
  apply (misaligned_stack_rejected (Demo.demo_stack true)
           (Demo.stack_call_stage0 Demo.ids25 PNone) Demo.stage0 1 eq_refl eq_refl).
  discriminate.
Defined.

(** X2: without a stage manager the staged forward raises the
    [AttributeError] of the read of [stage_manager.stage], whatever the
    other arguments are. *)
Theorem unmanaged_call_rejected {B : Backend} (self : T5Stack) (a : stack_args) :
  stage_manager a = None ->
  returned (t5_stack_forward self a)
  = raise (AttributeError "'NoneType' object has no attribute 'stage'").
Proof. exact (stack_without_stage_manager self a). Qed.

Lemma unmanaged_call_rejected_witness :
  returned (t5_stack_forward (Demo.demo_stack false) MoreDemo.stack_call_unmanaged)
  = raise (AttributeError "'NoneType' object has no attribute 'stage'").
Proof.
  apply (unmanaged_call_rejected (Demo.demo_stack false) MoreDemo.stack_call_unmanaged).
  reflexivity.
Defined.

(** X3: at a stage that is not the first of its sub-model, a call without
    [hidden_states] is rejected with the [ValueError] that asks for them. *)
Theorem later_stage_needs_hidden_states {B : Backend} (self : T5Stack) (a : stack_args)
  (sm : PipelineStageManager) (d : Z) :
  stage_manager a = Some sm ->
  decoder_starting_stage a = Some d ->
  is_decoder self = (d <=? stage sm) ->
  stage sm <> 0 -> stage sm <> d ->
  hidden_states a = PNone ->
  returned (t5_stack_forward self a)
  = raise (ValueError
      "hidden_states shouldn't be None for stages other than the first stage of encoder/decoder.").
Proof.
  intros Hsm Hd Hal H0 Hdd Hhs. destruct (stack_forward_head self a sm d Hsm Hd) as [K HK].
  rewrite HK, Hal, Bool.eqb_reflx. cbn [negb].
  assert (E0 : (stage sm =? 0) = false) by (apply Z.eqb_neq; exact H0).
  assert (E1 : (stage sm =? d) = false) by (apply Z.eqb_neq; exact Hdd).
  rewrite E0, E1, Hhs. reflexivity.
Qed.

(** The demo encoder at stage 1 of four, called with [input_ids] only. *)
Lemma later_stage_needs_hidden_states_witness :
  returned (t5_stack_forward (Demo.demo_stack false)
              (MoreDemo.stack_call_at MoreDemo.middle_stage 3 [0; 1] Demo.ids25 PNone))
  = raise (ValueError
      "hidden_states shouldn't be None for stages other than the first stage of encoder/decoder.").
Proof.
  apply (later_stage_needs_hidden_states (Demo.demo_stack false)
           (MoreDemo.stack_call_at MoreDemo.middle_stage 3 [0; 1] Demo.ids25 PNone)
           MoreDemo.middle_stage 3 eq_refl eq_refl eq_refl);
    [discriminate | discriminate | reflexivity].
Defined.

(** X4: at the first stage, [input_ids] given as a tensor of at least one
    dimension without [inputs_embeds], on a stack that has no embedding
    table: once the ids are reshaped, the call is rejected with the
    [ValueError] of the missing token embeddings. *)
Theorem first_stage_needs_embedding_table {B : Backend} (self : T5Stack) (a : stack_args)
  (sm : PipelineStageManager) (d : Z) (t v : tensor) (last : Z) :
  stage_manager a = Some sm ->
  decoder_starting_stage a = Some d ->
  is_decoder self = (d <=? stage sm) ->
  stage sm = 0 \/ stage sm = d ->
  input_ids a = PTensor t ->
  inputs_embeds a = PNone ->
  seq_getitem (t_size t) (-1) = ok last ->
  t_view t [-1; last] = inr v ->
  embed_tokens self = None ->
  returned (t5_stack_forward self a)
  = raise (ValueError "You have to initialize the model with valid token embeddings").
Proof.
  intros Hsm Hd Hal Hfirst Hi He Hlast Hview Hemb.
  destruct (stack_forward_head self a sm d Hsm Hd) as [K HK].
  rewrite HK, Hal, Bool.eqb_reflx. cbn [negb].
  assert (E : (stage sm =? 0) || (stage sm =? d) = true).
  { apply Bool.orb_true_iff. destruct Hfirst as [H | H]; [left | right];
      apply Z.eqb_eq; exact H. }
  rewrite E, Hi, He. unfold process_inputs. cbn [is_None negb andb].
  assert (F : returned
                (t0 <- lift (tensor_attr "size" (PTensor t)) ;;
                 last <- lift (seq_getitem (t_size t0) (-1)) ;;
                 v <- lift_d (t_view t0 [-1; last]) ;;
                 mret (PTensor v, t_size t0))
              = ok (PTensor v, t_size t)).
  { rewrite (returned_mbind_ok (lift (tensor_attr "size" (PTensor t))) _ t eq_refl).
    rewrite (returned_mbind_ok (lift (seq_getitem (t_size t) (-1))) _ last Hlast).
    rewrite (returned_mbind_ok (lift_d (t_view t [-1; last])) _ v)
      by (unfold lift_d, returned; cbn [snd]; rewrite Hview; reflexivity).
    reflexivity. }
  rewrite (returned_mbind_ok _ _ _ F), Hemb. reflexivity.
Qed.

Lemma first_stage_needs_embedding_table_witness :
  returned (t5_stack_forward MoreDemo.bare_stack
              (Demo.stack_call_stage0 Demo.ids25 PNone))
  = raise (ValueError "You have to initialize the model with valid token embeddings").
Proof.
  apply (first_stage_needs_embedding_table MoreDemo.bare_stack
           (Demo.stack_call_stage0 Demo.ids25 PNone) Demo.stage0 1
           {| Demo.st_shape := [2; 5]; Demo.st_device := Demo.cuda0 |}
           {| Demo.st_shape := [-1; 5]; Demo.st_device := Demo.cuda0 |} 5);
    try reflexivity.
  left; reflexivity.
Defined.

(** X5: at a decoder stage neither seq2seq forward returns a value: the
    decoder is called without [stage_manager], so a call that gets past the
    checks of the forward ends in the staged forward's [AttributeError]. *)
Theorem decoder_stage_never_returns {B : Backend} (model : T5Model)
  (lm : T5ForConditionalGeneration) (a : model_args) (labels : pyval)
  (sm : PipelineStageManager) (d : Z) :
  m_stage_manager a = Some sm ->
  m_decoder_starting_stage a = Some d ->
  d <= stage sm ->
  (exists e, returned (t5_model_forward model a) = raise e)
  /\ (exists e, returned (t5_for_conditional_generation_forward lm a labels) = raise e).
Proof.
  intros Hsm Hd Hst. split.
  - exact (model_forward_decoder_fails model a sm d Hsm Hd Hst).
  - exact (lm_forward_decoder_fails lm a labels sm d Hsm Hd Hst).
Qed.

(** Stage 1 of two with the encoder outputs of stage 0 handed in. *)
Lemma decoder_stage_never_returns_witness :
  (exists e,
      returned (t5_model_forward Demo.demo_model
                  (Demo.model_call Demo.stage1 Demo.ids25 (PTuple [Demo.embeds258])))
      = raise e)
  /\ (exists e,
         returned (t5_for_conditional_generation_forward Demo.demo_lm
                     (Demo.model_call Demo.stage1 Demo.ids25 (PTuple [Demo.embeds258]))
                     PNone)
         = raise e).
Proof.
  apply (decoder_stage_never_returns Demo.demo_model Demo.demo_lm
           (Demo.model_call Demo.stage1 Demo.ids25 (PTuple [Demo.embeds258])) PNone
           Demo.stage1 1 eq_refl eq_refl).
  cbn; lia.
Defined.

(** ** What a run that returns has done *)

Lemma ensures_mbind {A C} (Q : C -> Prop) (m : M A) (k : A -> M C) :
  (forall a, returned m = ok a -> ensures Q (k a)) -> ensures Q (mbind m k).
Proof.
  unfold ensures. rewrite returned_mbind. intros H.
  destruct (returned m) as [e | a]; cbn; [exact I | exact (H a eq_refl)].
Qed.

Lemma ensures_returned {A} (Q : A -> Prop) (m : M A) (a : A) :
  ensures Q m -> returned m = ok a -> Q a.
Proof. unfold ensures. intros H E. now rewrite E in H. Qed.

Lemma ensures_returned' {A} (Q : A -> Prop) (m : M A) (a : A) :
  returned m = ok a -> ensures Q m -> Q a.
Proof. intros E H. exact (ensures_returned Q m a H E). Qed.

(** What is known of a value once the run that gave it is known. *)
Ltac learn H :=
  try match type of H with
      | returned (lift (seq_getitem [_; _] _)) = _ => cbv in H
      end;
  try (cbv [returned lift mret snd ok] in H;
       match type of H with
       | inr _ = inr ?x => is_var x; injection H as H; subst x
       end).

Ltac ensures_step :=
  lazymatch goal with
  | |- ensures _ (mbind (mret _) _) => rewrite mbind_mret_l; cbv beta
  | |- ensures _ (mbind _ _) =>
      apply ensures_mbind; let x := fresh "x" in let H := fresh "H" in
                           intros x H; learn H
  | |- ensures _ (mraise _) => exact I
  | |- ensures _ (if ?b then _ else _) => destruct b eqn:?
  | |- ensures _ (match ?x with _ => _ end) => destruct x eqn:?
  | |- ensures _ (let _ := _ in _) => cbv zeta
  end.

Section Outputs.
Context {B : Backend}.

Lemma ensures_prefix {A} (Q : A -> Prop) msg flag (k : option bool -> M A) :
  ensures Q (k (forced flag)) -> ensures Q (mbind (force_off msg flag) k).
Proof.
  intros H. apply ensures_mbind. intros x Hx.
  rewrite returned_force_off in Hx. inversion Hx; subst. exact H.
Qed.

Lemma ensures_clear_past {A} (Q : A -> Prop) pkv (k : option (list pyval) -> M A) :
  ensures Q (k (if truthy_tuple pkv then None else pkv)) ->
  ensures Q (mbind (clear_past pkv) k).
Proof.
  intros H. apply ensures_mbind. intros x Hx.
  rewrite returned_clear_past in Hx. inversion Hx; subst. exact H.
Qed.

(** With [use_cache] off a block leaves the collected cache as it is. *)
Lemma block_step_keeps_cache (self : T5Stack) pkv hm chm eam ehs eeam uc oa in_dec st i :
  truthy uc = false ->
  ensures (fun st' => ls_present_key_value_states st' = ls_present_key_value_states st)
    (block_step self pkv hm chm eam ehs eeam uc oa in_dec st i).
Proof.
  intros Hu. unfold block_step, checkpoint. rewrite Hu. cbv iota.
  repeat ensures_step; reflexivity.
Qed.

Lemma for_each_keeps_cache (self : T5Stack) pkv hm chm eam ehs eeam uc oa in_dec l :
  truthy uc = false ->
  forall st,
    ensures (fun st' => ls_present_key_value_states st' = ls_present_key_value_states st)
      (for_each (block_step self pkv hm chm eam ehs eeam uc oa in_dec) st l).
Proof.
  intros Hu. induction l as [| i l IH]; intros st; cbn [for_each]; [reflexivity |].
  apply ensures_mbind. intros st' Hst'.
  pose proof (ensures_returned _ _ _
                (block_step_keeps_cache self pkv hm chm eam ehs eeam uc oa in_dec st i Hu)
                Hst') as E.
  cbn beta in E. rewrite <- E. apply IH.
Qed.

Lemma stack_forward_output (self : T5Stack) (a : stack_args) sm d :
  stage_manager a = Some sm -> decoder_starting_stage a = Some d ->
  ensures (stage_output ((stage sm =? d - 1) || (stage sm =? num_stages sm - 1))
             (truthy (return_dict a)))
    (t5_stack_forward self a).
Proof.
  intros Hsm Hd. unfold t5_stack_forward, after_inputs. cbv zeta.
  apply ensures_clear_past. apply ensures_prefix. apply ensures_prefix. apply ensures_prefix.
  rewrite forced_not_True, !forced_not_truthy. rewrite mbind_mret_l.
  assert (G : (if gradient_checkpointing self && training self
               then mret (forced (use_cache a))
               else mret (forced (use_cache a))) = mret (forced (use_cache a)))
    by (destruct (gradient_checkpointing self && training self); reflexivity).
  rewrite G, mbind_mret_l, Hsm, Hd, !mbind_mret_l. cbv beta.
  rewrite !forced_not_truthy. cbv iota.
  repeat ensures_step.
  all: match goal with
       | H : returned (for_each _ _ _) = ok _ |- _ =>
           eapply ensures_returned' in H;
           [| apply for_each_keeps_cache; apply forced_not_truthy];
           cbn [ls_present_key_value_states] in H; try rewrite H
       end.
  all: cbn [andb].
  - match goal with
    | E : negb (truthy (return_dict a)) = true |- _ =>
        apply Bool.negb_true_iff in E; rewrite E
    end.
    match goal with
    | |- ensures _ (mret (tuple_not_None (?h :: _))) => destruct h
    end; cbv; split; reflexivity.
  - match goal with
    | E : negb (truthy (return_dict a)) = false |- _ =>
        apply Bool.negb_false_iff in E; rewrite E
    end.
    cbv. split; reflexivity.
  - reflexivity.
Qed.

Lemma range_empty (s e : Z) : e <= s -> range s e = [].
Proof.
  intros H. unfold range. replace (Z.to_nat (e - s)) with 0%nat by lia. reflexivity.
Qed.

Lemma process_inputs_later (self : T5Stack) in_dec ids embeds hs :
  ensures (fun p => pi_hidden_states p = hs)
    (process_inputs self in_dec false ids embeds hs).
Proof. unfold process_inputs. repeat ensures_step; reflexivity. Qed.

Lemma stack_forward_empty_range (self : T5Stack) (a : stack_args) sm d s e :
  stage_manager a = Some sm -> decoder_starting_stage a = Some d ->
  stage_index a = Some [s; e] -> e <= s ->
  stage sm <> 0 -> stage sm <> d ->
  stage sm <> d - 1 -> stage sm <> num_stages sm - 1 ->
  ensures (fun v => v = PDict [("hidden_states", hidden_states a);
                                ("position_bias", position_bias a);
                                ("encoder_decoder_position_bias",
                                 encoder_decoder_position_bias a)])
    (t5_stack_forward self a).
Proof.
  intros Hsm Hd Hidx Hse H0 H1 H2 H3. unfold t5_stack_forward, after_inputs. cbv zeta.
  apply ensures_clear_past. apply ensures_prefix. apply ensures_prefix. apply ensures_prefix.
  rewrite forced_not_True, !forced_not_truthy. rewrite mbind_mret_l.
  assert (G : (if gradient_checkpointing self && training self
               then mret (forced (use_cache a))
               else mret (forced (use_cache a))) = mret (forced (use_cache a)))
    by (destruct (gradient_checkpointing self && training self); reflexivity).
  rewrite G, mbind_mret_l, Hsm, Hd, Hidx, !mbind_mret_l. cbv beta.
  assert (E0 : (stage sm =? 0) = false) by (apply Z.eqb_neq; exact H0).
  assert (E1 : (stage sm =? d) = false) by (apply Z.eqb_neq; exact H1).
  assert (E2 : (stage sm =? d - 1) = false) by (apply Z.eqb_neq; exact H2).
  assert (E3 : (stage sm =? num_stages sm - 1) = false) by (apply Z.eqb_neq; exact H3).
  rewrite E0, E1, E2, E3. cbv iota beta delta [orb].
  repeat ensures_step.
  all: match goal with
       | Hp : returned (process_inputs _ _ false _ _ _) = ok _ |- _ =>
           eapply ensures_returned' in Hp; [| apply process_inputs_later];
           cbn beta in Hp
       end.
  all: match goal with
       | Hf : returned (for_each _ _ (range _ _)) = ok _ |- _ =>
           rewrite (range_empty s e Hse) in Hf; cbn [for_each] in Hf; learn Hf
       end.
  all: cbn [ls_hidden_states ls_position_bias ls_encoder_decoder_position_bias].
  all: match goal with
       | Hp : pi_hidden_states _ = _ |- _ => rewrite Hp
       end; reflexivity.
Qed.

End Outputs.

(** X6: what the staged forward returns has one of three shapes.  At a stage
    that is not the last of its sub-model it is the bundle for the next
    stage, a mapping with exactly the keys ['hidden_states'],
    ['position_bias'] and ['encoder_decoder_position_bias'].  At the last
    stage it is, with [return_dict], the output structure whose cache,
    hidden-state, attention and cross-attention fields are all [None], and
    without it a tuple of at most the final hidden state. *)
Theorem stage_output_shape {B : Backend} (self : T5Stack) (a : stack_args)
  (sm : PipelineStageManager) (d : Z) :
  stage_manager a = Some sm ->
  decoder_starting_stage a = Some d ->
  ensures (stage_output ((stage sm =? d - 1) || (stage sm =? num_stages sm - 1))
             (truthy (return_dict a)))
    (t5_stack_forward self a).
Proof. exact (stack_forward_output self a sm d). Qed.

(** The demo encoder at stage 1 of four, with all flags set: the bundle for
    the next stage comes back. *)
Lemma stage_output_shape_witness :
  returned (t5_stack_forward (Demo.demo_stack false)
              (MoreDemo.stack_call_at MoreDemo.middle_stage 3 [0; 1] PNone Demo.embeds258))
  = ok (PDict [("hidden_states", Demo.embeds258);
               ("position_bias",
                PTensor (B := Demo.shape_backend)
                  {| Demo.st_shape := [1; 4; 5; 5]; Demo.st_device := Demo.cuda0 |});
               ("encoder_decoder_position_bias", PNone)])
  /\ ensures (stage_output false true)
       (t5_stack_forward (Demo.demo_stack false)
          (MoreDemo.stack_call_at MoreDemo.middle_stage 3 [0; 1] PNone Demo.embeds258)).
Proof.
  split; [reflexivity |].
  exact (stage_output_shape (Demo.demo_stack false)
           (MoreDemo.stack_call_at MoreDemo.middle_stage 3 [0; 1] PNone Demo.embeds258)
           MoreDemo.middle_stage 3 eq_refl eq_refl).
Defined.

(** X7: at a stage that is neither the first nor the last of its sub-model
    and holds no block (the end of its range is not above the start), a run
    that returns hands the state through as it came: the hidden state and
    the two position biases of the call. *)
Theorem empty_range_passes_through {B : Backend} (self : T5Stack) (a : stack_args)
  (sm : PipelineStageManager) (d s e : Z) :
  stage_manager a = Some sm ->
  decoder_starting_stage a = Some d ->
  stage_index a = Some [s; e] ->
  e <= s ->
  stage sm <> 0 -> stage sm <> d ->
  stage sm <> d - 1 -> stage sm <> num_stages sm - 1 ->
  ensures (fun v => v = PDict [("hidden_states", hidden_states a);
                                ("position_bias", position_bias a);
                                ("encoder_decoder_position_bias",
                                 encoder_decoder_position_bias a)])
    (t5_stack_forward self a).
Proof. exact (stack_forward_empty_range self a sm d s e). Qed.

(** Stage 1 of four with the range [1, 1). *)
Lemma empty_range_passes_through_witness :
  returned (t5_stack_forward (Demo.demo_stack false)
              (MoreDemo.stack_call_at MoreDemo.middle_stage 3 [1; 1] PNone Demo.embeds258))
  = ok (PDict [("hidden_states", Demo.embeds258);
               ("position_bias", PNone);
               ("encoder_decoder_position_bias", PNone)])
  /\ ensures (fun v => v = PDict [("hidden_states", Demo.embeds258);
                                   ("position_bias", PNone);
                                   ("encoder_decoder_position_bias", PNone)])
       (t5_stack_forward (Demo.demo_stack false)
          (MoreDemo.stack_call_at MoreDemo.middle_stage 3 [1; 1] PNone Demo.embeds258)).
Proof.
  split; [reflexivity |].
  apply (empty_range_passes_through (Demo.demo_stack false)
           (MoreDemo.stack_call_at MoreDemo.middle_stage 3 [1; 1] PNone Demo.embeds258)
           MoreDemo.middle_stage 3 1 1 eq_refl eq_refl eq_refl);
    first [discriminate | lia].
Defined.

(** ** Device selection *)

Lemma selects_add {A C} (n1 n2 : nat) (m : M A) (k : A -> M C) :
  selects n1 m ->
  (forall a, returned m = ok a -> selects n2 (k a)) ->
  selects (n1 + n2) (mbind m k).
Proof.
  unfold selects. rewrite returned_mbind, effects_mbind. intros Hm Hk.
  destruct (returned m) as [e | a]; cbn [rbind]; [exact I |].
  specialize (Hk a eq_refl). destruct (returned (k a)); [exact I |].
  rewrite length_app. now rewrite Hm, Hk.
Qed.

Lemma selects_quiet_then {A C} (n : nat) (m : M A) (k : A -> M C) :
  selects 0 m ->
  (forall a, returned m = ok a -> selects n (k a)) ->
  selects n (mbind m k).
Proof. exact (selects_add 0 n m k). Qed.

Lemma selects_then_quiet {A C} (n : nat) (m : M A) (k : A -> M C) :
  selects n m ->
  (forall a, returned m = ok a -> selects 0 (k a)) ->
  selects n (mbind m k).
Proof. intros Hm Hk. rewrite <- (Nat.add_0_r n). exact (selects_add n 0 m k Hm Hk). Qed.

(** A step of a run that selects no device. *)
Ltac quiet_atom :=
  cbv [selects returned effects lift lift_d mret mraise emit read_local fst snd
       of_delegated];
  repeat match goal with
         | |- context [match ?x with _ => _ end] =>
             lazymatch x with
             | context [match _ with _ => _ end] => fail
             | _ => destruct x
             end
         end;
  try exact I; reflexivity.

Ltac quiet_step :=
  lazymatch goal with
  | |- selects 0 (mbind _ _) => apply (selects_add 0 0); [| intros ? ?]
  | |- selects 0 (if ?b then _ else _) => destruct b
  | |- selects 0 (match ?x with _ => _ end) => destruct x
  | |- selects 0 _ => solve [quiet_atom]
  end.

(** When it returns, [set_device] has selected one device. *)
Lemma selects_set_device (d : Torch.device) : selects 1 (set_device d).
Proof.
  unfold set_device.
  destruct (String.prefix "cuda:" (Torch.device_str d)); [reflexivity |].
  destruct (String.eqb (Torch.device_str d) "cuda"); exact I.
Qed.

Section Selection.
Context {B : Backend}.

Lemma range_length (s e : Z) : List.length (range s e) = Z.to_nat (e - s).
Proof. unfold range. now rewrite length_map, length_seq. Qed.

Lemma selects_force_off msg flag : selects 0 (force_off msg flag).
Proof. destruct flag as [[|] |]; reflexivity. Qed.

Lemma selects_clear_past pkv : selects 0 (clear_past pkv).
Proof. destruct pkv as [[| x l] |]; reflexivity. Qed.

Lemma process_inputs_selects (self : T5Stack) in_dec first ids embeds hs :
  selects 0 (process_inputs self in_dec first ids embeds hs).
Proof. unfold process_inputs. repeat quiet_step. Qed.

(** A block that returns has selected the device of its hidden state, once. *)
Lemma block_step_selects (self : T5Stack) pkv hm chm eam ehs eeam uc oa in_dec st i :
  selects 1 (block_step self pkv hm chm eam ehs eeam uc oa in_dec st i).
Proof.
  unfold block_step, checkpoint.
  do 5 (apply selects_quiet_then; [solve [quiet_atom] | intros ? _]).
  apply selects_then_quiet; [apply selects_set_device | intros _ _].
  repeat quiet_step.
Qed.

Lemma for_each_selects (self : T5Stack) pkv hm chm eam ehs eeam uc oa in_dec l :
  forall st,
    selects (List.length l)
      (for_each (block_step self pkv hm chm eam ehs eeam uc oa in_dec) st l).
Proof.
  induction l as [| i l IH]; intros st; cbn [for_each List.length]; [reflexivity |].
  apply (selects_add 1 (List.length l)); [apply block_step_selects | intros st' _; apply IH].
Qed.

Ltac selects_step :=
  lazymatch goal with
  | |- selects _ (mbind (mret _) _) => rewrite mbind_mret_l; cbv beta
  | |- selects _ (mbind (for_each _ _ (range ?s ?e)) _) =>
      rewrite <- (range_length s e);
      apply selects_then_quiet; [apply for_each_selects | intros ? _; repeat quiet_step]
  | |- selects _ (mbind (force_off _ _) _) =>
      apply selects_quiet_then; [apply selects_force_off | intros ? _]
  | |- selects _ (mbind (clear_past _) _) =>
      apply selects_quiet_then; [apply selects_clear_past | intros ? _]
  | |- selects _ (mbind (process_inputs _ _ _ _ _ _) _) =>
      apply selects_quiet_then; [apply process_inputs_selects | intros ? _]
  | |- selects _ (mbind _ _) =>
      apply selects_quiet_then;
      [repeat quiet_step
      | let x := fresh "x" in let H := fresh "H" in intros x H; learn H]
  | |- selects _ (mraise _) => exact I
  | |- selects _ (if ?b then _ else _) => destruct b
  | |- selects _ (match ?x with _ => _ end) => destruct x
  end.

Lemma stack_forward_selects (self : T5Stack) (a : stack_args) (s e : Z) :
  stage_index a = Some [s; e] ->
  selects (Z.to_nat (e - s)) (t5_stack_forward self a).
Proof.
  intros Hidx. unfold t5_stack_forward, after_inputs. cbv zeta. rewrite Hidx.
  repeat selects_step.
Qed.

End Selection.

(** X8: a run of the staged forward that returns has selected a device once
    for every index of its block range, [end - start] times (none when the
    range is empty), and nowhere else. *)
Theorem one_device_selection_per_block {B : Backend} (self : T5Stack) (a : stack_args)
  (s e : Z) :
  stage_index a = Some [s; e] ->
  selects (Z.to_nat (e - s)) (t5_stack_forward self a).
Proof. exact (stack_forward_selects self a s e). Qed.

(** The demo encoder at stage 0 with its one block. *)
Lemma one_device_selection_per_block_witness :
  effects (t5_stack_forward (Demo.demo_stack false)
             (Demo.stack_call_stage0 Demo.ids25 PNone))
  = [cuda_set_device Demo.cuda0]
  /\ selects 1 (t5_stack_forward (Demo.demo_stack false)
                  (Demo.stack_call_stage0 Demo.ids25 PNone)).
Proof.
  split; [reflexivity |].
  exact (one_device_selection_per_block (Demo.demo_stack false)
           (Demo.stack_call_stage0 Demo.ids25 PNone) 0 1 eq_refl).
Defined.

(** ** The advisory log *)

Lemma silent_mbind {A C} (P : event -> bool) (m : M A) (k : A -> M C) :
  silent P m ->
  (forall a, returned m = ok a -> silent P (k a)) ->
  silent P (mbind m k).
Proof.
  unfold silent. destruct m as [t [e | a]]; cbn; intros Hm Hk; [exact Hm |].
  specialize (Hk a eq_refl). destruct (k a) as [t' r]. cbn in *.
  rewrite forallb_app, Hm, Hk. reflexivity.
Qed.

Lemma silent_set_device (P : event -> bool) (d : Torch.device) :
  P (cuda_set_device d) = false -> silent P (set_device d).
Proof.
  intros H. unfold set_device.
  destruct (String.prefix "cuda:" (Torch.device_str d));
    [cbv [silent emit fst forallb]; now rewrite H |].
  destruct (String.eqb (Torch.device_str d) "cuda"); reflexivity.
Qed.

Ltac silent_atom :=
  cbv [silent lift lift_d mret mraise emit read_local fst]; reflexivity.

Ltac silent_step :=
  lazymatch goal with
  | |- silent _ (mbind _ _) => apply silent_mbind; [| intros ? ?]
  | |- silent _ (for_each _ _ _) => fail
  | |- silent _ (set_device _) => apply silent_set_device; reflexivity
  | |- silent _ (if ?b then _ else _) => destruct b
  | |- silent _ (match ?x with _ => _ end) => destruct x
  | |- silent _ (let _ := _ in _) => cbv zeta
  | |- silent _ _ => solve [silent_atom]
  end.

Section Log.
Context {B : Backend}.

Lemma silent_for_each {S} (P : event -> bool) (step : S -> Z -> M S) l :
  (forall st i, silent P (step st i)) ->
  forall st, silent P (for_each step st l).
Proof.
  intros Hstep. induction l as [| i l IH]; intros st; cbn [for_each]; [reflexivity |].
  apply silent_mbind; [apply Hstep | intros st' _; apply IH].
Qed.

Lemma silent_prefix {A} (P : event -> bool) msg flag (k : option bool -> M A) :
  P (warning_once msg) = false ->
  silent P (k (forced flag)) -> silent P (mbind (force_off msg flag) k).
Proof.
  intros Hmsg H. apply silent_mbind.
  - destruct flag as [[|] |]; cbv [silent force_off truthy mbind emit mret fst app forallb];
      rewrite ?Hmsg; reflexivity.
  - intros x Hx. rewrite returned_force_off in Hx. inversion Hx; subst. exact H.
Qed.

Lemma silent_clear_past {A} (P : event -> bool) pkv (k : option (list pyval) -> M A) :
  P (warning_once
       "Non-empty past_key_values is not supported for pipeline models at the moment.")
  = false ->
  (forall x, silent P (k x)) -> silent P (mbind (clear_past pkv) k).
Proof.
  intros Hmsg H. apply silent_mbind.
  - destruct pkv as [[| x l] |];
      cbv [silent clear_past truthy_tuple mbind emit mret fst app forallb];
      rewrite ?Hmsg; reflexivity.
  - intros x _. apply H.
Qed.

Lemma stack_forward_silent (self : T5Stack) (a : stack_args) :
  silent checkpointing_advisory (t5_stack_forward self a).
Proof.
  unfold t5_stack_forward, after_inputs. cbv zeta.
  apply silent_clear_past; [reflexivity | intros pkv].
  apply silent_prefix; [reflexivity |].
  apply silent_prefix; [reflexivity |].
  apply silent_prefix; [reflexivity |].
  rewrite forced_not_True, forced_not_truthy.
  repeat first [ silent_step
               | apply silent_for_each; intros ? ?; unfold block_step, checkpoint ].
  all: unfold process_inputs; repeat silent_step.
Qed.

End Log.

(** A stage handed a hidden state that is on the CPU: the selection of the
    device raises. *)
Example hidden_state_off_accelerator :
  returned (t5_stack_forward (Demo.demo_stack false)
              (MoreDemo.stack_call_at MoreDemo.middle_stage 3 [0; 1] PNone
                 (PTensor (B := Demo.shape_backend)
                    {| Demo.st_shape := [2; 5; 8]; Demo.st_device := Demo.cpu |})))
  = raise (ValueError "Expected a cuda device, but got: cpu").
Proof. reflexivity. Qed.

(** X9: the advisory of the gradient-checkpointing branch is never logged by
    the staged forward: when the branch is reached [use_cache] has been
    forced off already. *)
Theorem checkpointing_advisory_never_logged {B : Backend} (self : T5Stack)
  (a : stack_args) :
  silent checkpointing_advisory (t5_stack_forward self a).
Proof. exact (stack_forward_silent self a). Qed.

(** ** The blocks a stage holds *)

Section Held.
Context {B : Backend}.

Lemma range_In (s e i : Z) : In i (range s e) -> s <= i < e.
Proof.
  unfold range. rewrite in_map_iff. intros (k & <- & Hk). apply in_seq in Hk. lia.
Qed.

Lemma for_each_ext_In {S} (f g : S -> Z -> M S) l :
  (forall st i, In i l -> f st i = g st i) ->
  forall st, for_each f st l = for_each g st l.
Proof.
  induction l as [| i l IH]; intros H st; cbn [for_each]; [reflexivity |].
  rewrite (H st i (or_introl eq_refl)). apply mbind_ext. intros st' _.
  apply IH. intros st0 j Hj. apply H. right. exact Hj.
Qed.

Lemma process_inputs_with_block (self : T5Stack) blocks in_dec first ids embeds hs :
  process_inputs (with_block self blocks) in_dec first ids embeds hs
  = process_inputs self in_dec first ids embeds hs.
Proof. reflexivity. Qed.

Lemma block_step_with_block (self : T5Stack) blocks pkv hm chm eam ehs eeam uc oa in_dec st i :
  seq_getitem blocks i = seq_getitem (block self) i ->
  block_step (with_block self blocks) pkv hm chm eam ehs eeam uc oa in_dec st i
  = block_step self pkv hm chm eam ehs eeam uc oa in_dec st i.
Proof.
  intros H. unfold block_step.
  cbn [with_block block gradient_checkpointing training]. rewrite H. reflexivity.
Qed.

#[local] Opaque process_inputs block_step.

Ltac held_step Hlen Hsame :=
  lazymatch goal with
  | |- mbind (process_inputs (with_block ?s ?b) ?d ?f ?i ?e ?h) _ = _ =>
      rewrite (process_inputs_with_block s b d f i e h);
      apply mbind_ext; let x := fresh "x" in let H := fresh "H" in intros x H
  | |- mbind (for_each (block_step (with_block ?s ?b) ?p ?h ?c ?m ?eh ?em ?u ?o ?d) ?st
                (range ?lo ?hi)) _ = _ =>
      rewrite (for_each_ext_In
                 (block_step (with_block s b) p h c m eh em u o d)
                 (block_step s p h c m eh em u o d) (range lo hi))
        by (intros ? ? ?; apply block_step_with_block; apply Hsame; apply range_In;
            assumption);
      apply mbind_ext; let x := fresh "x" in let H := fresh "H" in intros x H
  | |- mbind ?m _ = mbind ?m' _ =>
      constr_eq m m';
      apply mbind_ext; let x := fresh "x" in let H := fresh "H" in intros x H; learn H
  | |- (if ?b then _ else _) = (if ?b' then _ else _) => constr_eq b b'; destruct b
  | |- (match ?x with _ => _ end) = (match ?x' with _ => _ end) =>
      constr_eq x x'; destruct x
  | |- ?l = ?r => constr_eq l r; reflexivity
  end.

Lemma stack_forward_held_blocks (self : T5Stack) (a : stack_args) (s e : Z)
  (blocks : list T5Block) :
  stage_index a = Some [s; e] ->
  List.length blocks = List.length (block self) ->
  (forall i, s <= i < e -> seq_getitem blocks i = seq_getitem (block self) i) ->
  t5_stack_forward (with_block self blocks) a = t5_stack_forward self a.
Proof.
  intros Hidx Hlen Hsame. unfold t5_stack_forward, after_inputs. cbv zeta.
  cbn [with_block block gradient_checkpointing training is_decoder config embed_tokens
       dropout final_layer_norm get_extended_attention_mask invert_attention_mask
       get_head_mask].
  rewrite Hlen, Hidx.
  repeat held_step Hlen Hsame.
Qed.

#[local] Transparent process_inputs block_step.

Lemma model_forward_early_stage (self : T5Model) (a : model_args) sm d :
  m_stage_manager a = Some sm -> m_decoder_starting_stage a = Some d ->
  stage sm < d - 1 ->
  returned (t5_model_forward self a)
  = returned
      (t5_stack_forward (encoder self)
         (encoder_call a (forced (m_output_attentions a))
            (forced (m_output_hidden_states a))
            match m_return_dict a with
            | Some b => b
            | None => config_use_return_dict (model_config self)
            end)).
Proof.
  intros Hsm Hd Hst. unfold t5_model_forward.
  rewrite (returned_mbind_ok _ _ _ (returned_clear_past _)).
  rewrite (returned_mbind_ok _ _ _ (returned_force_off _ _)).
  rewrite (returned_mbind_ok _ _ _ (returned_force_off _ _)).
  rewrite (returned_mbind_ok _ _ _ (returned_force_off _ _)).
  destruct (returned_head_mask_block a (config_num_layers (model_config self))
              (config_num_decoder_layers (model_config self))) as [dhm Edhm].
  rewrite (returned_mbind_ok _ _ _ Edhm).
  rewrite Hsm, Hd. cbn [stage_ge].
  assert (E1 : (d <=? stage sm) = false) by (apply Z.leb_gt; lia).
  assert (E2 : (stage sm =? d - 1) = false) by (apply Z.eqb_neq; lia).
  rewrite E1, returned_mbind_mret. cbn [negb].
  rewrite returned_mbind, E2.
  match goal with |- rbind ?r _ = _ => destruct r end; reflexivity.
Qed.

Lemma lm_forward_early_stage (self : T5ForConditionalGeneration) (a : model_args)
  (labels : pyval) sm d :
  m_stage_manager a = Some sm -> m_decoder_starting_stage a = Some d ->
  stage sm < d - 1 ->
  returned (t5_for_conditional_generation_forward self a labels)
  = returned
      (t5_stack_forward (lm_encoder self)
         (encoder_call a (forced (m_output_attentions a))
            (forced (m_output_hidden_states a))
            match m_return_dict a with
            | Some b => b
            | None => config_use_return_dict (lm_config self)
            end)).
Proof.
  intros Hsm Hd Hst. unfold t5_for_conditional_generation_forward.
  rewrite (returned_mbind_ok _ _ _ (returned_clear_past _)).
  rewrite (returned_mbind_ok _ _ _ (returned_force_off _ _)).
  rewrite (returned_mbind_ok _ _ _ (returned_force_off _ _)).
  rewrite (returned_mbind_ok _ _ _ (returned_force_off _ _)).
  destruct (returned_head_mask_block a (config_num_layers (lm_config self))
              (config_num_decoder_layers (lm_config self))) as [dhm Edhm].
  rewrite (returned_mbind_ok _ _ _ Edhm).
  rewrite Hsm, Hd. cbn [stage_ge].
  assert (E1 : (d <=? stage sm) = false) by (apply Z.leb_gt; lia).
  assert (E2 : (stage sm =? d - 1) = false) by (apply Z.eqb_neq; lia).
  rewrite E1, returned_mbind_mret. cbn [negb].
  rewrite returned_mbind, E2.
  match goal with |- rbind ?r _ = _ => destruct r end; reflexivity.
Qed.

End Held.

(** X10: a stage runs the blocks of its range and no others: a stack that
    has as many blocks and the same blocks at the indices of the range
    [start, end) gives the same run, events included. *)
Theorem only_held_blocks_run {B : Backend} (self : T5Stack) (a : stack_args) (s e : Z)
  (blocks : list T5Block) :
  stage_index a = Some [s; e] ->
  List.length blocks = List.length (block self) ->
  (forall i, s <= i < e -> seq_getitem blocks i = seq_getitem (block self) i) ->
  t5_stack_forward (with_block self blocks) a = t5_stack_forward self a.
Proof. exact (stack_forward_held_blocks self a s e blocks). Qed.

(** Two blocks, the stage holding the first: a second block that fails
    changes nothing. *)
Lemma only_held_blocks_run_witness :
  t5_stack_forward
    (with_block (with_block (Demo.demo_stack false) [Demo.demo_block; Demo.demo_block])
       [Demo.demo_block; MoreDemo.failing_block])
    (Demo.stack_call_stage0 Demo.ids25 PNone)
  = t5_stack_forward
      (with_block (Demo.demo_stack false) [Demo.demo_block; Demo.demo_block])
      (Demo.stack_call_stage0 Demo.ids25 PNone).
Proof.
  apply (only_held_blocks_run
           (with_block (Demo.demo_stack false) [Demo.demo_block; Demo.demo_block])
           (Demo.stack_call_stage0 Demo.ids25 PNone) 0 1
           [Demo.demo_block; MoreDemo.failing_block]);
    [reflexivity | reflexivity |].
  intros i Hi. assert (i = 0) as -> by lia. reflexivity.
Defined.

(** X11: at an encoder stage before the last one, the two seq2seq forwards
    end exactly as the staged forward of the encoder does: the bundle for the
    next stage is handed on as it is, not wrapped. *)
Theorem early_encoder_stage_hands_on {B : Backend} (model : T5Model)
  (lm : T5ForConditionalGeneration) (a : model_args) (labels : pyval)
  (sm : PipelineStageManager) (d : Z) :
  m_stage_manager a = Some sm ->
  m_decoder_starting_stage a = Some d ->
  stage sm < d - 1 ->
  returned (t5_model_forward model a)
  = returned
      (t5_stack_forward (encoder model)
         (encoder_call a (forced (m_output_attentions a))
            (forced (m_output_hidden_states a))
            match m_return_dict a with
            | Some b => b
            | None => config_use_return_dict (model_config model)
            end))
  /\ returned (t5_for_conditional_generation_forward lm a labels)
     = returned
         (t5_stack_forward (lm_encoder lm)
            (encoder_call a (forced (m_output_attentions a))
               (forced (m_output_hidden_states a))
               match m_return_dict a with
               | Some b => b
               | None => config_use_return_dict (lm_config lm)
               end)).
Proof.
  intros Hsm Hd Hst. split.
  - exact (model_forward_early_stage model a sm d Hsm Hd Hst).
  - exact (lm_forward_early_stage lm a labels sm d Hsm Hd Hst).
Qed.

(** Stage 1 of four, the decoder starting at stage 3: the bundle of the
    staged forward comes back as it is. *)
Lemma early_encoder_stage_hands_on_witness :
  returned (t5_model_forward Demo.demo_model
              (MoreDemo.model_call_at MoreDemo.middle_stage 3 Demo.embeds258))
  = ok (PDict [("hidden_states", Demo.embeds258);
               ("position_bias",
                PTensor (B := Demo.shape_backend)
                  {| Demo.st_shape := [1; 4; 5; 5]; Demo.st_device := Demo.cuda0 |});
               ("encoder_decoder_position_bias", PNone)]).
Proof.
  destruct (early_encoder_stage_hands_on Demo.demo_model Demo.demo_lm
              (MoreDemo.model_call_at MoreDemo.middle_stage 3 Demo.embeds258) PNone
              MoreDemo.middle_stage 3 eq_refl eq_refl ltac:(cbn; lia)) as [H _].
  rewrite H. reflexivity.
Defined.

(** ** The encoder-only model *)

Lemma mbind_mret_r {A} (m : M A) : mbind m (fun x => mret x) = m.
Proof.
  destruct m as [t [e | a]]; cbn; [reflexivity |]. now rewrite app_nil_r.
Qed.

Lemma encoder_model_forward_run {B : Backend} (self : T5EncoderModel) (a : model_args) :
  t5_encoder_model_forward self a
  = t5_stack_forward (enc_encoder self)
      (encoder_call a (m_output_attentions a) (m_output_hidden_states a)
         match m_return_dict a with
         | Some b => b
         | None => config_use_return_dict (enc_config self)
         end).
Proof. unfold t5_encoder_model_forward. cbv zeta. apply mbind_mret_r. Qed.

(** X12: the forward of the encoder-only model hands the stage manager on
    and returns what the staged forward gives: before the last stage the
    bundle for the next stage, at the last stage the output structure when
    [return_dict] resolves to true (the argument, or [use_return_dict] of the
    configuration when it is [None]) and a tuple of at most one element when
    it resolves to false. *)
Theorem encoder_model_stage_output {B : Backend} (self : T5EncoderModel)
  (a : model_args) (sm : PipelineStageManager) (d : Z) :
  m_stage_manager a = Some sm ->
  m_decoder_starting_stage a = Some d ->
  ensures (stage_output ((stage sm =? d - 1) || (stage sm =? num_stages sm - 1))
             match m_return_dict a with
             | Some b => b
             | None => config_use_return_dict (enc_config self)
             end)
    (t5_encoder_model_forward self a).
Proof.
  intros Hsm Hd. rewrite encoder_model_forward_run.
  set (rd := match m_return_dict a with
             | Some b => b
             | None => config_use_return_dict (enc_config self)
             end).
  pose proof (stack_forward_output (enc_encoder self)
                (encoder_call a (m_output_attentions a) (m_output_hidden_states a) rd)
                sm d Hsm Hd) as H.
  destruct rd; exact H.
Qed.

(** The demo encoder-only model at stage 1 of four, with the decoder
    threshold at 3: the bundle for the next stage comes back. *)
Lemma encoder_model_stage_output_witness :
  returned (t5_encoder_model_forward MoreDemo.demo_encoder_model
              (MoreDemo.model_call_at MoreDemo.middle_stage 3 Demo.embeds258))
  = ok (PDict [("hidden_states", Demo.embeds258);
               ("position_bias",
                PTensor (B := Demo.shape_backend)
                  {| Demo.st_shape := [1; 4; 5; 5]; Demo.st_device := Demo.cuda0 |});
               ("encoder_decoder_position_bias", PNone)])
  /\ ensures (stage_output false true)
       (t5_encoder_model_forward MoreDemo.demo_encoder_model
          (MoreDemo.model_call_at MoreDemo.middle_stage 3 Demo.embeds258)).
Proof.
  split; [reflexivity |].
  exact (encoder_model_stage_output MoreDemo.demo_encoder_model
           (MoreDemo.model_call_at MoreDemo.middle_stage 3 Demo.embeds258)
           MoreDemo.middle_stage 3 eq_refl eq_refl).
Defined.

(** X13: an encoder-only model has no decoder stage: with an encoder stack
    ([is_decoder] false), a call at a stage at or after
    [decoder_starting_stage] is rejected with the [ValueError] of the
    misaligned configuration. *)
Theorem encoder_model_past_threshold {B : Backend} (self : T5EncoderModel)
  (a : model_args) (sm : PipelineStageManager) (d : Z) :
  m_stage_manager a = Some sm ->
  m_decoder_starting_stage a = Some d ->
  is_decoder (enc_encoder self) = false ->
  (d <= stage sm)%Z ->
  returned (t5_encoder_model_forward self a)
  = raise (ValueError "Config in T5Stack is not aligned with pipeline setting.").
Proof.
  intros Hsm Hd Henc Hle. rewrite encoder_model_forward_run.
  match goal with
  | |- returned (t5_stack_forward _ ?c) = _ =>
      destruct (stack_forward_head (enc_encoder self) c sm d Hsm Hd) as [K HK]
  end.
  rewrite HK, Henc. apply Z.leb_le in Hle. rewrite Hle. reflexivity.
Qed.

(** The demo encoder-only model at stage 1 with the threshold at 1. *)
Lemma encoder_model_past_threshold_witness :
  returned (t5_encoder_model_forward MoreDemo.demo_encoder_model
              (MoreDemo.model_call_at Demo.stage1 1 Demo.embeds258))
  = raise (ValueError "Config in T5Stack is not aligned with pipeline setting.").
Proof.
  apply (encoder_model_past_threshold MoreDemo.demo_encoder_model
           (MoreDemo.model_call_at Demo.stage1 1 Demo.embeds258) Demo.stage1 1
           eq_refl eq_refl eq_refl).
  cbn. lia.
Defined.

(** ** The decoder stages of the seq2seq forwards *)

Lemma seq_getitem_ok {A} (l : list A) (i : Z) (x : A) :
  0 <= i -> nth_error l (Z.to_nat i) = Some x -> seq_getitem l i = ok x.
Proof.
  intros Hi Hn. unfold seq_getitem.
  assert (Hlt : (Z.to_nat i < List.length l)%nat) by (apply nth_error_Some; congruence).
  replace (i <? 0) with false by lia.
  replace ((i <? 0) || (Z.of_nat (List.length l) <=? i)) with false by lia.
  rewrite Hn. reflexivity.
Qed.

Section DecoderStage.
Context {B : Backend}.

Lemma tuple_as_BaseModelOutput (x : pyval) (rest : list pyval) :
  exists v, as_BaseModelOutput (PTuple (x :: rest)) = ok v.
Proof.
  destruct rest as [| y [| z rest]]; try (eexists; reflexivity).
  unfold as_BaseModelOutput. cbn [py_getitem py_len].
  rewrite (seq_getitem_ok (x :: y :: z :: rest) 0 x) by (lia || reflexivity).
  cbn [rbind ok].
  replace (1 <? Z.of_nat (List.length (x :: y :: z :: rest))) with true
    by (symmetry; apply Z.ltb_lt; cbn [List.length]; lia).
  replace (2 <? Z.of_nat (List.length (x :: y :: z :: rest))) with true
    by (symmetry; apply Z.ltb_lt; cbn [List.length]; lia).
  rewrite (seq_getitem_ok (x :: y :: z :: rest) 1 y) by (lia || reflexivity).
  rewrite (seq_getitem_ok (x :: y :: z :: rest) 2 z) by (lia || reflexivity).
  eexists; reflexivity.
Qed.

Lemma model_forward_decoder_error (self : T5Model) (a : model_args) sm d x rest :
  m_stage_manager a = Some sm -> m_decoder_starting_stage a = Some d ->
  d <= stage sm ->
  m_encoder_outputs a = PTuple (x :: rest) ->
  returned (t5_model_forward self a)
  = raise (if negb (stage sm =? d) && is_None (m_hidden_states a)
           then ValueError
                  "If not at the first layer of decoder, non-empty hidden_states must be provided."
           else AttributeError "'NoneType' object has no attribute 'stage'").
Proof.
  intros Hsm Hd Hst Heo. unfold t5_model_forward.
  rewrite (returned_mbind_ok _ _ _ (returned_clear_past _)).
  rewrite (returned_mbind_ok _ _ _ (returned_force_off _ _)).
  rewrite (returned_mbind_ok _ _ _ (returned_force_off _ _)).
  rewrite (returned_mbind_ok _ _ _ (returned_force_off _ _)).
  destruct (returned_head_mask_block a (config_num_layers (model_config self))
              (config_num_decoder_layers (model_config self))) as [dhm Edhm].
  rewrite (returned_mbind_ok _ _ _ Edhm).
  rewrite Hsm, Hd. cbn [stage_ge].
  assert (E1 : (d <=? stage sm) = true) by (apply Z.leb_le; exact Hst).
  rewrite E1, returned_mbind_mret. cbn [negb]. cbv zeta.
  rewrite Heo. cbn [is_None].
  rewrite (returned_mbind_ok _ _ x) by reflexivity.
  destruct (tuple_as_BaseModelOutput x rest) as [v Ev].
  assert (G : exists eo,
             returned
               (if match m_return_dict a with
                   | Some b => b
                   | None => config_use_return_dict (model_config self)
                   end && negb (isinstance_BaseModelOutput (PTuple (x :: rest)))
                then lift (as_BaseModelOutput (PTuple (x :: rest)))
                else mret (PTuple (x :: rest))) = ok eo).
  { match goal with
    | |- context [if ?c then lift _ else _] => destruct c
    end; [rewrite Ev |]; eexists; reflexivity. }
  destruct G as [eo Eeo]. rewrite (returned_mbind_ok _ _ eo Eeo).
  destruct (negb (stage sm =? d) && is_None (m_hidden_states a)); [reflexivity |].
  rewrite returned_mbind, stack_without_stage_manager by apply decoder_call_unmanaged.
  reflexivity.
Qed.

Lemma lm_forward_decoder_error (self : T5ForConditionalGeneration) (a : model_args)
  (labels : pyval) sm d x rest :
  m_stage_manager a = Some sm -> m_decoder_starting_stage a = Some d ->
  d <= stage sm ->
  m_encoder_outputs a = PTuple (x :: rest) ->
  returned (t5_for_conditional_generation_forward self a labels)
  = raise (if negb (stage sm =? d) && is_None (m_hidden_states a)
           then ValueError
                  "If not at the first layer of decoder, non-empty hidden_states must be provided."
           else AttributeError "'NoneType' object has no attribute 'stage'").
Proof.
  intros Hsm Hd Hst Heo. unfold t5_for_conditional_generation_forward.
  rewrite (returned_mbind_ok _ _ _ (returned_clear_past _)).
  rewrite (returned_mbind_ok _ _ _ (returned_force_off _ _)).
  rewrite (returned_mbind_ok _ _ _ (returned_force_off _ _)).
  rewrite (returned_mbind_ok _ _ _ (returned_force_off _ _)).
  destruct (returned_head_mask_block a (config_num_layers (lm_config self))
              (config_num_decoder_layers (lm_config self))) as [dhm Edhm].
  rewrite (returned_mbind_ok _ _ _ Edhm).
  rewrite Hsm, Hd. cbn [stage_ge].
  assert (E1 : (d <=? stage sm) = true) by (apply Z.leb_le; exact Hst).
  rewrite E1, returned_mbind_mret. cbn [negb]. cbv zeta.
  rewrite Heo. cbn [is_None].
  rewrite (returned_mbind_ok _ _ x) by reflexivity.
  destruct (tuple_as_BaseModelOutput x rest) as [v Ev].
  assert (G : exists eo,
             returned
               (if match m_return_dict a with
                   | Some b => b
                   | None => config_use_return_dict (lm_config self)
                   end && negb (isinstance_BaseModelOutput (PTuple (x :: rest)))
                then lift (as_BaseModelOutput (PTuple (x :: rest)))
                else mret (PTuple (x :: rest))) = ok eo).
  { match goal with
    | |- context [if ?c then lift _ else _] => destruct c
    end; [rewrite Ev |]; eexists; reflexivity. }
  destruct G as [eo Eeo]. rewrite (returned_mbind_ok _ _ eo Eeo).
  destruct (negb (stage sm =? d) && is_None (m_hidden_states a)); [reflexivity |].
  rewrite returned_mbind, stack_without_stage_manager by apply decoder_call_unmanaged.
  reflexivity.
Qed.

End DecoderStage.

(** X22: at a decoder stage, with the outputs of the encoder handed in as a
    tuple that is not empty, both seq2seq forwards end in one of two errors:
    after the first decoder stage and without [hidden_states], the
    [ValueError] that asks for them; in every other case the
    [AttributeError] of the staged forward, which the decoder call reaches
    without a stage manager. *)
Theorem decoder_stage_errors {B : Backend} (model : T5Model)
  (lm : T5ForConditionalGeneration) (a : model_args) (labels : pyval)
  (sm : PipelineStageManager) (d : Z) (x : pyval) (rest : list pyval) :
  m_stage_manager a = Some sm ->
  m_decoder_starting_stage a = Some d ->
  d <= stage sm ->
  m_encoder_outputs a = PTuple (x :: rest) ->
  returned (t5_model_forward model a)
  = raise (if negb (stage sm =? d) && is_None (m_hidden_states a)
           then ValueError
                  "If not at the first layer of decoder, non-empty hidden_states must be provided."
           else AttributeError "'NoneType' object has no attribute 'stage'")
  /\ returned (t5_for_conditional_generation_forward lm a labels)
     = raise (if negb (stage sm =? d) && is_None (m_hidden_states a)
              then ValueError
                     "If not at the first layer of decoder, non-empty hidden_states must be provided."
              else AttributeError "'NoneType' object has no attribute 'stage'").
Proof.
  intros Hsm Hd Hst Heo. split.
  - exact (model_forward_decoder_error model a sm d x rest Hsm Hd Hst Heo).
  - exact (lm_forward_decoder_error lm a labels sm d x rest Hsm Hd Hst Heo).
Qed.

(** The first decoder stage of the demo models, with the encoder outputs
    handed in: the [AttributeError]. *)
Lemma decoder_stage_errors_witness :
  returned (t5_model_forward Demo.demo_model
              (Demo.model_call Demo.stage1 Demo.ids25 (PTuple [Demo.embeds258])))
  = raise (AttributeError "'NoneType' object has no attribute 'stage'")
  /\ returned (t5_for_conditional_generation_forward Demo.demo_lm
                 (Demo.model_call Demo.stage1 Demo.ids25 (PTuple [Demo.embeds258])) PNone)
     = raise (AttributeError "'NoneType' object has no attribute 'stage'").
Proof.
  apply (decoder_stage_errors Demo.demo_model Demo.demo_lm
           (Demo.model_call Demo.stage1 Demo.ids25 (PTuple [Demo.embeds258])) PNone
           Demo.stage1 1 Demo.embeds258 []).
  - reflexivity.
  - reflexivity.
  - cbn. lia.
  - reflexivity.
Defined.

(** ** The advisories of the seq2seq forwards *)

Lemma logged_early {A C} (ev : event) (m : M A) (k : A -> M C) :
  In ev (fst m) -> In ev (fst (mbind m k)).
Proof.
  intros H. destruct m as [t [e | a]]; cbn in *; [exact H |].
  destruct (k a) as [t' r]. cbn. apply in_or_app. left. exact H.
Qed.

Lemma logged_later {A C} (ev : event) (m : M A) (k : A -> M C) (x : A) :
  returned m = ok x -> In ev (fst (k x)) -> In ev (fst (mbind m k)).
Proof.
  intros E H. destruct m as [t [e | a]]; cbn in E; [discriminate |].
  inversion E; subst a. cbn. destruct (k x) as [t' r]. cbn in *.
  apply in_or_app. right. exact H.
Qed.

Lemma force_off_logs msg flag :
  truthy flag = true -> In (warning_once msg) (fst (force_off msg flag)).
Proof. unfold force_off. intros ->. left. reflexivity. Qed.

(** X21: a seq2seq forward takes [use_cache] from the configuration when the
    caller leaves it at [None]; with [use_cache] true there, or passed as
    true, every call logs the advisory that the cache is not supported,
    whatever the stage and whether the call then returns or raises. *)
Theorem cache_advisory_by_default {B : Backend} (self : T5Model)
  (lm : T5ForConditionalGeneration) (a : model_args) (labels : pyval) :
  match m_use_cache a with
  | Some b => b
  | None => config_use_cache (model_config self)
  end = true ->
  match m_use_cache a with
  | Some b => b
  | None => config_use_cache (lm_config lm)
  end = true ->
  In (warning_once "use_cache=True is not supported for pipeline models at the moment.")
    (fst (t5_model_forward self a))
  /\ In (warning_once "use_cache=True is not supported for pipeline models at the moment.")
       (fst (t5_for_conditional_generation_forward lm a labels)).
Proof.
  intros H1 H2. split.
  - unfold t5_model_forward. cbv zeta.
    eapply logged_later; [apply returned_clear_past |].
    eapply logged_later; [apply returned_force_off |].
    eapply logged_later; [apply returned_force_off |].
    apply logged_early, force_off_logs.
    destruct (m_use_cache a); cbn; rewrite H1; reflexivity.
  - unfold t5_for_conditional_generation_forward. cbv zeta.
    eapply logged_later; [apply returned_clear_past |].
    eapply logged_later; [apply returned_force_off |].
    eapply logged_later; [apply returned_force_off |].
    apply logged_early, force_off_logs.
    destruct (m_use_cache a); cbn; rewrite H2; reflexivity.
Qed.

(** The demo models, whose configuration has [use_cache] set, called at
    stage 0 without [use_cache] and without inputs. *)
Lemma cache_advisory_by_default_witness :
  In (warning_once "use_cache=True is not supported for pipeline models at the moment.")
    (fst (t5_model_forward Demo.demo_model (Demo.model_call Demo.stage0 PNone PNone)))
  /\ In (warning_once "use_cache=True is not supported for pipeline models at the moment.")
       (fst (t5_for_conditional_generation_forward Demo.demo_lm
               (Demo.model_call Demo.stage0 PNone PNone) PNone)).
Proof.
  apply (cache_advisory_by_default Demo.demo_model Demo.demo_lm
           (Demo.model_call Demo.stage0 PNone PNone) PNone).
  - reflexivity.
  - reflexivity.
Defined.

End T5More.

(** * Further properties of [MetaTensor] *)

Module MetaTensorMore.
Import Torch MetaTensorModel MetaTensorProps.

#[local] Arguments MetaTensor_new : simpl never.

Lemma is_meta_device t : is_meta t = true -> tensor_device t = meta.
Proof.
  unfold is_meta, device_eqb. destruct t as [sz st off dt ly [dv] rg]; cbn.
  intros H. apply String.eqb_eq in H. now subst.
Qed.

(** ** Construction *)

Section Built.
Context {F : Frontend}.

(** A payload on virtual storage is kept as it is. *)
Lemma migrated_virtual t : is_meta t = true -> migrated t = t.
Proof. unfold migrated. now intros ->. Qed.

Lemma migrated_idem t : migrated (migrated t) = migrated t.
Proof. apply migrated_virtual, is_meta_migrated. Qed.

Lemma new_wrapper elem fd :
  wrapper (MetaTensor_new elem fd)
  = {| size := size (payload elem);
       stride := stride (payload elem);
       storage_offset := storage_offset (payload elem);
       tensor_dtype := tensor_dtype (payload elem);
       tensor_layout := tensor_layout (payload elem);
       tensor_device := device (MetaTensor_new elem fd);
       requires_grad := requires_grad (payload elem) |}.
Proof. destruct elem, fd; reflexivity. Qed.

Lemma new_built elem fd :
  MetaTensor_new elem fd
  = {| wrapper := wrapper (MetaTensor_new elem fd);
       _tensor := migrated (payload elem) |}.
Proof. rewrite <- (new_tensor elem fd). now destruct (MetaTensor_new elem fd). Qed.

Lemma new_virtual (x : tensor_like) (fd : option location) :
  is_meta (payload x) = true ->
  MetaTensor_new x fd
  = {| wrapper :=
         {| size := size (payload x);
            stride := stride (payload x);
            storage_offset := storage_offset (payload x);
            tensor_dtype := tensor_dtype (payload x);
            tensor_layout := tensor_layout (payload x);
            tensor_device := device (MetaTensor_new x fd);
            requires_grad := requires_grad (payload x) |};
       _tensor := payload x |}.
Proof.
  intros H. rewrite (new_built x fd), new_wrapper, (migrated_virtual _ H). reflexivity.
Qed.

(** What construction builds over a payload on virtual storage advertises
    the metadata of what it holds. *)
Lemma new_advertises elem fd :
  is_meta (payload elem) = true ->
  same_metadata (_tensor (MetaTensor_new elem fd)) (wrapper (MetaTensor_new elem fd)).
Proof. intros H. rewrite (new_virtual elem fd H). repeat split. Qed.

Lemma rewrap_virtual (x : tensor_like) (fd fd' : option location) :
  is_meta (payload x) = true ->
  MetaTensor_new (Proxy (MetaTensor_new x fd)) fd'
  = MetaTensor_new x match fd' with
                     | Some l => Some l
                     | None => fd
                     end.
Proof.
  intros H.
  set (fd2 := match fd' with
              | Some l => Some l
              | None => fd
              end).
  assert (H' : is_meta (payload (Proxy (MetaTensor_new x fd))) = true)
    by apply new_tensor_is_meta.
  assert (D : device (MetaTensor_new (Proxy (MetaTensor_new x fd)) fd')
              = device (MetaTensor_new x fd2)).
  { subst fd2. destruct fd' as [l |].
    - now rewrite !new_device_explicit.
    - apply new_device_default_proxy. }
  rewrite (new_virtual (Proxy (MetaTensor_new x fd)) fd' H'), (new_virtual x fd2 H), D.
  cbn [payload]. rewrite (new_tensor x fd), (migrated_virtual _ H). reflexivity.
Qed.

End Built.

(** ** [tree_map], leaf by leaf *)

Section TreeMapRelates.
Context {St : Type}.
Variable f : St -> value -> result (St * value).
Variable I : St -> Prop.
Variable R : value -> value -> Prop.
Hypothesis f_relates : forall s x s' x',
  I s -> is_leaf x = true -> f s x = ok (s', x') ->
  I s' /\ is_leaf x' = true /\ R x x'.

Lemma tree_map_args_relates l :
  Forall (fun v => forall s s' v', I s -> tree_map f s v = ok (s', v') ->
                     I s' /\ Forall2 R (leaves v) (leaves v')) l ->
  forall s s' l', I s -> tree_map_args f s l = ok (s', l') ->
    I s' /\ Forall2 R (flat_map leaves l) (flat_map leaves l').
Proof.
  induction 1 as [| x l Hx _ IH]; intros s s' l' Hs H.
  - cbn in H. inversion H; subst. split; [exact Hs | constructor].
  - cbn in H. destruct (tree_map f s x) as [e | [s1 x']] eqn:E1; [discriminate |].
    cbn in H. destruct (tree_map_args f s1 l) as [e | [s2 l2]] eqn:E2; [discriminate |].
    cbn in H. inversion H; subst.
    destruct (Hx _ _ _ Hs E1) as [Hs1 Hq1]. destruct (IH _ _ _ Hs1 E2) as [Hs2 Hq2].
    split; [exact Hs2 |]. cbn. apply Forall2_app; assumption.
Qed.

Lemma tree_map_kwargs_relates d :
  Forall (fun kv => forall s s' v', I s -> tree_map f s (snd kv) = ok (s', v') ->
                      I s' /\ Forall2 R (leaves (snd kv)) (leaves v')) d ->
  forall s s' d', I s -> tree_map_kwargs f s d = ok (s', d') ->
    I s' /\ Forall2 R (flat_map (fun kv => leaves (snd kv)) d)
              (flat_map (fun kv => leaves (snd kv)) d').
Proof.
  induction 1 as [| [k x] d Hx _ IH]; intros s s' d' Hs H.
  - cbn in H. inversion H; subst. split; [exact Hs | constructor].
  - cbn in H, Hx. destruct (tree_map f s x) as [e | [s1 x']] eqn:E1; [discriminate |].
    cbn in H. destruct (tree_map_kwargs f s1 d) as [e | [s2 d2]] eqn:E2; [discriminate |].
    cbn in H. inversion H; subst.
    destruct (Hx _ _ _ Hs E1) as [Hs1 Hq1]. destruct (IH _ _ _ Hs1 E2) as [Hs2 Hq2].
    split; [exact Hs2 |]. cbn. apply Forall2_app; assumption.
Qed.

Lemma tree_map_relates : forall v s s' v',
  I s -> tree_map f s v = ok (s', v') -> I s' /\ Forall2 R (leaves v) (leaves v').
Proof.
  induction v as [v Hv | l IHl | l IHl | d IHd] using value_tree_ind;
    intros s s' v' Hs H.
  - rewrite tree_map_leaf in H by exact Hv.
    destruct (f_relates _ _ _ _ Hs Hv H) as (Hs' & Hl & Hr).
    split; [exact Hs' |]. rewrite (leaves_leaf _ Hv), (leaves_leaf _ Hl).
    constructor; [exact Hr | constructor].
  - rewrite tree_map_VList in H.
    destruct (tree_map_args f s l) as [e | [s1 l1]] eqn:E; [discriminate |].
    cbn in H. inversion H; subst. exact (tree_map_args_relates l IHl _ _ _ Hs E).
  - rewrite tree_map_VTuple in H.
    destruct (tree_map_args f s l) as [e | [s1 l1]] eqn:E; [discriminate |].
    cbn in H. inversion H; subst. exact (tree_map_args_relates l IHl _ _ _ Hs E).
  - rewrite tree_map_VDict in H.
    destruct (tree_map_kwargs f s d) as [e | [s1 d1]] eqn:E; [discriminate |].
    cbn in H. inversion H; subst. exact (tree_map_kwargs_relates d IHd _ _ _ Hs E).
Qed.

End TreeMapRelates.

(** ** What [unwrap] hands to the operation *)

Section Unwrapped.
Context {F : Frontend}.

Lemma unwrap_tree_exact : forall v s,
  tree_map unwrap s v = ok (fold_left seen (leaves v) s, unwrapped v).
Proof.
  induction v as [v Hv | l IHl | l IHl | d IHd] using value_tree_ind; intros s.
  - rewrite tree_map_leaf by exact Hv. rewrite (leaves_leaf _ Hv).
    destruct v; try discriminate; reflexivity.
  - rewrite tree_map_VList.
    assert (G : forall s, tree_map_args unwrap s l
                          = ok (fold_left seen (flat_map leaves l) s, map unwrapped l)).
    { clear s. induction IHl as [| x l Hx _ IH]; intros s; [reflexivity |].
      cbn. rewrite Hx. cbn. rewrite IH. cbn. now rewrite fold_left_app. }
    rewrite G. reflexivity.
  - rewrite tree_map_VTuple.
    assert (G : forall s, tree_map_args unwrap s l
                          = ok (fold_left seen (flat_map leaves l) s, map unwrapped l)).
    { clear s. induction IHl as [| x l Hx _ IH]; intros s; [reflexivity |].
      cbn. rewrite Hx. cbn. rewrite IH. cbn. now rewrite fold_left_app. }
    rewrite G. reflexivity.
  - rewrite tree_map_VDict.
    assert (G : forall s, tree_map_kwargs unwrap s d
                          = ok (fold_left seen (flat_map (fun kv => leaves (snd kv)) d) s,
                                map (fun kv => (fst kv, unwrapped (snd kv))) d)).
    { clear s. induction IHd as [| [k x] d Hx _ IH]; intros s; [reflexivity |].
      cbn in Hx |- *. rewrite Hx. cbn. rewrite IH. cbn. now rewrite fold_left_app. }
    rewrite G. reflexivity.
Qed.

Lemma unwrap_args_exact l s :
  tree_map_args unwrap s l = ok (fold_left seen (leaves_args l) s, unwrapped_args l).
Proof.
  pose proof (unwrap_tree_exact (VTuple l) s) as E. rewrite tree_map_VTuple in E.
  destruct (tree_map_args unwrap s l) as [e | [s1 l1]]; [discriminate |].
  cbn in E. inversion E; subst. reflexivity.
Qed.

Lemma unwrap_kwargs_exact d s :
  tree_map_kwargs unwrap s d
  = ok (fold_left seen (leaves_kwargs d) s,
        map (fun kv => (fst kv, unwrapped (snd kv))) d).
Proof.
  pose proof (unwrap_tree_exact (VDict d) s) as E. rewrite tree_map_VDict in E.
  destruct (tree_map_kwargs unwrap s d) as [e | [s1 d1]]; [discriminate |].
  cbn in E. inversion E; subst. reflexivity.
Qed.

(** The interception, in one equation: the operation is called on the
    unwrapped arguments, and its result is wrapped in the state the scan of
    the arguments has left. *)
Lemma dispatch_unfolded Tensor_to deepcopy func args kwargs :
  exists fd,
    torch_dispatch Tensor_to deepcopy func args (Some kwargs)
    = rbind (func (unwrapped_args args) (unwrapped_kwargs kwargs))
        (fun out0 => rbind (tree_map (wrap Tensor_to deepcopy) fd out0)
                       (fun '(_, out) => ok out))
    /\ fd = fold_left seen
              (leaves_kwargs match dict_get "device" kwargs with
                             | Some _ => dict_set "device" (VDevice meta) kwargs
                             | None => kwargs
                             end)
              (fold_left seen (leaves_args args)
                 match dict_get "device" kwargs with
                 | Some d => d
                 | None => VNone
                 end).
Proof.
  eexists. split; [| reflexivity].
  unfold torch_dispatch, unwrapped_kwargs.
  destruct (dict_get "device" kwargs) as [d |];
    rewrite unwrap_args_exact; cbn [rbind ok]; rewrite unwrap_kwargs_exact; reflexivity.
Qed.

Lemma leaves_unwrapped : forall v, leaves (unwrapped v) = map unwrapped (leaves v).
Proof.
  induction v as [v Hv | l IHl | l IHl | d IHd] using value_tree_ind.
  - destruct v; try discriminate; reflexivity.
  - cbn [unwrapped leaves]. induction IHl as [| x l Hx _ IH]; [reflexivity |].
    cbn. now rewrite map_app, Hx, IH.
  - cbn [unwrapped leaves]. induction IHl as [| x l Hx _ IH]; [reflexivity |].
    cbn. now rewrite map_app, Hx, IH.
  - cbn [unwrapped leaves]. induction IHd as [| [k x] d Hx _ IH]; [reflexivity |].
    cbn in Hx |- *. now rewrite map_app, Hx, IH.
Qed.

Lemma leaves_unwrapped_args l :
  leaves_args (map unwrapped l) = map unwrapped (leaves_args l).
Proof. exact (leaves_unwrapped (VTuple l)). Qed.

Lemma leaves_unwrapped_kwargs d :
  leaves_kwargs (map (fun kv => (fst kv, unwrapped (snd kv))) d)
  = map unwrapped (leaves_kwargs d).
Proof. exact (leaves_unwrapped (VDict d)). Qed.

Lemma unwrapped_on_virtual x : sound_input x = true -> on_virtual (unwrapped x) = true.
Proof.
  destruct x; cbn [sound_input on_virtual unwrapped]; intros H; try reflexivity.
  - apply is_meta_to_meta.
  - exact H.
Qed.

Lemma forallb_unwrapped ls :
  forallb sound_input ls = true -> forallb on_virtual (map unwrapped ls) = true.
Proof.
  induction ls as [| x ls IH]; cbn; [reflexivity |].
  intros H. apply andb_prop in H. destruct H as [H1 H2].
  now rewrite (unwrapped_on_virtual x H1), (IH H2).
Qed.

Lemma dict_get_map k (g : value -> value) : forall d,
  dict_get k (map (fun kv => (fst kv, g (snd kv))) d) = option_map g (dict_get k d).
Proof.
  induction d as [| [k' x] d IH]; [reflexivity |].
  cbn. destruct (String.eqb k k'); [reflexivity | exact IH].
Qed.

Lemma dict_get_set k v : forall d, dict_get k (dict_set k v d) = Some v.
Proof.
  induction d as [| [k' x] d IH]; cbn.
  - now rewrite String.eqb_refl.
  - destruct (String.eqb k k') eqn:E; cbn; rewrite E; [reflexivity | exact IH].
Qed.

Lemma sound_after_replacement args kwargs :
  forallb sound_input (leaves_args args ++ leaves_kwargs kwargs) = true ->
  forallb sound_input
    (leaves_args args ++
     leaves_kwargs match dict_get "device" kwargs with
                   | Some _ => dict_set "device" (VDevice meta) kwargs
                   | None => kwargs
                   end) = true.
Proof.
  destruct (dict_get "device" kwargs) as [d |] eqn:E; [| exact (fun H => H)].
  destruct (dict_set_leaves "device" (VDevice meta) _ _ E) as (pre & post & E1 & E2).
  rewrite E1, E2, !forallb_app. cbn [leaves forallb sound_input].
  intros H. repeat (apply andb_prop in H; destruct H as [? H]).
  repeat (apply andb_true_intro; split); assumption || reflexivity.
Qed.

Lemma virtual_only_passes func args kwargs :
  forallb sound_input (leaves_args args ++ leaves_kwargs kwargs) = true ->
  virtual_only func (unwrapped_args args) (unwrapped_kwargs kwargs)
  = func (unwrapped_args args) (unwrapped_kwargs kwargs).
Proof.
  intros H. apply sound_after_replacement in H.
  unfold virtual_only, unwrapped_args, unwrapped_kwargs. revert H.
  destruct (dict_get "device" kwargs) as [d |] eqn:E; intros H;
    rewrite leaves_unwrapped_args, leaves_unwrapped_kwargs, <- map_app,
      (forallb_unwrapped _ H), dict_get_map.
  - rewrite dict_get_set. reflexivity.
  - rewrite E. reflexivity.
Qed.

End Unwrapped.

(** ** The state [wrap] runs in *)

Lemma seen_tensor s x : is_tensor x = true -> seen s x = VDevice (leaf_device x).
Proof. destruct x; cbn; intros H; try discriminate; reflexivity. Qed.

Lemma scan_filter args kw s :
  fold_left seen (leaves_kwargs kw) (fold_left seen (leaves_args args) s)
  = fold_left seen (filter is_tensor (leaves_args args ++ leaves_kwargs kw)) s.
Proof. now rewrite <- fold_left_app, fold_seen_filter. Qed.

(** A location keyword without a tensor in it leaves the tensors among the
    arguments as they are. *)
Lemma keyword_replaced_inputs args kwargs :
  (forall v, dict_get "device" kwargs = Some v -> filter is_tensor (leaves v) = []) ->
  filter is_tensor
    (leaves_args args ++
     leaves_kwargs match dict_get "device" kwargs with
                   | Some _ => dict_set "device" (VDevice meta) kwargs
                   | None => kwargs
                   end)
  = tensor_inputs args kwargs.
Proof.
  unfold tensor_inputs. intros Hk.
  destruct (dict_get "device" kwargs) as [d |] eqn:E; [| reflexivity].
  destruct (dict_set_leaves "device" (VDevice meta) _ _ E) as (pre & post & E1 & E2).
  rewrite E1, E2, !filter_app, (Hk d eq_refl). reflexivity.
Qed.

Lemma scan_last args kwargs ls x :
  (forall v, dict_get "device" kwargs = Some v -> filter is_tensor (leaves v) = []) ->
  tensor_inputs args kwargs = (ls ++ [x])%list ->
  fold_left seen
    (leaves_kwargs match dict_get "device" kwargs with
                   | Some _ => dict_set "device" (VDevice meta) kwargs
                   | None => kwargs
                   end)
    (fold_left seen (leaves_args args)
       match dict_get "device" kwargs with
       | Some d => d
       | None => VNone
       end)
  = VDevice (leaf_device x).
Proof.
  intros Hk Hin. rewrite scan_filter, (keyword_replaced_inputs args kwargs Hk), Hin.
  rewrite fold_left_app. cbn. apply seen_tensor.
  assert (Hx : In x (tensor_inputs args kwargs))
    by (rewrite Hin; apply in_or_app; right; left; reflexivity).
  unfold tensor_inputs in Hx. apply filter_In in Hx. exact (proj2 Hx).
Qed.

Lemma scan_nothing args kwargs :
  dict_get "device" kwargs = None ->
  tensor_inputs args kwargs = [] ->
  fold_left seen
    (leaves_kwargs match dict_get "device" kwargs with
                   | Some _ => dict_set "device" (VDevice meta) kwargs
                   | None => kwargs
                   end)
    (fold_left seen (leaves_args args)
       match dict_get "device" kwargs with
       | Some d => d
       | None => VNone
       end)
  = VNone.
Proof.
  intros Hk Hin. rewrite scan_filter, Hk. unfold tensor_inputs in Hin. now rewrite Hin.
Qed.

(** ** [wrap], leaf by leaf *)

Section Wrap.
Context {F : Frontend}.
Variable Tensor_to : MetaTensor -> dtype -> bool -> bool -> result tensor_like.
Variable deepcopy : tensor_like -> result tensor_like.

(** [wrap] answers, for a plain tensor, a proxy that holds it on virtual
    storage and advertises the metadata of what it holds. *)
Lemma wrap_mirrors fd x s' x' :
  is_leaf x = true -> wrap Tensor_to deepcopy fd x = ok (s', x') ->
  s' = fd /\ is_leaf x' = true /\ mirrors x x'.
Proof.
  intros Hx H. destruct (is_tensor x) eqn:Ht.
  - destruct x; try discriminate.
    + unfold wrap in H.
      destruct (location_of_value fd) as [e | l]; [discriminate |].
      cbn [rbind ok] in H. inversion H; subst s' x'.
      split; [reflexivity | split; [reflexivity |]].
      replace (if negb (is_meta t) then Tensor_to_device t meta else t) with (migrated t)
        by (unfold migrated; now destruct (is_meta t)).
      cbn [mirrors]. split.
      * rewrite new_tensor. cbn [payload]. apply migrated_idem.
      * apply new_advertises. apply is_meta_migrated.
    + destruct (wrap_tensor_inv Tensor_to deepcopy fd (VMeta m) s' x' Ht H)
        as (y & l & _ & -> & ->).
      split; [reflexivity | split; [reflexivity | exact I]].
  - rewrite (wrap_other Tensor_to deepcopy fd x Ht) in H. inversion H; subst.
    split; [reflexivity | split; [exact Hx |]].
    destruct x'; try discriminate; reflexivity.
Qed.

(** With nothing in [fake_device], the proxies [wrap] builds report the
    virtual device. *)
Lemma wrap_reports_virtual x s' x' :
  is_leaf x = true -> wrap Tensor_to deepcopy VNone x = ok (s', x') ->
  s' = VNone /\ is_leaf x' = true /\ reports meta x'.
Proof.
  intros Hx H. destruct (is_tensor x) eqn:Ht.
  - destruct x; try discriminate; unfold wrap in H.
    + cbn [location_of_value rbind ok] in H. inversion H; subst s' x'.
      split; [reflexivity | split; [reflexivity |]].
      cbn [reports]. rewrite new_device_default_plain.
      destruct (is_meta t) eqn:E; cbn [negb].
      * exact (is_meta_device t E).
      * apply is_meta_device, is_meta_to_meta.
    + unfold to, to_location in H.
      destruct (negb (is_meta (wrapper m))) eqn:E.
      * cbn [rbind ok] in H. destruct (deepcopy (Proxy m)) as [e | c]; [discriminate |].
        cbn [location_of_value rbind ok] in H. inversion H; subst s' x'.
        split; [reflexivity | split; [reflexivity |]].
        cbn [reports]. rewrite new_device_default_proxy. apply new_device_explicit.
      * cbn [location_of_value rbind ok] in H. inversion H; subst s' x'.
        split; [reflexivity | split; [reflexivity |]].
        cbn [reports]. rewrite new_device_default_proxy.
        apply Bool.negb_false_iff in E. exact (is_meta_device _ E).
  - rewrite (wrap_other Tensor_to deepcopy VNone x Ht) in H. inversion H; subst.
    split; [reflexivity | split; [exact Hx |]].
    destruct x'; try discriminate; exact I.
Qed.

End Wrap.

(** ** Construction over a proxy *)

(** X14: when the payload is on virtual storage already, as it is in every
    proxy that has been built, wrapping a proxy of it again gives the proxy
    one wrapping would have given, wrapper and payload alike: with the
    location of the second wrapping when there is one, and otherwise with
    what the first was given. *)
Theorem wrapping_twice {F : Frontend} (x : tensor_like) (fd fd' : option location) :
  is_meta (payload x) = true ->
  MetaTensor_new (Proxy (MetaTensor_new x fd)) fd'
  = MetaTensor_new x match fd' with
                     | Some l => Some l
                     | None => fd
                     end.
Proof. exact (rewrap_virtual x fd fd'). Qed.

(** The proxy of the CPU tensor, wrapped for an accelerator and then
    without a location. *)
Lemma wrapping_twice_witness :
  MetaTensor_new (F := Demo.demo_frontend)
    (Proxy (MetaTensor_new (F := Demo.demo_frontend) (Proxy Demo.proxy_cpu)
              (Some (LocDevice Demo.cuda0)))) None
  = MetaTensor_new (F := Demo.demo_frontend) (Proxy Demo.proxy_cpu)
      (Some (LocDevice Demo.cuda0)).
Proof.
  apply (wrapping_twice (F := Demo.demo_frontend) (Proxy Demo.proxy_cpu)
           (Some (LocDevice Demo.cuda0)) None).
  reflexivity.
Defined.

(** ** The interception as a whole *)

(** X16: when the interception returns, the operation has returned on the
    unwrapped arguments, and the leaves of the result stand one for one for
    the leaves of what the operation returned: where that is a plain tensor,
    a proxy that holds it (migrated when it was on live storage) and
    advertises the size, stride, offset, dtype, layout and gradient flag of
    what it holds; a proxy where it is a proxy; the leaf itself where it is
    no tensor. *)
Theorem results_mirror_the_operation {F : Frontend}
  (Tensor_to : MetaTensor -> dtype -> bool -> bool -> result tensor_like)
  (deepcopy : tensor_like -> result tensor_like)
  (func : list value -> dict -> result value)
  (args : list value) (kwargs : dict) (out : value) :
  torch_dispatch Tensor_to deepcopy func args (Some kwargs) = ok out ->
  exists out0,
    func (unwrapped_args args) (unwrapped_kwargs kwargs) = ok out0
    /\ Forall2 mirrors (leaves out0) (leaves out).
Proof.
  intros H.
  destruct (dispatch_unfolded Tensor_to deepcopy func args kwargs) as (fd & E & _).
  rewrite E in H. clear E.
  destruct (func (unwrapped_args args) (unwrapped_kwargs kwargs)) as [e | out0];
    [discriminate |].
  cbn [rbind ok] in H. exists out0. split; [reflexivity |].
  destruct (tree_map (wrap Tensor_to deepcopy) fd out0) as [e | [s' out']] eqn:Ew;
    [discriminate |].
  cbn in H. inversion H; subst out'.
  refine (proj2 (tree_map_relates (wrap Tensor_to deepcopy) (fun s => s = fd) mirrors _
                   out0 fd s' out eq_refl Ew)).
  intros s x s1 x1 -> Hx Hw. exact (wrap_mirrors Tensor_to deepcopy fd x s1 x1 Hx Hw).
Qed.

(** An operation on a view into a CPU tensor, three elements in: the proxy
    of the result holds the copy on virtual storage, which starts at the
    head of its storage, and advertises that. *)
Lemma results_mirror_the_operation_witness :
  torch_dispatch (F := Demo.demo_frontend) Demo.demo_Tensor_to Demo.demo_deepcopy
    MoreDemo.answer_view [VMeta Demo.proxy_cpu] (Some [])
  = ok (VMeta
          {| wrapper := MoreDemo.view3_on Demo.cpu 0;
             _tensor := MoreDemo.view3_on meta 0 |})
  /\ exists out0,
       MoreDemo.answer_view
         (unwrapped_args (F := Demo.demo_frontend) [VMeta Demo.proxy_cpu])
         (unwrapped_kwargs (F := Demo.demo_frontend) []) = ok out0
       /\ Forall2 (mirrors (F := Demo.demo_frontend)) (leaves out0)
            (leaves (VMeta
                       {| wrapper := MoreDemo.view3_on Demo.cpu 0;
                          _tensor := MoreDemo.view3_on meta 0 |})).
Proof.
  split; [reflexivity |].
  apply (results_mirror_the_operation (F := Demo.demo_frontend)
           Demo.demo_Tensor_to Demo.demo_deepcopy MoreDemo.answer_view
           [VMeta Demo.proxy_cpu] []).
  reflexivity.
Defined.

(** X17: an error of the operation is the error of the interception;
    unwrapping the arguments never raises one before it. *)
Theorem operation_error_passed_on {F : Frontend}
  (Tensor_to : MetaTensor -> dtype -> bool -> bool -> result tensor_like)
  (deepcopy : tensor_like -> result tensor_like)
  (func : list value -> dict -> result value)
  (args : list value) (kwargs : dict) (e : exn) :
  func (unwrapped_args args) (unwrapped_kwargs kwargs) = raise e ->
  torch_dispatch Tensor_to deepcopy func args (Some kwargs) = raise e.
Proof.
  intros H.
  destruct (dispatch_unfolded Tensor_to deepcopy func args kwargs) as (fd & E & _).
  rewrite E, H. reflexivity.
Qed.

Lemma operation_error_passed_on_witness :
  torch_dispatch (F := Demo.demo_frontend) Demo.demo_Tensor_to Demo.demo_deepcopy
    MoreDemo.failing_op
    [VList [VMeta Demo.proxy_cpu; VInt 2]] (Some [("device", VStr "cuda:0")])
  = raise (CollaboratorError "mat1 and mat2 shapes cannot be multiplied").
Proof.
  apply (operation_error_passed_on (F := Demo.demo_frontend)
           Demo.demo_Tensor_to Demo.demo_deepcopy MoreDemo.failing_op
           [VList [VMeta Demo.proxy_cpu; VInt 2]] [("device", VStr "cuda:0")]).
  reflexivity.
Defined.

(** X18: when the interception returns and there is a tensor among the
    arguments, every proxy of the result reports the device of the last
    tensor among the arguments (positional first, then the keywords in
    their order); a location keyword makes no difference. *)
Theorem last_tensor_decides {F : Frontend}
  (Tensor_to : MetaTensor -> dtype -> bool -> bool -> result tensor_like)
  (deepcopy : tensor_like -> result tensor_like)
  (func : list value -> dict -> result value)
  (args : list value) (kwargs : dict) (ls : list value) (x out : value) :
  (forall v, dict_get "device" kwargs = Some v -> filter is_tensor (leaves v) = []) ->
  tensor_inputs args kwargs = (ls ++ [x])%list ->
  torch_dispatch Tensor_to deepcopy func args (Some kwargs) = ok out ->
  Forall (reports (leaf_device x)) (leaves out).
Proof.
  intros Hk Hin H.
  destruct (dispatch_unfolded Tensor_to deepcopy func args kwargs) as (fd & E & Efd).
  rewrite (scan_last args kwargs ls x Hk Hin) in Efd. subst fd.
  rewrite E in H. clear E.
  destruct (func (unwrapped_args args) (unwrapped_kwargs kwargs)) as [e | out0];
    [discriminate |].
  cbn [rbind ok] in H.
  destruct (tree_map (wrap Tensor_to deepcopy) (VDevice (leaf_device x)) out0)
    as [e | [s' out']] eqn:Ew; [discriminate |].
  cbn in H. inversion H; subst out'.
  refine (proj2 (tree_map_keeps (wrap Tensor_to deepcopy)
                   (fun s => s = VDevice (leaf_device x))
                   (reports (leaf_device x)) _ out0 _ s' out eq_refl Ew)).
  intros s y s1 y1 -> Hy Hw.
  refine (wrap_reports Tensor_to deepcopy (VDevice (leaf_device x)) (leaf_device x)
            y s1 y1 _ Hy Hw).
  reflexivity.
Qed.

(** A proxy that reports the CPU and a tensor on an accelerator, with a
    location keyword: the result reports the accelerator. *)
Lemma last_tensor_decides_witness :
  torch_dispatch (F := Demo.demo_frontend) Demo.demo_Tensor_to Demo.demo_deepcopy
    Demo.like_first
    [VMeta Demo.proxy_cpu; VList [VTensor MoreDemo.y4; VInt 1]]
    (Some [("device", VStr "cpu")])
  = ok (VMeta (MetaTensor_new (F := Demo.demo_frontend)
                 (Plain (_tensor Demo.proxy_cpu)) (Some (LocDevice Demo.cuda0))))
  /\ Forall (reports Demo.cuda0)
       (leaves (VMeta (MetaTensor_new (F := Demo.demo_frontend)
                         (Plain (_tensor Demo.proxy_cpu))
                         (Some (LocDevice Demo.cuda0))))).
Proof.
  split; [reflexivity |].
  apply (last_tensor_decides (F := Demo.demo_frontend)
           Demo.demo_Tensor_to Demo.demo_deepcopy Demo.like_first
           [VMeta Demo.proxy_cpu; VList [VTensor MoreDemo.y4; VInt 1]]
           [("device", VStr "cpu")] [VMeta Demo.proxy_cpu] (VTensor MoreDemo.y4)).
  - intros v H. inversion H. reflexivity.
  - reflexivity.
  - reflexivity.
Defined.

(** X19: when the interception returns, without a tensor among the
    arguments and without a location keyword, every proxy of the result
    reports the virtual device, whatever device the operation made its
    tensors on. *)
Theorem no_input_reports_virtual {F : Frontend}
  (Tensor_to : MetaTensor -> dtype -> bool -> bool -> result tensor_like)
  (deepcopy : tensor_like -> result tensor_like)
  (func : list value -> dict -> result value)
  (args : list value) (kwargs : dict) (out : value) :
  dict_get "device" kwargs = None ->
  tensor_inputs args kwargs = [] ->
  torch_dispatch Tensor_to deepcopy func args (Some kwargs) = ok out ->
  Forall (reports meta) (leaves out).
Proof.
  intros Hk Hin H.
  destruct (dispatch_unfolded Tensor_to deepcopy func args kwargs) as (fd & E & Efd).
  rewrite (scan_nothing args kwargs Hk Hin) in Efd. subst fd.
  rewrite E in H. clear E.
  destruct (func (unwrapped_args args) (unwrapped_kwargs kwargs)) as [e | out0];
    [discriminate |].
  cbn [rbind ok] in H.
  destruct (tree_map (wrap Tensor_to deepcopy) VNone out0) as [e | [s' out']] eqn:Ew;
    [discriminate |].
  cbn in H. inversion H; subst out'.
  refine (proj2 (tree_map_keeps (wrap Tensor_to deepcopy) (fun s => s = VNone)
                   (reports meta) _ out0 _ s' out eq_refl Ew)).
  intros s y s1 y1 -> Hy Hw.
  exact (wrap_reports_virtual Tensor_to deepcopy y s1 y1 Hy Hw).
Qed.

(** A factory called with a size only: the tensor it answers, made on an
    accelerator, comes back as a proxy that reports the virtual device. *)
Lemma no_input_reports_virtual_witness :
  torch_dispatch (F := Demo.demo_frontend) Demo.demo_Tensor_to Demo.demo_deepcopy
    MoreDemo.factory_op [VList [VInt 4]] (Some [("dtype", VDtype float16)])
  = ok (VTuple [VMeta (MetaTensor_new (F := Demo.demo_frontend)
                         (Plain (Tensor_to_device (F := Demo.demo_frontend)
                                   MoreDemo.y4 meta)) None);
                VInt 7])
  /\ Forall (reports meta)
       (leaves (VTuple [VMeta (MetaTensor_new (F := Demo.demo_frontend)
                                 (Plain (Tensor_to_device (F := Demo.demo_frontend)
                                           MoreDemo.y4 meta)) None);
                        VInt 7])).
Proof.
  split; [reflexivity |].
  apply (no_input_reports_virtual (F := Demo.demo_frontend)
           Demo.demo_Tensor_to Demo.demo_deepcopy MoreDemo.factory_op
           [VList [VInt 4]] [("dtype", VDtype float16)]).
  - reflexivity.
  - reflexivity.
  - reflexivity.
Defined.

(** X20: the operation is called on virtual storage only.  When the payload
    of every proxy among the arguments is on virtual storage, as
    construction leaves it, an operation that refuses a proxy, a tensor on
    live storage or a location keyword other than the virtual device runs
    under the interception as the operation without the check does. *)
Theorem operation_sees_virtual_storage_only {F : Frontend}
  (Tensor_to : MetaTensor -> dtype -> bool -> bool -> result tensor_like)
  (deepcopy : tensor_like -> result tensor_like)
  (func : list value -> dict -> result value)
  (args : list value) (kwargs : dict) :
  forallb sound_input (leaves_args args ++ leaves_kwargs kwargs) = true ->
  torch_dispatch Tensor_to deepcopy (virtual_only func) args (Some kwargs)
  = torch_dispatch Tensor_to deepcopy func args (Some kwargs).
Proof.
  intros H.
  destruct (dispatch_unfolded Tensor_to deepcopy func args kwargs) as (fd & E & Efd).
  destruct (dispatch_unfolded Tensor_to deepcopy (virtual_only func) args kwargs)
    as (fd' & E' & Efd').
  rewrite E, E', (virtual_only_passes func args kwargs H). subst fd fd'. reflexivity.
Qed.

(** A proxy, a tensor on an accelerator and a location keyword. *)
Lemma operation_sees_virtual_storage_only_witness :
  torch_dispatch (F := Demo.demo_frontend) Demo.demo_Tensor_to Demo.demo_deepcopy
    (virtual_only Demo.echo_kwargs)
    [VMeta Demo.proxy_cpu; VTensor MoreDemo.y4] (Some [("device", VStr "cuda:0")])
  = torch_dispatch (F := Demo.demo_frontend) Demo.demo_Tensor_to Demo.demo_deepcopy
      Demo.echo_kwargs
      [VMeta Demo.proxy_cpu; VTensor MoreDemo.y4] (Some [("device", VStr "cuda:0")]).
Proof.
  apply (operation_sees_virtual_storage_only (F := Demo.demo_frontend)
           Demo.demo_Tensor_to Demo.demo_deepcopy Demo.echo_kwargs
           [VMeta Demo.proxy_cpu; VTensor MoreDemo.y4] [("device", VStr "cuda:0")]).
  reflexivity.
Defined.

End MetaTensorMore.
